(** * Meckano Helper: the dialog filler, its data provider and its utilities

    A shallow embedding of the content script of the extension
    (utils.js, constantDataProvider.js, dialogManager.js, formManager.js,
    content.js and the older single-file content script), followed by the
    properties of the readiness polling, the row classification, the fill
    pass and the submission. *)

From Stdlib Require Import ZArith NArith Lia Bool String Ascii DecimalString.
From stdpp Require Import base list gmap.

Local Open Scope Z_scope.

(* ===================================================================== *)
(** ** JavaScript strings and numbers *)
(* ===================================================================== *)

(** A JavaScript string is a sequence of UTF-16 code units.  The Hebrew
    letters of the page all lie in the basic plane, one code unit each. *)
Module JS.

Abbreviation str := (list N) (only parsing).

(** An ASCII literal of the source, as code units. *)
Definition lit (s : string) : str :=
  map N_of_ascii (list_ascii_of_string s).

Definition str_eqb (a b : str) : bool := bool_decide (a = b).

(** WhiteSpace and LineTerminator of ECMAScript: what [trim] strips and
    what [\s] matches. *)
Definition isWhiteSpace (c : N) : bool :=
  ((9 <=? c) && (c <=? 13) || (c =? 32) || (c =? 160) || (c =? 5760)
   || (8192 <=? c) && (c <=? 8202) || (c =? 8232) || (c =? 8233)
   || (c =? 8239) || (c =? 8287) || (c =? 12288) || (c =? 65279))%N.

Fixpoint trimStart (s : str) : str :=
  match s with
  | c :: s' => if isWhiteSpace c then trimStart s' else s
  | [] => []
  end.

Definition trimEnd (s : str) : str := rev (trimStart (rev s)).

Definition trim (s : str) : str := trimEnd (trimStart s).

Fixpoint startsWith (pat s : str) : bool :=
  match pat, s with
  | [], _ => true
  | p :: pat', c :: s' => (p =? c)%N && startsWith pat' s'
  | _ :: _, [] => false
  end.

(** [s.includes(pat)] *)
Fixpoint includes (s pat : str) : bool :=
  startsWith pat s ||
  match s with
  | [] => false
  | _ :: s' => includes s' pat
  end.

(** [s.split(sep)] for a separator of one code unit. *)
Fixpoint split (sep : N) (s : str) : list str :=
  match s with
  | [] => [[]]
  | c :: s' =>
      if (c =? sep)%N then [] :: split sep s'
      else match split sep s' with
           | w :: ws => (c :: w) :: ws
           | [] => [[c]]
           end
  end.

(** The numbers the time arithmetic meets: integers (exact in a double
    below 2^53) and NaN. *)
Inductive num : Type :=
| Int (z : Z)
| NaN.

#[export] Instance num_eq_dec : EqDecision num.
Proof. solve_decision. Defined.

Definition isDigit (c : N) : bool := ((48 <=? c) && (c <=? 57))%N.

Fixpoint digitsValue (acc : Z) (s : str) : option Z :=
  match s with
  | [] => Some acc
  | c :: s' =>
      if isDigit c then digitsValue (10 * acc + Z.of_N (c - 48)) s'
      else None
  end.

(** [Number(s)] on the strings a time field can hold: surrounding white
    space is dropped, the empty string is 0, a run of decimal digits is
    its value.  Every other text is read as NaN; signed, fractional,
    exponent and radix-prefixed literals are therefore not followed by
    this embedding (no HH:MM or HH:MM:SS time contains one). *)
Definition Number_ (s : str) : num :=
  match trim s with
  | [] => Int 0
  | t => match digitsValue 0 t with
         | Some v => Int v
         | None => NaN
         end
  end.

Definition lift2 (f : Z -> Z -> Z) (a b : num) : num :=
  match a, b with
  | Int x, Int y => Int (f x y)
  | _, _ => NaN
  end.

Definition add : num -> num -> num := lift2 Z.add.
Definition mul : num -> num -> num := lift2 Z.mul.
(** [Math.max] and [Math.min]: NaN if either argument is NaN. *)
Definition Math_max : num -> num -> num := lift2 Z.max.
Definition Math_min : num -> num -> num := lift2 Z.min.
(** [Math.floor(a / d)] for a positive integer literal [d]. *)
Definition Math_floor_div (a : num) (d : Z) : num := lift2 Z.div a (Int d).
(** [a % d]: the remainder has the sign of the dividend. *)
Definition rem (a : num) (d : Z) : num := lift2 Z.rem a (Int d).

(** [String(n)] *)
Definition String_ (n : num) : str :=
  match n with
  | Int z => lit (NilZero.string_of_int (Z.to_int z))
  | NaN => lit "NaN"
  end.

(** [s.padStart(len, fill)] for a filler of one code unit. *)
Definition padStart (len : nat) (fill : N) (s : str) : str :=
  replicate (len - length s) fill ++ s.

(** Destructuring [const [a, b] = parts]: a missing element is
    [undefined], which every arithmetic operator turns into NaN. *)
Definition item (parts : list num) (i : nat) : num := nth i parts NaN.

Definition COLON : N := 58.
Definition ZERO : N := 48.

(** What [o[key]] can give on a plain object whose own properties hold
    strings: such a string, or what every plain object inherits under
    that name from [Object.prototype] (a function, or the prototype
    itself under [__proto__]). *)
Inductive Value : Type :=
| Text (s : str)
| Inherited (name : str).

(** The properties of [Object.prototype]. *)
Definition objectPrototypeProperties : list str :=
  [lit "constructor"; lit "__defineGetter__"; lit "__defineSetter__";
   lit "hasOwnProperty"; lit "__lookupGetter__"; lit "__lookupSetter__";
   lit "isPrototypeOf"; lit "propertyIsEnumerable"; lit "toString";
   lit "valueOf"; lit "__proto__"; lit "toLocaleString"].

Definition isInherited (key : str) : bool :=
  existsb (str_eqb key) objectPrototypeProperties.

(** [o[key]]: the own property first, the inherited one next,
    [undefined] ([None]) last. *)
Definition getProperty (o : gmap str str) (key : str) : option Value :=
  match o !! key with
  | Some s => Some (Text s)
  | None => if isInherited key then Some (Inherited key) else None
  end.

(** [if (v)]: of these values only the empty string is falsy. *)
Definition truthy (v : Value) : bool :=
  match v with
  | Text [] => false
  | _ => true
  end.

(** The text of the TypeError that reading [thrown.message] raises when
    [thrown] is null or undefined, in the words of V8, the engine the
    extension runs on. *)
Definition cannotReadMessage (ofNull : bool) : str :=
  lit "Cannot read properties of "
  ++ (if ofNull then lit "null" else lit "undefined")
  ++ lit " (reading 'message')".

End JS.

Import JS.

(* ===================================================================== *)
(** ** utils.js *)
(* ===================================================================== *)

Module Utils.

(** The template [`${String(h).padStart(2,'0')}:${String(m).padStart(2,'0')}`]
    shared by [humanizeTime] and [addRandomVariation]. *)
Definition formatHM (h m : num) : str :=
  padStart 2 ZERO (String_ h) ++ [COLON] ++ padStart 2 ZERO (String_ m).

(** [humanizeTime(baseTime)].  [rnd] is the value that
    [Math.floor(Math.random() * 41)] takes in this call. *)
Definition humanizeTime (baseTime : str) (rnd : Z) : str :=
  let parts := map Number_ (split COLON baseTime) in
  let hours := item parts 0 in
  let minutes := item parts 1 in
  let totalMinutes := add (mul hours (Int 60)) minutes in
  let randomOffset := Int (rnd - 20) in
  let newTotalMinutes := add totalMinutes randomOffset in
  let newHours := Math_floor_div newTotalMinutes 60 in
  let newMinutes := rem newTotalMinutes 60 in
  formatHM newHours newMinutes.

(** [isValidTimeFormat]: the pattern [^([0-1]?[0-9]|2[0-3]):[0-5][0-9]$]. *)
Definition isValidTimeFormat (timeString : str) : bool :=
  let d01 c := ((c =? 48) || (c =? 49))%N in
  let d03 c := ((48 <=? c) && (c <=? 51))%N in
  let d05 c := ((48 <=? c) && (c <=? 53))%N in
  match timeString with
  | [h; c; m1; m2] =>
      isDigit h && (c =? COLON)%N && d05 m1 && isDigit m2
  | [h1; h2; c; m1; m2] =>
      (d01 h1 && isDigit h2 || (h1 =? 50)%N && d03 h2)
      && (c =? COLON)%N && d05 m1 && isDigit m2
  | _ => false
  end.

End Utils.

(* ===================================================================== *)
(** ** dataProvider.js and constantDataProvider.js *)
(* ===================================================================== *)

Record TimeData : Type := mkTimeData {
  checkin : str;
  checkout : str
}.

(** What a [throw] can pass on, as far as a handler of this program can
    tell: [null], [undefined], or a value of which a property can be
    read (an [Error], as a rule). *)
Inductive Thrown : Type :=
| ThrownNull
| ThrownUndefined
| ThrownValue.

(** What a call of [getTimeData] can do: throw, or return a time pair or
    null. *)
Inductive Reply : Type :=
| Threw (thrown : Thrown)
| Returned (timeData : option TimeData).

(** The interface of [DataProvider]: one method, which may change the
    provider (or the random source it draws from). *)
Class DataProvider (P : Type) : Type :=
  getTimeData : P -> str -> Reply * P.

(** The abstract base class: [getTimeData] throws an [Error]. *)
Inductive AbstractDataProvider : Type := abstractProvider.

#[export] Instance abstract_getTimeData : DataProvider AbstractDataProvider :=
  fun p _ => (Threw ThrownValue, p).

(** [Math.random], seen through the only expression that reads it,
    [Math.floor(Math.random() * 41)]: the source gives the successive
    values of that expression. *)
Module Random.

Definition source : Type := nat -> Z.

Definition next (g : source) : Z * source := (g 0%nat, fun k => g (S k)).

Definition in_range (g : source) : Prop := forall k, 0 <= g k <= 40.

End Random.

Module ConstantDataProvider.

Record t : Type := new {
  checkinTime : str;
  checkoutTime : str;
  humanize : bool
}.

(** [addRandomVariation(timeString)], [rnd] being the value of
    [Math.floor(Math.random() * 41)]. *)
Definition addRandomVariation (timeString : str) (rnd : Z) : str :=
  let parts := map Number_ (split COLON timeString) in
  let hours := item parts 0 in
  let minutes := item parts 1 in
  let totalMinutes := add (mul hours (Int 60)) minutes in
  let variation := Int (rnd - 20) in
  let newTotalMinutes :=
    Math_max (Int 0) (Math_min (Int 1439) (add totalMinutes variation)) in
  let newHours := Math_floor_div newTotalMinutes 60 in
  let newMinutes := rem newTotalMinutes 60 in
  Utils.formatHM newHours newMinutes.

Definition getTimeData (p : t) (date : str) (g : Random.source)
  : TimeData * Random.source :=
  if negb (humanize p) then
    ({| checkin := checkinTime p; checkout := checkoutTime p |}, g)
  else
    let (r1, g1) := Random.next g in
    let checkinHumanized := addRandomVariation (checkinTime p) r1 in
    let (r2, g2) := Random.next g1 in
    let checkoutHumanized := addRandomVariation (checkoutTime p) r2 in
    ({| checkin := checkinHumanized; checkout := checkoutHumanized |}, g2).

(** Successive calls on one provider object, one per date. *)
Fixpoint calls (p : t) (dates : list str) (g : Random.source)
  : list TimeData :=
  match dates with
  | [] => []
  | d :: ds => let (td, g') := getTimeData p d g in td :: calls p ds g'
  end.

End ConstantDataProvider.

#[export] Instance constant_getTimeData
  : DataProvider (ConstantDataProvider.t * Random.source) :=
  fun pg date =>
    let (td, g') := ConstantDataProvider.getTimeData (fst pg) date (snd pg) in
    (Returned (Some td), (fst pg, g')).

(* ===================================================================== *)
(** ** The host document *)
(* ===================================================================== *)

(** The document is described by what the selectors of the script find in
    it.  A dialog holds at most one [.hours-report] table, whose [tr]
    elements are siblings, and a row holds at most one input of each
    kind. *)
Module Dom.

Record DateCell : Type := mkDateCell {
  dateText : option str;               (* textContent of [.dateText] *)
  specialDayDescription : option str   (* of [.specialDayDescription] *)
}.

Record Row : Type := mkRow {
  dateCell : option DateCell;          (* [td.date] *)
  missingSelect : option str;          (* value of [td.missing select.select-box] *)
  checkIn : option str;                (* value of [input.checkIn] *)
  checkOut : option str                (* value of [input.checkOut] *)
}.

Definition Table : Type := list Row.

Record View : Type := mkView {
  viewStyleDisplay : str;
  viewComputedDisplay : str;
  viewHoldsTable : bool                (* the table lies inside the view *)
}.

Record Button : Type := mkButton { disabled : bool }.

Record Dialog : Type := mkDialog {
  styleDisplay : str;
  computedDisplay : str;
  attendanceView : option View;        (* [.attendance-view] *)
  hoursReport : option Table;          (* [.hours-report] *)
  submitButton : option Button         (* [.save.button-refresh-data.update-freeReporting] *)
}.

Record Doc : Type := mkDoc {
  trigger : bool;                      (* [a.export.free-reporting.popup-container] found *)
  dialog : option Dialog               (* [#freeReporting-dialog] *)
}.

(** [timeTable.querySelectorAll('tr:not(:first-child)')] *)
Definition dateRows (timeTable : Table) : list Row := tail timeTable.

(** [timeTable.querySelectorAll('input.checkIn, input.checkOut').length] *)
Definition timeInputsCount (timeTable : Table) : nat :=
  let count (input : option str) : nat :=
    match input with Some _ => 1%nat | None => 0%nat end in
  sum_list (map (fun r => (count (checkIn r) + count (checkOut r))%nat)
                timeTable).

(** [attendanceView.querySelector('.hours-report')] *)
Definition viewTable (d : Dialog) (v : View) : option Table :=
  if viewHoldsTable v then hoursReport d else None.

Definition setRows (doc : Doc) (rows : list Row) : Doc :=
  match dialog doc with
  | Some d =>
      match hoursReport d with
      | Some t =>
          {| trigger := trigger doc;
             dialog := Some {| styleDisplay := styleDisplay d;
                               computedDisplay := computedDisplay d;
                               attendanceView := attendanceView d;
                               hoursReport := Some (take 1 t ++ rows);
                               submitButton := submitButton d |} |}
      | None => doc
      end
  | None => doc
  end.

End Dom.

Import Dom.

(* ===================================================================== *)
(** ** The script's effects *)
(* ===================================================================== *)

Inductive Control : Type := TriggerLink | SubmitButton.

Inductive Field : Type := CheckIn | CheckOut.

Inductive DomEvent : Type := InputEvent | ChangeEvent.

(** What the script does to its surroundings, in order.  [Attempt k] is a
    marker put where an iteration of a polling loop begins. *)
Inductive Event : Type :=
| Clicked (c : Control)
| Slept (ms : N)
| Attempt (k : nat)
| Assigned (f : Field) (value : str)
| Dispatched (f : Field) (e : DomEvent).

Record World : Type := mkWorld {
  document : Doc;
  clock : N;                           (* milliseconds slept so far *)
  trace : list Event
}.

(** The page: how the document looks after the script clicked a control
    or was suspended in a [sleep], as a function of all that happened. *)
Definition Host : Type := Event -> World -> Doc.

Definition M (A : Type) : Type := World -> A * World.

Definition ret {A} (a : A) : M A := fun w => (a, w).

Definition bind {A B} (m : M A) (k : A -> M B) : M B :=
  fun w => let (a, w') := m w in k a w'.

Notation "x <~ m ;; k" := (bind m (fun x => k))
  (at level 100, m at next level, k at level 200, only parsing).
Notation "m ;;; k" := (bind m (fun _ => k))
  (at level 100, k at level 200, only parsing).

Definition getDocument : M Doc := fun w => (document w, w).

Definition emit (e : Event) : M unit :=
  fun w => (tt, {| document := document w; clock := clock w;
                   trace := trace w ++ [e] |}).

Definition react (host : Host) (e : Event) : M unit :=
  fun w => (tt, {| document := host e w; clock := clock w;
                   trace := trace w |}).

Definition tick (ms : N) : M unit :=
  fun w => (tt, {| document := document w; clock := (clock w + ms)%N;
                   trace := trace w |}).

(** [await sleep(ms)]: time passes and the page may redraw. *)
Definition sleep (host : Host) (ms : N) : M unit :=
  emit (Slept ms) ;;; tick ms ;;; react host (Slept ms).

(** [element.click()] *)
Definition click (host : Host) (c : Control) : M unit :=
  emit (Clicked c) ;;; react host (Clicked c).

(** The delays inside a fill pass.  The pass holds references to the row
    elements it found; what the page does to them meanwhile is outside
    this embedding, so these delays only pass time. *)
Definition pause (ms : N) : M unit :=
  emit (Slept ms) ;;; tick ms.

Definition slept (tr : list Event) : N :=
  foldr (fun e acc => match e with Slept ms => (ms + acc)%N | _ => acc end)
        0%N tr.

Definition attempts (tr : list Event) : list nat :=
  omap (fun e => match e with Attempt k => Some k | _ => None end) tr.

Definition clicks (tr : list Event) : list Control :=
  omap (fun e => match e with Clicked c => Some c | _ => None end) tr.

(* ===================================================================== *)
(** ** Results and configuration *)
(* ===================================================================== *)

Inductive Details : Type :=
| WaitDetails (timeInputsCount : nat) (hasSubmitButton : bool)
| FillDetails (filled skipped errors : nat)
| RunDetails (counts : option (nat * nat * nat)) (submitted : bool).

(** The result objects [{ success, message, error, warning, details }]. *)
Record Result : Type := mkResult {
  success : bool;
  message : option str;
  error : option str;
  warning : option str;
  details : option Details
}.

Definition failed (err : str) : Result :=
  {| success := false; message := None; error := Some err;
     warning := None; details := None |}.

Definition succeeded (msg : str) : Result :=
  {| success := true; message := Some msg; error := None;
     warning := None; details := None |}.

Definition ofNat (n : nat) : str := String_ (Int (Z.of_nat n)).

(** The values [config.get] hands out.  The contents of [config.json]
    are not fixed here: they are parameters of the development. *)
Record DialogConfig : Type := mkDialogConfig {
  waitForDialogMaxRetries : nat;
  waitForDialogDelayTime : N
}.

Record Config : Type := mkConfig {
  MISSING_EVENT_SKIP_RULES : gmap str str;
  DEFAULT_RETRY_COUNT : nat;
  DEFAULT_DELAY_MS : N;
  dialogManager : DialogConfig
}.

(** [dialog.style.display === 'block' ||
     window.getComputedStyle(dialog).display !== 'none'] *)
Definition isVisible (d : Dialog) : bool :=
  str_eqb (styleDisplay d) (lit "block")
  || negb (str_eqb (computedDisplay d) (lit "none")).

(* ===================================================================== *)
(** ** dialogManager.js *)
(* ===================================================================== *)

(** How one iteration of a polling loop ends: with [return], with
    [continue], or in its [catch] arm. *)
Inductive Step : Type :=
| Return (r : Result)
| Continue
| Caught.

Module DialogManager.
Section WithHost.

Variable host : Host.
Variable dialogConfig : DialogConfig.

Definition openDialog : M Result :=
  doc <~ getDocument ;;
  if negb (trigger doc) then
    ret (failed (lit "Dialog trigger element not found. Make sure you're on the correct page."))
  else
    click host TriggerLink ;;;
    sleep host 100 ;;;
    ret (succeeded (lit "Dialog trigger clicked successfully")).

Definition isDialogOpen : M bool :=
  doc <~ getDocument ;;
  match dialog doc with
  | None => ret false
  | Some d => ret (isVisible d)
  end.

(** The body of the [try] block of [waitForDialog]. *)
Definition waitAttempt (attempt : nat) (delayMs : N) : M Step :=
  open <~ isDialogOpen ;;
  if negb open then sleep host delayMs ;;; ret Continue
  else
    doc <~ getDocument ;;
    match dialog doc with
    | None => ret Caught            (* [dialog.querySelector] on null *)
    | Some d =>
        match attendanceView d with
        | None => sleep host delayMs ;;; ret Continue
        | Some v =>
            let isAttendanceVisible :=
              negb (str_eqb (viewStyleDisplay v) (lit "none"))
              && negb (str_eqb (viewComputedDisplay v) (lit "none")) in
            if negb isAttendanceVisible then sleep host delayMs ;;; ret Continue
            else
              match viewTable d v with
              | None => sleep host delayMs ;;; ret Continue
              | Some timeTable =>
                  let timeInputs := timeInputsCount timeTable in
                  if (timeInputs =? 0)%nat then sleep host delayMs ;;; ret Continue
                  else
                    match submitButton d with
                    | None => sleep host delayMs ;;; ret Continue
                    | Some _ =>
                        ret (Return
                          {| success := true;
                             message := Some (lit "Dialog ready after "
                                              ++ ofNat attempt ++ lit " attempts");
                             error := None;
                             warning := None;
                             details := Some (WaitDetails timeInputs true) |})
                    end
              end
        end
    end.

Definition notReady (maxRetries : nat) (delayMs : N) : Result :=
  failed (lit "Dialog not ready after " ++ ofNat maxRetries
          ++ lit " attempts ("
          ++ String_ (Int (Z.of_nat maxRetries * Z.of_N delayMs))
          ++ lit "ms total wait time)").

(** [for (let attempt = 1; attempt <= maxRetries; attempt++)], with
    [remaining] iterations to go. *)
Fixpoint waitLoop (remaining attempt maxRetries : nat) (delayMs : N)
  : M Result :=
  match remaining with
  | O => ret (notReady maxRetries delayMs)
  | S remaining' =>
      emit (Attempt attempt) ;;;
      step <~ waitAttempt attempt delayMs ;;
      match step with
      | Return r => ret r
      | Continue => waitLoop remaining' (S attempt) maxRetries delayMs
      | Caught =>
          (if (attempt <? maxRetries)%nat then sleep host delayMs else ret tt) ;;;
          waitLoop remaining' (S attempt) maxRetries delayMs
      end
  end.

Definition waitForDialog : M Result :=
  let maxRetries := waitForDialogMaxRetries dialogConfig in
  let delayMs := waitForDialogDelayTime dialogConfig in
  waitLoop maxRetries 1 maxRetries delayMs.

End WithHost.
End DialogManager.

(* ===================================================================== *)
(** ** formManager.js *)
(* ===================================================================== *)

Module Hebrew.
Definition ALEF : N := 0x5D0.
Definition BET : N := 0x5D1.
Definition GIMEL : N := 0x5D2.
Definition VAV : N := 0x5D5.
Definition HET : N := 0x5D7.
Definition AYIN : N := 0x5E2.
Definition RESH : N := 0x5E8.
Definition SHIN : N := 0x5E9.
Definition TAV : N := 0x5EA.
(** The three texts the classification looks for: "holiday", "eve" and
    "holiday eve". *)
Definition HAG : str := [HET; GIMEL].
Definition EREV : str := [AYIN; RESH; BET].
Definition EREV_HAG : str := EREV ++ [32%N] ++ HAG.
End Hebrew.

Import Hebrew.

Record DateInfo : Type := mkDateInfo {
  date : str;
  hebrewDay : str;
  specialText : str;
  missingEventValue : str;
  fullText : str;
  skipReason : option Value
}.

(** [dateInfo.skipReason = value] *)
Definition withSkipValue (dateInfo : DateInfo) (value : Value) : DateInfo :=
  {| date := date dateInfo; hebrewDay := hebrewDay dateInfo;
     specialText := specialText dateInfo;
     missingEventValue := missingEventValue dateInfo;
     fullText := fullText dateInfo; skipReason := Some value |}.

Definition withSkipReason (dateInfo : DateInfo) (reason : str) : DateInfo :=
  withSkipValue dateInfo (Text reason).

Definition SLASH : N := 47.

(** The pattern [(\d{2}\/\d{2}\/\d{4})\s*([א-ת])] tried at the head of
    [s].  White space and Hebrew letters are disjoint, so the greedy
    [\s*] never has to give a character back. *)
Definition matchDateAt (s : str) : option (str * str) :=
  match s with
  | d1 :: d2 :: s1 :: m1 :: m2 :: s2 :: y1 :: y2 :: y3 :: y4 :: rest =>
      if isDigit d1 && isDigit d2 && (s1 =? SLASH)%N
         && isDigit m1 && isDigit m2 && (s2 =? SLASH)%N
         && isDigit y1 && isDigit y2 && isDigit y3 && isDigit y4
      then
        match trimStart rest with
        | h :: _ =>
            if ((ALEF <=? h) && (h <=? TAV))%N
            then Some ([d1; d2; s1; m1; m2; s2; y1; y2; y3; y4], [h])
            else None
        | [] => None
        end
      else None
  | _ => None
  end.

(** [text.match(pattern)]: the leftmost position where it matches. *)
Fixpoint matchDate (s : str) : option (str * str) :=
  match matchDateAt s with
  | Some groups => Some groups
  | None =>
      match s with
      | [] => None
      | _ :: s' => matchDate s'
      end
  end.

Record Counts : Type := mkCounts {
  filledCount : nat;
  skippedCount : nat;
  errorCount : nat
}.

Definition filledUp (c : Counts) : Counts :=
  {| filledCount := S (filledCount c); skippedCount := skippedCount c;
     errorCount := errorCount c |}.
Definition skippedUp (c : Counts) : Counts :=
  {| filledCount := filledCount c; skippedCount := S (skippedCount c);
     errorCount := errorCount c |}.
Definition errorUp (c : Counts) : Counts :=
  {| filledCount := filledCount c; skippedCount := skippedCount c;
     errorCount := S (errorCount c) |}.

Definition withCheckIn (row : Row) (v : str) : Row :=
  {| dateCell := dateCell row; missingSelect := missingSelect row;
     checkIn := Some v; checkOut := checkOut row |}.
Definition withCheckOut (row : Row) (v : str) : Row :=
  {| dateCell := dateCell row; missingSelect := missingSelect row;
     checkIn := checkIn row; checkOut := Some v |}.

(** The rows are elements of the document: once a pass is over, their
    values are the document's. *)
Definition storeRows (rows : list Row) : M unit :=
  fun w => (tt, {| document := setRows (document w) rows;
                   clock := clock w; trace := trace w |}).

Module FormManager.
Section WithConfig.

Variable host : Host.
Variable config : Config.

Definition parseDateRow (row : Row) : option DateInfo :=
  match dateCell row with
  | None => None
  | Some cell =>
      match dateText cell with
      | None => None
      | Some text =>
          let fullDateText := trim text in
          match matchDate fullDateText with
          | None => None
          | Some (dateString, hebrewLetter) =>
              let specialText :=
                match specialDayDescription cell with
                | Some special => trim special
                | None => []
                end in
              let missingEventValue :=
                match missingSelect row with
                | Some value => value
                | None => lit "0"
                end in
              Some {| date := dateString; hebrewDay := hebrewLetter;
                      specialText := specialText;
                      missingEventValue := missingEventValue;
                      fullText := fullDateText; skipReason := None |}
          end
      end
  end.

(** [shouldSkipDate(dateInfo)]: the answer, and [dateInfo] with the
    [skipReason] the call has set.  The rules are a plain object, so
    [skipRules[dateInfo.missingEventValue]] also finds what the object
    inherits from [Object.prototype]. *)
Definition shouldSkipDate (dateInfo : DateInfo) : bool * DateInfo :=
  if str_eqb (hebrewDay dateInfo) [VAV] || str_eqb (hebrewDay dateInfo) [SHIN]
  then
    (true, withSkipReason dateInfo
             (lit "Weekend ("
              ++ (if str_eqb (hebrewDay dateInfo) [VAV]
                  then lit "Friday" else lit "Saturday")
              ++ lit ")"))
  else if includes (specialText dateInfo) HAG
          && negb (includes (specialText dateInfo) EREV)
  then (true, withSkipReason dateInfo (lit "Holiday"))
  else if includes (specialText dateInfo) EREV_HAG
  then (true, withSkipReason dateInfo (lit "Holiday Eve"))
  else
    let skipRules := MISSING_EVENT_SKIP_RULES config in
    match getProperty skipRules (missingEventValue dateInfo) with
    | Some skipReason =>
        if truthy skipReason then (true, withSkipValue dateInfo skipReason)
        else (false, dateInfo)
    | None => (false, dateInfo)
    end.

(** [input && input.value.trim() !== ''], as a truth value. *)
Definition isInputFilled (input : option str) : bool :=
  match input with
  | Some value => negb (str_eqb (trim value) [])
  | None => false
  end.

Definition isRowComplete (row : Row) : bool :=
  isInputFilled (checkIn row) && isInputFilled (checkOut row).

Definition fillRowInputs (row : Row) (timeData : TimeData) (date : str)
  : M (Result * Row) :=
  match checkIn row, checkOut row with
  | Some _, Some _ =>
      row1 <~ (if negb (isInputFilled (checkIn row)) then
                 emit (Assigned CheckIn (checkin timeData)) ;;;
                 emit (Dispatched CheckIn InputEvent) ;;;
                 emit (Dispatched CheckIn ChangeEvent) ;;;
                 pause 50 ;;;
                 ret (withCheckIn row (checkin timeData))
               else ret row) ;;
      row2 <~ (if negb (isInputFilled (checkOut row1)) then
                 emit (Assigned CheckOut (checkout timeData)) ;;;
                 emit (Dispatched CheckOut InputEvent) ;;;
                 emit (Dispatched CheckOut ChangeEvent) ;;;
                 ret (withCheckOut row1 (checkout timeData))
               else ret row1) ;;
      ret ({| success := true; message := None; error := None;
              warning := None; details := None |}, row2)
  | _, _ =>
      ret (failed (lit "Missing time inputs for date " ++ date), row)
  end.

Section WithProvider.

Context {P : Type} {provider : DataProvider P}.

(** The body of the loop of [fillTimeInputs], [try] and [catch]
    together: the row as the pass leaves it, the counters and the
    provider. *)
Definition fillRow (row : Row) (c : Counts) (dataProvider : P)
  : M (Row * Counts * P) :=
  match parseDateRow row with
  | None => ret (row, skippedUp c, dataProvider)
  | Some dateInfo =>
      let (skip, dateInfo) := shouldSkipDate dateInfo in
      if skip then ret (row, skippedUp c, dataProvider)
      else if isRowComplete row then ret (row, skippedUp c, dataProvider)
      else
        let (reply, dataProvider') :=
          getTimeData dataProvider (date dateInfo) in
        match reply with
        | Threw _ => ret (row, errorUp c, dataProvider')
        | Returned None => ret (row, errorUp c, dataProvider')
        | Returned (Some timeData) =>
            filled <~ fillRowInputs row timeData (date dateInfo) ;;
            let (fillResult, row') := filled in
            let c' := if success fillResult then filledUp c else errorUp c in
            pause 100 ;;;
            ret (row', c', dataProvider')
        end
  end.

(** [for (const row of dateRows)] *)
Fixpoint fillRows (rows : list Row) (c : Counts) (dataProvider : P)
  : M (list Row * Counts * P) :=
  match rows with
  | [] => ret ([], c, dataProvider)
  | row :: rest =>
      r <~ fillRow row c dataProvider ;;
      let '(row', c', dataProvider') := r in
      rs <~ fillRows rest c' dataProvider' ;;
      let '(rest', c'', dataProvider'') := rs in
      ret (row' :: rest', c'', dataProvider'')
  end.

Definition fillTimeInputs (dataProvider : P) : M (Result * P) :=
  doc <~ getDocument ;;
  match dialog doc with
  | None => ret (failed (lit "Dialog not found"), dataProvider)
  | Some d =>
      match hoursReport d with
      | None => ret (failed (lit "Time table not found in dialog"), dataProvider)
      | Some timeTable =>
          let zero := {| filledCount := 0; skippedCount := 0; errorCount := 0 |} in
          rs <~ fillRows (dateRows timeTable) zero dataProvider ;;
          let '(rows', c, dataProvider') := rs in
          storeRows rows' ;;;
          ret ({| success := true;
                  message := Some (lit "Successfully filled "
                                   ++ ofNat (filledCount c)
                                   ++ lit " working days");
                  error := None;
                  warning := None;
                  details := Some (FillDetails (filledCount c)
                                               (skippedCount c)
                                               (errorCount c)) |},
               dataProvider')
      end
  end.

End WithProvider.

(** One iteration of [waitForDialogClose]; nothing in it throws. *)
Definition closeAttempt (attempt maxRetries : nat) (delayMs : N) : M Step :=
  doc <~ getDocument ;;
  match dialog doc with
  | None => ret (Return (succeeded (lit "Dialog removed from DOM")))
  | Some d =>
      if negb (isVisible d)
      then ret (Return (succeeded (lit "Dialog hidden successfully")))
      else
        (if (attempt <? maxRetries)%nat then sleep host delayMs else ret tt) ;;;
        ret Continue
  end.

Fixpoint closeLoop (remaining attempt maxRetries : nat) (delayMs : N)
  : M Result :=
  match remaining with
  | O =>
      ret (failed (lit "Dialog did not close after "
                   ++ String_ (Int (Z.of_nat maxRetries * Z.of_N delayMs))
                   ++ lit "ms"))
  | S remaining' =>
      emit (Attempt attempt) ;;;
      step <~ closeAttempt attempt maxRetries delayMs ;;
      match step with
      | Return r => ret r
      | _ => closeLoop remaining' (S attempt) maxRetries delayMs
      end
  end.

Definition waitForDialogClose (maxRetries : nat) (delayMs : N) : M Result :=
  closeLoop maxRetries 1 maxRetries delayMs.

Definition submitForm : M Result :=
  doc <~ getDocument ;;
  match dialog doc with
  | None => ret (failed (lit "Dialog not found for submission"))
  | Some d =>
      match submitButton d with
      | None =>
          ret (failed (lit "Submit button not found. Button selector: .save.button-refresh-data.update-freeReporting"))
      | Some button =>
          if disabled button then ret (failed (lit "Submit button is disabled"))
          else
            click host SubmitButton ;;;
            sleep host 500 ;;;
            let defaultRetries := DEFAULT_RETRY_COUNT config in
            let defaultDelay := DEFAULT_DELAY_MS config in
            closeSuccess <~ waitForDialogClose defaultRetries defaultDelay ;;
            if success closeSuccess then
              ret (succeeded (lit "Form submitted successfully and dialog closed"))
            else
              ret {| success := true;
                     message := Some (lit "Submit button clicked, but dialog remained open (check for validation errors)");
                     error := None;
                     warning := Some (lit "Dialog did not close automatically");
                     details := None |}
      end
  end.

End WithConfig.
End FormManager.

(* ===================================================================== *)
(** ** The older single-file content script *)
(* ===================================================================== *)

(** Its [FormManager] differs from the module above in three places:
    [parseDateRow] does not read the absence selector, [shouldSkipDate]
    has no absence rule, and the already-complete branch of
    [fillTimeInputs] increments [alreadyFilledCount], a name declared
    nowhere.  [isInputFilled], [isRowComplete] and [fillRowInputs] are
    the same text. *)
Module Legacy.

Record DateInfo : Type := mkDateInfo {
  date : str;
  hebrewDay : str;
  specialText : str;
  fullText : str;
  skipReason : option str
}.

Definition withSkipReason (dateInfo : DateInfo) (reason : str) : DateInfo :=
  {| date := date dateInfo; hebrewDay := hebrewDay dateInfo;
     specialText := specialText dateInfo;
     fullText := fullText dateInfo; skipReason := Some reason |}.

Definition parseDateRow (row : Row) : option DateInfo :=
  match dateCell row with
  | None => None
  | Some cell =>
      match dateText cell with
      | None => None
      | Some text =>
          let fullDateText := trim text in
          match matchDate fullDateText with
          | None => None
          | Some (dateString, hebrewLetter) =>
              let specialText :=
                match specialDayDescription cell with
                | Some special => trim special
                | None => []
                end in
              Some {| date := dateString; hebrewDay := hebrewLetter;
                      specialText := specialText;
                      fullText := fullDateText; skipReason := None |}
          end
      end
  end.

Definition shouldSkipDate (dateInfo : DateInfo) : bool * DateInfo :=
  if str_eqb (hebrewDay dateInfo) [VAV] || str_eqb (hebrewDay dateInfo) [SHIN]
  then
    (true, withSkipReason dateInfo
             (lit "Weekend ("
              ++ (if str_eqb (hebrewDay dateInfo) [VAV]
                  then lit "Friday" else lit "Saturday")
              ++ lit ")"))
  else if includes (specialText dateInfo) HAG
          && negb (includes (specialText dateInfo) EREV)
  then (true, withSkipReason dateInfo (lit "Holiday"))
  else if includes (specialText dateInfo) EREV_HAG
  then (true, withSkipReason dateInfo (lit "Holiday Eve"))
  else (false, dateInfo).

Section WithProvider.

Context {P : Type} {provider : DataProvider P}.

(** The handler of a row, [catch (rowError)], reads [rowError.message]
    before it counts the error.  Of a thrown null or undefined that
    reading throws a TypeError, which leaves the loop for the handler of
    the whole function: [Some] of its message, and no error counted. *)
Definition catchRow (thrown : Thrown) (c : Counts) : Counts * option str :=
  match thrown with
  | ThrownNull => (c, Some (cannotReadMessage true))
  | ThrownUndefined => (c, Some (cannotReadMessage false))
  | ThrownValue => (errorUp c, None)
  end.

(** The body of the loop, [try] and [catch] together: the row, the
    counters, the provider, and the message of the exception that leaves
    the loop, if one does. *)
Definition fillRow (row : Row) (c : Counts) (dataProvider : P)
  : M (Row * Counts * P * option str) :=
  match parseDateRow row with
  | None => ret (row, skippedUp c, dataProvider, None)
  | Some dateInfo =>
      let (skip, dateInfo) := shouldSkipDate dateInfo in
      if skip then ret (row, skippedUp c, dataProvider, None)
      else if FormManager.isRowComplete row then
        (* [alreadyFilledCount++] throws a ReferenceError, which the
           [catch] of the row turns into an error count *)
        ret (row, errorUp c, dataProvider, None)
      else
        let (reply, dataProvider') :=
          getTimeData dataProvider (date dateInfo) in
        match reply with
        | Threw thrown =>
            let (c', escaped) := catchRow thrown c in
            ret (row, c', dataProvider', escaped)
        | Returned None => ret (row, errorUp c, dataProvider', None)
        | Returned (Some timeData) =>
            filled <~ FormManager.fillRowInputs row timeData (date dateInfo) ;;
            let (fillResult, row') := filled in
            let c' := if success fillResult then filledUp c else errorUp c in
            pause 100 ;;;
            ret (row', c', dataProvider', None)
        end
  end.

(** [for (const row of dateRows)], left at once by an exception that
    the row did not handle. *)
Fixpoint fillRows (rows : list Row) (c : Counts) (dataProvider : P)
  : M (list Row * Counts * P * option str) :=
  match rows with
  | [] => ret ([], c, dataProvider, None)
  | row :: rest =>
      r <~ fillRow row c dataProvider ;;
      let '(row', c', dataProvider', escaped) := r in
      match escaped with
      | Some message => ret (row' :: rest, c', dataProvider', Some message)
      | None =>
          rs <~ fillRows rest c' dataProvider' ;;
          let '(rest', c'', dataProvider'', escaped') := rs in
          ret (row' :: rest', c'', dataProvider'', escaped')
      end
  end.

Definition fillTimeInputs (dataProvider : P) : M (Result * P) :=
  doc <~ getDocument ;;
  match dialog doc with
  | None => ret (failed (lit "Dialog not found"), dataProvider)
  | Some d =>
      match hoursReport d with
      | None => ret (failed (lit "Time table not found in dialog"), dataProvider)
      | Some timeTable =>
          let zero := {| filledCount := 0; skippedCount := 0; errorCount := 0 |} in
          rs <~ fillRows (dateRows timeTable) zero dataProvider ;;
          let '(rows', c, dataProvider', escaped) := rs in
          storeRows rows' ;;;
          match escaped with
          | Some message =>
              ret (failed (lit "Form filling failed: " ++ message),
                   dataProvider')
          | None =>
              ret ({| success := true;
                      message := Some (lit "Successfully filled "
                                       ++ ofNat (filledCount c)
                                       ++ lit " working days");
                      error := None;
                      warning := None;
                      details := Some (FillDetails (filledCount c)
                                                   (skippedCount c)
                                                   (errorCount c)) |},
                   dataProvider')
          end
      end
  end.

End WithProvider.
End Legacy.

(* ===================================================================== *)
(** ** content.js: the orchestrator *)
(* ===================================================================== *)

Module MeckanoFormFiller.
Section WithHost.

Variable host : Host.
Variable config : Config.

(** The request of the popup, [{ startTime, endTime, humanize }]. *)
Record Request : Type := mkRequest {
  startTime : str;
  endTime : str;
  humanize : bool
}.

Definition fillWorkingHours (timeData : Request) (random : Random.source)
  : M Result :=
  let dataProvider :=
    (ConstantDataProvider.new (startTime timeData) (endTime timeData)
                              (humanize timeData), random) in
  openResult <~ DialogManager.openDialog host ;;
  if negb (success openResult) then ret openResult
  else
    waitResult <~ DialogManager.waitForDialog host (dialogManager config) ;;
    if negb (success waitResult) then ret waitResult
    else
      filled <~ FormManager.fillTimeInputs config dataProvider ;;
      let fillResult := fst filled in
      if negb (success fillResult) then ret fillResult
      else
        submitResult <~ FormManager.submitForm host config ;;
        if negb (success submitResult) then ret submitResult
        else
          ret {| success := true;
                 message := Some (lit "Successfully filled and submitted timesheet!");
                 error := None;
                 warning := None;
                 details :=
                   Some (RunDetails
                           match details fillResult with
                           | Some (FillDetails f s e) => Some (f, s, e)
                           | _ => None
                           end true) |}.

End WithHost.
End MeckanoFormFiller.

(* ===================================================================== *)
(** ** popup.js: the checks before a fill request is sent *)
(* ===================================================================== *)

Module Popup.

(** [timeToMinutes(timeString)] *)
Definition timeToMinutes (timeString : str) : num :=
  let parts := map Number_ (split COLON timeString) in
  let hours := item parts 0 in
  let minutes := item parts 1 in
  add (mul hours (Int 60)) minutes.

(** [a <= b] on numbers: false as soon as one side is NaN. *)
Definition le (a b : num) : bool :=
  match a, b with
  | Int x, Int y => x <=? y
  | _, _ => false
  end.

(** [validateTimeInput({ startTime, endTime })] *)
Definition validateTimeInput (startTime endTime : str) : bool :=
  if str_eqb startTime [] || str_eqb endTime [] then false
  else
    let startMinutes := timeToMinutes startTime in
    let endMinutes := timeToMinutes endTime in
    if le endMinutes startMinutes then false
    else true.

End Popup.

(* ===================================================================== *)
(** ** utils.js: the helpers for date texts *)
(* ===================================================================== *)

Module DateUtils.

(** [skipPatterns.some(pattern => text.includes(pattern))] *)
Definition containsSkipPattern (text : str) (skipPatterns : list str) : bool :=
  existsb (includes text) skipPatterns.

(** The longest prefix of [s] made of characters of one class, and what
    follows it. *)
Fixpoint span (class : N -> bool) (s : str) : str * str :=
  match s with
  | c :: s' =>
      if class c then let (run, rest) := span class s' in (c :: run, rest)
      else ([], s)
  | [] => ([], [])
  end.

Definition isHebrewLetter (c : N) : bool := ((ALEF <=? c) && (c <=? TAV))%N.

Record HebrewDate : Type := mkHebrewDate {
  fullString : str;
  datePart : str;
  hebrewDay : str;
  isValid : bool
}.

(** [parseHebrewDate(dateString)], on strings.  The pattern
    [^(\d{1,2}\/\d{1,2}\/\d{4})\s+([א-ת]+)$] meets classes that exclude
    one another at every step, so each run of the match is the longest
    one. *)
Definition parseHebrewDate (dateString : str) : option HebrewDate :=
  match dateString with
  | [] => None
  | _ =>
      let (day, afterDay) := span isDigit (trim dateString) in
      match afterDay with
      | c1 :: afterSlash1 =>
          let (month, afterMonth) := span isDigit afterSlash1 in
          match afterMonth with
          | c2 :: afterSlash2 =>
              let (year, afterYear) := span isDigit afterSlash2 in
              let (space, afterSpace) := span isWhiteSpace afterYear in
              let (letters, rest) := span isHebrewLetter afterSpace in
              if ((1 <=? length day) && (length day <=? 2)
                  && (c1 =? SLASH)%N
                  && (1 <=? length month) && (length month <=? 2)
                  && (c2 =? SLASH)%N
                  && (length year =? 4)
                  && (1 <=? length space)
                  && (1 <=? length letters)
                  && (length rest =? 0))%nat
              then Some {| fullString := dateString;
                           datePart := day ++ [SLASH] ++ month ++ [SLASH] ++ year;
                           hebrewDay := letters;
                           isValid := true |}
              else None
          | [] => None
          end
      | [] => None
      end
  end.

End DateUtils.

(* ===================================================================== *)
(** ** Vocabulary of the statements *)
(* ===================================================================== *)

(** An interval of integers, to settle a bounded property by running it. *)
Definition upto (lo : Z) (n : nat) : list Z :=
  map (fun k => lo + Z.of_nat k) (seq 0 n).

Definition digit (d : Z) : N := Z.to_N (48 + d).

(** The text HH:MM of [h] hours and [m] minutes. *)
Definition hhmm (h m : Z) : str :=
  [digit (h / 10); digit (h mod 10); COLON; digit (m / 10); digit (m mod 10)].

Definition clamp (t : Z) : Z := Z.max 0 (Z.min 1439 t).

(** The time of day that lies [t] minutes after midnight. *)
Definition timeOfMinutes (t : Z) : str := hhmm (t / 60) (t mod 60).

(** The page as [waitForDialog] wants it: every check of one attempt
    passes. *)
Definition ready (doc : Doc) : bool :=
  match dialog doc with
  | None => false
  | Some d =>
      isVisible d &&
      match attendanceView d with
      | None => false
      | Some v =>
          negb (str_eqb (viewStyleDisplay v) (lit "none"))
          && negb (str_eqb (viewComputedDisplay v) (lit "none"))
          && match viewTable d v with
             | None => false
             | Some timeTable =>
                 negb (timeInputsCount timeTable =? 0)%nat
                 && match submitButton d with
                    | None => false
                    | Some _ => true
                    end
             end
      end
  end.

(** The dialog is in the document and shown. *)
Definition stillOpen (doc : Doc) : bool :=
  match dialog doc with
  | None => false
  | Some d => isVisible d
  end.

(** A page that never changes by itself. *)
Definition idle : Host := fun _ w => document w.

(** A page that shows [doc] whatever happens. *)
Definition frozen (doc : Doc) : Host := fun _ _ => doc.

(** The page before the dialog was ever opened: the trigger link is
    there, the dialog container is not. *)
Definition pageBeforeOpening : Doc := mkDoc true None.

(** A dialog on display whose submit button has the given state. *)
Definition dialogWithButton (b : Button) : Dialog :=
  {| styleDisplay := lit "block"; computedDisplay := lit "block";
     attendanceView := None; hoursReport := None; submitButton := Some b |}.

(** The world at the start of a run on [doc]. *)
Definition start (doc : Doc) : World :=
  {| document := doc; clock := 0; trace := [] |}.

(** The weekday is Friday or Saturday. *)
Definition isWeekend (dateInfo : DateInfo) : bool :=
  str_eqb (hebrewDay dateInfo) [VAV] || str_eqb (hebrewDay dateInfo) [SHIN].

(** The classification in the words of the specification, to be compared
    with [FormManager.shouldSkipDate]: five rules in a fixed order, the
    first one that applies decides. *)
Module Spec.

Inductive Rule : Type :=
| WeekendRule
| HolidayRule
| HolidayEveRule
| AbsenceRule
| WorkDefault.

Definition rank (rule : Rule) : nat :=
  match rule with
  | WeekendRule => 0
  | HolidayRule => 1
  | HolidayEveRule => 2
  | AbsenceRule => 3
  | WorkDefault => 4
  end.

Definition holidayToken : str := HAG.
Definition holidayEveToken : str := EREV_HAG.

(** The condition of each rule, taken by itself: a weekend code; the
    holiday token without the holiday-eve token; the holiday-eve token;
    an absence code present in the configured mapping. *)
Definition applies (config : Config) (dateInfo : DateInfo) (rule : Rule)
  : bool :=
  match rule with
  | WeekendRule => isWeekend dateInfo
  | HolidayRule =>
      includes (specialText dateInfo) holidayToken
      && negb (includes (specialText dateInfo) holidayEveToken)
  | HolidayEveRule => includes (specialText dateInfo) holidayEveToken
  | AbsenceRule =>
      match MISSING_EVENT_SKIP_RULES config !! missingEventValue dateInfo with
      | Some _ => true
      | None => false
      end
  | WorkDefault => true
  end.

(** What each rule answers when it is the one that decides. *)
Definition verdict (config : Config) (dateInfo : DateInfo) (rule : Rule)
  : bool * DateInfo :=
  match rule with
  | WeekendRule =>
      (true, withSkipReason dateInfo
               (if str_eqb (hebrewDay dateInfo) [VAV]
                then lit "Weekend (Friday)" else lit "Weekend (Saturday)"))
  | HolidayRule => (true, withSkipReason dateInfo (lit "Holiday"))
  | HolidayEveRule => (true, withSkipReason dateInfo (lit "Holiday Eve"))
  | AbsenceRule =>
      match MISSING_EVENT_SKIP_RULES config !! missingEventValue dateInfo with
      | Some reason => (true, withSkipReason dateInfo reason)
      | None => (false, dateInfo)
      end
  | WorkDefault => (false, dateInfo)
  end.

(** [rule] is the first rule, in the order of the specification, whose
    condition holds. *)
Definition firstMatch (config : Config) (dateInfo : DateInfo) (rule : Rule)
  : Prop :=
  applies config dateInfo rule = true
  /\ forall earlier, (rank earlier < rank rule)%nat ->
                     applies config dateInfo earlier = false.

(** The rule that decides. *)
Definition decides (config : Config) (dateInfo : DateInfo) : Rule :=
  if applies config dateInfo WeekendRule then WeekendRule
  else if applies config dateInfo HolidayRule then HolidayRule
  else if applies config dateInfo HolidayEveRule then HolidayEveRule
  else if applies config dateInfo AbsenceRule then AbsenceRule
  else WorkDefault.

Definition classify (config : Config) (dateInfo : DateInfo)
  : bool * DateInfo :=
  verdict config dateInfo (decides config dateInfo).

End Spec.

(** The special text names a holiday and holds the word for "eve", but
    not the two words "holiday eve" in a row. *)
Definition strayEve (dateInfo : DateInfo) : bool :=
  includes (specialText dateInfo) HAG
  && includes (specialText dateInfo) EREV
  && negb (includes (specialText dateInfo) EREV_HAG).

(** The absence code is configured with the empty string as its reason. *)
Definition emptyReason (config : Config) (dateInfo : DateInfo) : bool :=
  match MISSING_EVENT_SKIP_RULES config !! missingEventValue dateInfo with
  | Some [] => true
  | _ => false
  end.

(** The absence code is not configured, and is the name of a property
    that the rules object inherits. *)
Definition inheritedReason (config : Config) (dateInfo : DateInfo) : bool :=
  match MISSING_EVENT_SKIP_RULES config !! missingEventValue dateInfo with
  | Some _ => false
  | None => isInherited (missingEventValue dateInfo)
  end.

(** The absence code is configured with the reason "Holiday". *)
Definition holidayByAbsence (config : Config) (dateInfo : DateInfo) : bool :=
  match MISSING_EVENT_SKIP_RULES config !! missingEventValue dateInfo with
  | Some reason => str_eqb reason (lit "Holiday")
  | None => false
  end.

(** Where the code leaves the classification of the specification: on a
    day that is no weekend day and no holiday eve, when the special text
    has a stray "eve" (unless the absence code happens to say "Holiday"),
    or, the special text naming no holiday, when the reason found for
    the absence code is empty or inherited. *)
Definition departs (config : Config) (dateInfo : DateInfo) : bool :=
  negb (isWeekend dateInfo)
  && negb (includes (specialText dateInfo) EREV_HAG)
  && (strayEve dateInfo && negb (holidayByAbsence config dateInfo)
      || negb (includes (specialText dateInfo) HAG)
         && (emptyReason config dateInfo || inheritedReason config dateInfo)).

(** The same date without its special text. *)
Definition withoutSpecialText (dateInfo : DateInfo) : DateInfo :=
  {| date := date dateInfo; hebrewDay := hebrewDay dateInfo;
     specialText := [];
     missingEventValue := missingEventValue dateInfo;
     fullText := fullText dateInfo; skipReason := skipReason dateInfo |}.

(** A date of the older script, as the newer one would have parsed it:
    with no absence selected. *)
Definition ofLegacy (dateInfo : Legacy.DateInfo) : DateInfo :=
  {| date := Legacy.date dateInfo; hebrewDay := Legacy.hebrewDay dateInfo;
     specialText := Legacy.specialText dateInfo;
     missingEventValue := lit "0";
     fullText := Legacy.fullText dateInfo;
     skipReason := option_map Text (Legacy.skipReason dateInfo) |}.

(** A Friday that is the eve of a holiday. *)
Definition fridayEve : DateInfo :=
  {| date := lit "18/09/2020"; hebrewDay := [VAV];
     specialText := EREV_HAG; missingEventValue := lit "0";
     fullText := lit "18/09/2020 " ++ [VAV]; skipReason := None |}.

(** A Monday whose special text names a holiday and, apart from it, an
    eve: the words "holiday", "eve" in this order. *)
Definition proverbDay : DateInfo :=
  {| date := lit "22/09/2025"; hebrewDay := [BET];
     specialText := HAG ++ [32%N] ++ EREV; missingEventValue := lit "0";
     fullText := lit "22/09/2025 " ++ [BET]; skipReason := None |}.

(** A Monday whose absence selector holds the value "constructor". *)
Definition constructorDay : DateInfo :=
  {| date := lit "22/09/2025"; hebrewDay := [BET];
     specialText := []; missingEventValue := lit "constructor";
     fullText := lit "22/09/2025 " ++ [BET]; skipReason := None |}.

(** A Monday that is the eve of a holiday. *)
Definition mondayEve : DateInfo :=
  {| date := lit "22/09/2025"; hebrewDay := [BET];
     specialText := EREV_HAG; missingEventValue := lit "0";
     fullText := lit "22/09/2025 " ++ [BET]; skipReason := None |}.

Definition noRules : Config :=
  {| MISSING_EVENT_SKIP_RULES := ∅; DEFAULT_RETRY_COUNT := 15;
     DEFAULT_DELAY_MS := 1000;
     dialogManager := {| waitForDialogMaxRetries := 10;
                         waitForDialogDelayTime := 250 |} |}.

(** The input of a row that a field name stands for. *)
Definition inputOf (f : Field) (row : Row) : option str :=
  match f with
  | CheckIn => checkIn row
  | CheckOut => checkOut row
  end.

Definition valueOf (f : Field) (timeData : TimeData) : str :=
  match f with
  | CheckIn => checkin timeData
  | CheckOut => checkout timeData
  end.

Definition total (c : Counts) : nat :=
  (filledCount c + skippedCount c + errorCount c)%nat.

(** The row of the scenario "26/08/2025" with the given inputs. *)
Definition workingDay (checkInValue checkOutValue : option str) : Row :=
  {| dateCell := Some {| dateText := Some (lit "26/08/2025 " ++ [BET]);
                         specialDayDescription := None |};
     missingSelect := Some (lit "0");
     checkIn := checkInValue;
     checkOut := checkOutValue |}.

Definition headerRow : Row :=
  {| dateCell := None; missingSelect := None; checkIn := None;
     checkOut := None |}.

(** A page with the dialog open on a table of the given data rows. *)
Definition pageWithRows (rows : list Row) : Doc :=
  {| trigger := true;
     dialog := Some {| styleDisplay := lit "block";
                       computedDisplay := lit "block";
                       attendanceView :=
                         Some {| viewStyleDisplay := [];
                                 viewComputedDisplay := lit "block";
                                 viewHoldsTable := true |};
                       hoursReport := Some (headerRow :: rows);
                       submitButton := Some {| disabled := false |} |} |}.

(** The provider of the scenario: 09:00 to 18:00, not humanized. *)
Definition nineToSix : ConstantDataProvider.t * Random.source :=
  (ConstantDataProvider.new (lit "09:00") (lit "18:00") false, fun _ => 20).

(** The pass asks the provider for this row: the row parses, is not
    skipped and is not complete. *)
Definition asksData (config : Config) (row : Row) : bool :=
  match FormManager.parseDateRow row with
  | Some dateInfo =>
      negb (fst (FormManager.shouldSkipDate config dateInfo))
      && negb (FormManager.isRowComplete row)
  | None => false
  end.

Definition lacksInput (row : Row) : bool :=
  match checkIn row, checkOut row with
  | Some _, Some _ => false
  | _, _ => true
  end.

(** Nothing is left to fill in the row. *)
Definition settled (config : Config) (row : Row) : bool :=
  negb (asksData config row) || lacksInput row.

(** A provider that, as long as [inv] holds of it, answers every call
    with two times that are not blank, and stays within [inv]. *)
Definition answersFilled {P : Type} {provider : DataProvider P}
  (inv : P -> Prop) : Prop :=
  forall (p : P) (date : str),
    inv p ->
    exists timeData p',
      getTimeData p date = (Returned (Some timeData), p')
      /\ FormManager.isInputFilled (Some (checkin timeData)) = true
      /\ FormManager.isInputFilled (Some (checkout timeData)) = true
      /\ inv p'.

(** The configured times of a constant provider are times of day. *)
Definition timesOfDay (pg : ConstantDataProvider.t * Random.source) : Prop :=
  exists h1 m1 h2 m2,
    0 <= h1 <= 23 /\ 0 <= m1 <= 59 /\ 0 <= h2 <= 23 /\ 0 <= m2 <= 59
    /\ ConstantDataProvider.checkinTime (fst pg) = hhmm h1 m1
    /\ ConstantDataProvider.checkoutTime (fst pg) = hhmm h2 m2.

(** The values written by the events of a trace. *)
Definition assignments (tr : list Event) : list (Field * str) :=
  omap (fun e => match e with Assigned f v => Some (f, v) | _ => None end) tr.

(** What a pass may do to a row: the date cell and the absence selector
    stay, and so does every input that is filled or absent. *)
Definition keeps (row row' : Row) : Prop :=
  dateCell row' = dateCell row
  /\ missingSelect row' = missingSelect row
  /\ forall f,
       FormManager.isInputFilled (inputOf f row) = true
       \/ inputOf f row = None ->
       inputOf f row' = inputOf f row.

Definition sameField (f g : Field) : bool :=
  match f, g with
  | CheckIn, CheckIn | CheckOut, CheckOut => true
  | _, _ => false
  end.

(** Every assignment in the trace is followed at once by the [input] and
    the [change] event of the same field, and no event is dispatched
    otherwise. *)
Fixpoint notified (tr : list Event) : bool :=
  match tr with
  | Assigned f _ :: Dispatched f1 InputEvent :: Dispatched f2 ChangeEvent
    :: rest => sameField f f1 && sameField f f2 && notified rest
  | Assigned _ _ :: _ => false
  | Dispatched _ _ :: _ => false
  | _ :: rest => notified rest
  | [] => true
  end.

(** A date as the older script keeps it, which knows of no absence and
    of no reason but a text. *)
Definition toLegacy (dateInfo : DateInfo) : Legacy.DateInfo :=
  {| Legacy.date := date dateInfo;
     Legacy.hebrewDay := hebrewDay dateInfo;
     Legacy.specialText := specialText dateInfo;
     Legacy.fullText := fullText dateInfo;
     Legacy.skipReason := match skipReason dateInfo with
                          | Some (Text reason) => Some reason
                          | _ => None
                          end |}.

(** A working day whose two inputs are filled before the pass. *)
Definition alreadyComplete (config : Config) (row : Row) : bool :=
  match FormManager.parseDateRow row with
  | Some dateInfo =>
      negb (fst (FormManager.shouldSkipDate config dateInfo))
      && FormManager.isRowComplete row
  | None => false
  end.

(** The rules object holds no reason, own or inherited, for the absence
    code of the row: the absence test of [shouldSkipDate] lets the row
    pass. *)
Definition absenceFree (config : Config) (row : Row) : bool :=
  match FormManager.parseDateRow row with
  | Some dateInfo =>
      match getProperty (MISSING_EVENT_SKIP_RULES config)
                        (missingEventValue dateInfo) with
      | Some value => negb (truthy value)
      | None => true
      end
  | None => true
  end.

(** A provider whose every throw is of null. *)
Inductive NullThrower : Type := nullThrower.

#[export] Instance nullThrower_getTimeData : DataProvider NullThrower :=
  fun p _ => (Threw ThrownNull, p).

(** The shape DD/MM/YYYY. *)
Definition dateShaped (d : str) : bool :=
  match d with
  | [d1; d2; s1; m1; m2; s2; y1; y2; y3; y4] =>
      isDigit d1 && isDigit d2 && (s1 =? SLASH)%N
      && isDigit m1 && isDigit m2 && (s2 =? SLASH)%N
      && isDigit y1 && isDigit y2 && isDigit y3 && isDigit y4
  | _ => false
  end.

(* ===================================================================== *)
(** * Properties *)
(* ===================================================================== *)

(** ** Strings *)

Lemma str_eqb_eq (a b : str) : str_eqb a b = true <-> a = b.
Proof. unfold str_eqb. apply bool_decide_eq_true. Qed.

Lemma str_eqb_neq (a b : str) : str_eqb a b = false <-> a <> b.
Proof. unfold str_eqb. apply bool_decide_eq_false. Qed.

Lemma startsWith_app (pat s : str) :
  startsWith pat s = true <-> exists rest, s = pat ++ rest.
Proof.
  revert s. induction pat as [|p pat IH]; intros s; simpl.
  - split; [intros _; now exists s | reflexivity].
  - destruct s as [|c s]; simpl.
    + split; [discriminate | intros [rest H]; discriminate].
    + rewrite andb_true_iff, N.eqb_eq, IH. split.
      * intros [-> [rest ->]]. now exists rest.
      * intros [rest H]. injection H as -> ->. split; [reflexivity | now exists rest].
Qed.

(** [includes] finds exactly the contiguous occurrences. *)
Lemma includes_app (s pat : str) :
  includes s pat = true <-> exists before after, s = before ++ pat ++ after.
Proof.
  induction s as [|c s IH]; simpl.
  - rewrite orb_false_r, startsWith_app. split.
    + intros [rest H]. now exists [], rest.
    + intros [before [after H]]. destruct before; simpl in H.
      * now exists after.
      * discriminate.
  - rewrite orb_true_iff, startsWith_app, IH. split.
    + intros [[rest H] | [before [after H]]].
      * now exists [], rest.
      * exists (c :: before), after. simpl. now rewrite H.
    + intros [before [after H]]. destruct before as [|b before]; simpl in H.
      * left. now exists after.
      * right. injection H as _ ->. now exists before, after.
Qed.

Lemma includes_part (s pat1 pat2 pat3 : str) :
  includes s (pat1 ++ pat2 ++ pat3) = true -> includes s pat2 = true.
Proof.
  rewrite !includes_app. intros [before [after ->]].
  exists (before ++ pat1), (pat3 ++ after).
  now rewrite <- !app_assoc.
Qed.


Lemma upto_forallb (P : Z -> bool) (lo : Z) (n : nat) :
  forallb P (upto lo n) = true ->
  forall z, lo <= z < lo + Z.of_nat n -> P z = true.
Proof.
  intros H z Hz. rewrite forallb_forall in H. apply H.
  unfold upto. apply in_map_iff. exists (Z.to_nat (z - lo)). split.
  - lia.
  - apply in_seq. lia.
Qed.

(** ** Times of day *)

Lemma padStart_two (n : Z) :
  0 <= n < 100 ->
  padStart 2 ZERO (String_ (Int n)) = [digit (n / 10); digit (n mod 10)].
Proof.
  intros Hn. apply str_eqb_eq.
  apply (upto_forallb
           (fun n => str_eqb (padStart 2 ZERO (String_ (Int n)))
                             [digit (n / 10); digit (n mod 10)]) 0 100).
  - vm_compute. reflexivity.
  - lia.
Qed.

Lemma formatHM_hhmm (h m : Z) :
  0 <= h < 100 -> 0 <= m < 100 ->
  Utils.formatHM (Int h) (Int m) = hhmm h m.
Proof.
  intros Hh Hm. unfold Utils.formatHM.
  rewrite (padStart_two h Hh), (padStart_two m Hm). reflexivity.
Qed.

Lemma parse_hhmm (h m : Z) :
  0 <= h <= 23 -> 0 <= m <= 59 ->
  map Number_ (split COLON (hhmm h m)) = [Int h; Int m].
Proof.
  intros Hh Hm.
  assert (H : forall h, 0 <= h < 0 + Z.of_nat 24 ->
            forallb (fun m => bool_decide
                       (map Number_ (split COLON (hhmm h m)) = [Int h; Int m]))
                    (upto 0 60) = true).
  { apply (upto_forallb
             (fun h => forallb (fun m => bool_decide
                          (map Number_ (split COLON (hhmm h m))
                           = [Int h; Int m])) (upto 0 60))).
    vm_compute. reflexivity. }
  specialize (H h ltac:(lia)).
  pose proof (upto_forallb _ 0 60 H m ltac:(lia)) as Hm'.
  cbv beta in Hm'. now apply bool_decide_eq_true in Hm'.
Qed.

Lemma timeOfMinutes_format (t : Z) :
  0 <= t < 6000 ->
  Utils.formatHM (Int (t / 60)) (Int (Z.rem t 60)) = timeOfMinutes t.
Proof.
  intros Ht. rewrite Z.rem_mod_nonneg by lia.
  unfold timeOfMinutes. apply formatHM_hhmm.
  - split; [apply Z.div_pos; lia | apply Z.div_lt_upper_bound; lia].
  - pose proof (Z.mod_pos_bound t 60). lia.
Qed.

(** ** utils.js: [humanizeTime] *)

(** C10.  For every base time HH:MM and every draw, [humanizeTime] renders
    the hours [floor(t / 60)] and the minutes [t % 60] of
    [t = base + offset] with the offset in [-20, 20], and never clamps [t]:
    from 0 on the text is the HH:MM of [t] minutes (hours may reach 24),
    and whenever [t] leaves [0, 1439] the text is not a time of day for
    [isValidTimeFormat]; 23:50 gives "24:05" and 00:10 gives "-1:-10". *)
Theorem humanizeTime_not_clamped (h m rnd : Z) :
  0 <= h <= 23 -> 0 <= m <= 59 -> 0 <= rnd <= 40 ->
  let offset := rnd - 20 in
  let t := h * 60 + m + offset in
  -20 <= offset <= 20
  /\ Utils.humanizeTime (hhmm h m) rnd
     = Utils.formatHM (Int (t / 60)) (Int (Z.rem t 60))
  /\ (0 <= t -> Utils.humanizeTime (hhmm h m) rnd = timeOfMinutes t)
  /\ (t < 0 \/ 1439 < t ->
      Utils.isValidTimeFormat (Utils.humanizeTime (hhmm h m) rnd) = false)
  /\ Utils.humanizeTime (hhmm 23 50) 35 = lit "24:05"
  /\ Utils.humanizeTime (hhmm 0 10) 0 = lit "-1:-10".
Proof.
  intros Hh Hm Hr offset t.
  assert (E : Utils.humanizeTime (hhmm h m) rnd
              = Utils.formatHM (Int (t / 60)) (Int (Z.rem t 60))).
  { unfold Utils.humanizeTime. rewrite (parse_hhmm h m Hh Hm). reflexivity. }
  repeat split; try (subst offset; lia); try reflexivity.
  - exact E.
  - intros Ht. rewrite E. apply timeOfMinutes_format. subst t offset. lia.
  - intros Ht. rewrite E.
    set (bad := fun t => negb (Utils.isValidTimeFormat
                  (Utils.formatHM (Int (t / 60)) (Int (Z.rem t 60))))).
    apply negb_true_iff. change (bad t = true).
    destruct Ht as [Ht | Ht].
    + apply (upto_forallb bad (-20) 20); [vm_compute; reflexivity |].
      subst t offset. lia.
    + apply (upto_forallb bad 1440 20); [vm_compute; reflexivity |].
      subst t offset. lia.
Qed.

Lemma humanizeTime_not_clamped_witness :
  Utils.humanizeTime (hhmm 23 50) 35 = timeOfMinutes 1445
  /\ Utils.isValidTimeFormat (Utils.humanizeTime (hhmm 23 50) 35) = false.
Proof.
  pose proof (humanizeTime_not_clamped 23 50 35
                ltac:(lia) ltac:(lia) ltac:(lia)) as H.
  destruct H as [_ [_ [H0 [H1 _]]]].
  split.
  - apply H0. vm_compute. discriminate.
  - apply H1. right. reflexivity.
Defined.

(** ** constantDataProvider.js *)

Lemma addRandomVariation_clamped (h m rnd : Z) :
  0 <= h <= 23 -> 0 <= m <= 59 ->
  ConstantDataProvider.addRandomVariation (hhmm h m) rnd
  = timeOfMinutes (clamp (h * 60 + m + (rnd - 20))).
Proof.
  intros Hh Hm. unfold ConstantDataProvider.addRandomVariation.
  rewrite (parse_hhmm h m Hh Hm).
  change (Utils.formatHM
            (Int (clamp (h * 60 + m + (rnd - 20)) / 60))
            (Int (Z.rem (clamp (h * 60 + m + (rnd - 20))) 60))
          = timeOfMinutes (clamp (h * 60 + m + (rnd - 20)))).
  apply timeOfMinutes_format. unfold clamp. lia.
Qed.

Lemma calls_lookup (p : ConstantDataProvider.t) (dates : list str) :
  ConstantDataProvider.humanize p = true ->
  forall (g : Random.source) (k : nat) (d : str),
    dates !! k = Some d ->
    ConstantDataProvider.calls p dates g !! k
    = Some {| checkin := ConstantDataProvider.addRandomVariation
                           (ConstantDataProvider.checkinTime p) (g (2 * k)%nat);
              checkout := ConstantDataProvider.addRandomVariation
                            (ConstantDataProvider.checkoutTime p)
                            (g (2 * k + 1)%nat) |}.
Proof.
  intros Hp. induction dates as [|d0 ds IH]; intros g k d Hk.
  - destruct k; discriminate.
  - simpl. unfold ConstantDataProvider.getTimeData. rewrite Hp. simpl.
    destruct k as [|k]; simpl.
    + reflexivity.
    + simpl in Hk. rewrite (IH _ k d Hk).
      replace (k + S (k + 0))%nat with (S (2 * k))%nat by lia.
      replace (S (2 * k) + 1)%nat with (S (2 * k + 1))%nat by lia.
      reflexivity.
Qed.

(** C5.  With [humanize] set, the answer to the [k]-th call of
    [getTimeData] on one provider is the configured check-in time plus
    the offset of draw [2k] and the configured check-out time plus the
    offset of draw [2k+1], each offset an integer of [-20, 20], each sum
    clamped into [0, 1439] minutes (00:00 to 23:59) and written as HH:MM:
    every call starts from the configured times again, and the two ends
    use different draws. *)
Theorem getTimeData_humanized
  (p : ConstantDataProvider.t) (h1 m1 h2 m2 : Z)
  (dates : list str) (g : Random.source) (k : nat) (d : str) :
  ConstantDataProvider.humanize p = true ->
  ConstantDataProvider.checkinTime p = hhmm h1 m1 ->
  ConstantDataProvider.checkoutTime p = hhmm h2 m2 ->
  0 <= h1 <= 23 -> 0 <= m1 <= 59 -> 0 <= h2 <= 23 -> 0 <= m2 <= 59 ->
  Random.in_range g ->
  dates !! k = Some d ->
  let o1 := g (2 * k)%nat - 20 in
  let o2 := g (2 * k + 1)%nat - 20 in
  let t1 := clamp (h1 * 60 + m1 + o1) in
  let t2 := clamp (h2 * 60 + m2 + o2) in
  -20 <= o1 <= 20 /\ -20 <= o2 <= 20
  /\ 0 <= t1 <= 1439 /\ 0 <= t2 <= 1439
  /\ ConstantDataProvider.calls p dates g !! k
     = Some {| checkin := timeOfMinutes t1; checkout := timeOfMinutes t2 |}.
Proof.
  intros Hp Hin Hout Hh1 Hm1 Hh2 Hm2 Hg Hk o1 o2 t1 t2.
  pose proof (Hg (2 * k)%nat). pose proof (Hg (2 * k + 1)%nat).
  repeat split; try (subst o1 o2 t1 t2; unfold clamp; lia).
  rewrite (calls_lookup p dates Hp g k d Hk), Hin, Hout.
  rewrite !addRandomVariation_clamped by assumption. reflexivity.
Qed.

Lemma getTimeData_humanized_witness :
  ConstantDataProvider.calls
    (ConstantDataProvider.new (lit "23:50") (lit "00:10") true)
    [lit "26/08/2025"; lit "27/08/2025"]
    (fun k => match k with 2%nat => 40 | 3%nat => 0 | _ => 25 end) !! 1%nat
  = Some {| checkin := lit "23:59"; checkout := lit "00:00" |}.
Proof.
  apply (getTimeData_humanized
           (ConstantDataProvider.new (lit "23:50") (lit "00:10") true)
           23 50 0 10
           [lit "26/08/2025"; lit "27/08/2025"]
           (fun k => match k with 2%nat => 40 | 3%nat => 0 | _ => 25 end)
           1 (lit "27/08/2025")); try reflexivity; try lia.
  intros k. destruct k as [|[|[|[|k]]]]; lia.
Defined.

(** ** Traces *)

Lemma slept_app (a b : list Event) : slept (a ++ b) = (slept a + slept b)%N.
Proof.
  unfold slept. induction a as [|e a IH]; simpl.
  - reflexivity.
  - destruct e; simpl; rewrite IH; lia.
Qed.

Lemma attempts_app (a b : list Event) :
  attempts (a ++ b) = attempts a ++ attempts b.
Proof. apply omap_app. Qed.

Lemma clicks_app (a b : list Event) : clicks (a ++ b) = clicks a ++ clicks b.
Proof. apply omap_app. Qed.

(** ** Running the script on a page given by its parts *)

Ltac crunch :=
  cbv beta iota zeta delta
    [ready stillOpen isVisible viewTable
     DialogManager.waitAttempt DialogManager.isDialogOpen
     DialogManager.openDialog FormManager.closeAttempt
     getDocument bind ret sleep click emit tick react
     document clock trace fst snd negb andb orb
     trigger dialog styleDisplay computedDisplay attendanceView hoursReport
     submitButton viewStyleDisplay viewComputedDisplay viewHoldsTable
     disabled].

Ltac page_cases :=
  repeat match goal with
         | |- context [str_eqb ?a ?b] => destruct (str_eqb a b)
         | |- context [(timeInputsCount ?t =? 0)%nat] =>
             destruct (timeInputsCount t =? 0)%nat
         | |- context [if ?b then _ else _] => is_var b; destruct b
         end.

Lemma bind_run {A B} (m : M A) (k : A -> M B) (w : World) :
  bind m k w = k (fst (m w)) (snd (m w)).
Proof. unfold bind. now destruct (m w). Qed.

(** ** dialogManager.js: readiness polling *)

Section Polling.

Variable host : Host.

(** An attempt on a page that is not ready sleeps once and goes on to the
    next attempt. *)
Lemma waitAttempt_not_ready (attempt : nat) (delayMs : N) (w : World) :
  ready (document w) = false ->
  DialogManager.waitAttempt host attempt delayMs w
  = (Continue, snd (sleep host delayMs w)).
Proof.
  destruct w as [[trg [[sd cd [[vsd vcd vh]|] [t|] [b|]]|]] clk tr];
    crunch; page_cases; crunch; intros; try discriminate; reflexivity.
Qed.

(** An attempt on a ready page returns at once. *)
Lemma waitAttempt_ready (attempt : nat) (delayMs : N) (w : World) :
  ready (document w) = true ->
  exists r, DialogManager.waitAttempt host attempt delayMs w = (Return r, w)
            /\ success r = true.
Proof.
  destruct w as [[trg [[sd cd [[vsd vcd vh]|] [t|] [b|]]|]] clk tr];
    crunch; page_cases; crunch; intros; try discriminate;
    eexists; split; reflexivity.
Qed.

Hypothesis never_ready : forall e w, ready (host e w) = false.

Lemma waitLoop_never_ready (maxRetries : nat) (delayMs : N) :
  forall (remaining attempt : nat) (w : World),
    ready (document w) = false ->
    exists w' tr,
      DialogManager.waitLoop host remaining attempt maxRetries delayMs w
      = (DialogManager.notReady maxRetries delayMs, w')
      /\ trace w' = trace w ++ tr
      /\ attempts tr = seq attempt remaining
      /\ clicks tr = []
      /\ slept tr = (N.of_nat remaining * delayMs)%N
      /\ clock w' = (clock w + N.of_nat remaining * delayMs)%N.
Proof.
  induction remaining as [|remaining IH]; intros attempt w Hw.
  - exists w, []. simpl. rewrite app_nil_r.
    repeat split; try reflexivity. lia.
  - set (w1 := snd (emit (Attempt attempt) w)).
    assert (Hw1 : ready (document w1) = false) by exact Hw.
    set (w2 := snd (sleep host delayMs w1)).
    assert (Hw2 : ready (document w2) = false) by apply never_ready.
    destruct (IH (S attempt) w2 Hw2) as (w' & tr & Hrun & Htr & Hatt & Hcl & Hsl & Hclk).
    exists w', (Attempt attempt :: Slept delayMs :: tr).
    split; [|split; [|split; [|split; [|split]]]].
    + cbn [DialogManager.waitLoop]. unfold bind at 1.
      change (emit (Attempt attempt) w) with (tt, w1).
      unfold bind at 1. rewrite (waitAttempt_not_ready attempt delayMs w1 Hw1).
      exact Hrun.
    + rewrite Htr. destruct w as [doc clk tr0]. simpl.
      rewrite <- !app_assoc. reflexivity.
    + simpl. now rewrite Hatt.
    + simpl. exact Hcl.
    + change (slept (Attempt attempt :: Slept delayMs :: tr))
        with (delayMs + slept tr)%N. rewrite Hsl. lia.
    + rewrite Hclk. destruct w as [doc clk tr0]. simpl. lia.
Qed.

End Polling.

(** C6.  On a page where some readiness check fails whenever it is looked
    at, [waitForDialog] makes the attempts 1, 2, ..., [maxRetries] and no
    other, returns the not-ready failure, clicks nothing, and has slept
    [maxRetries * delayMs] milliseconds in all; with 5 retries of 10 ms
    that is 5 attempts and no less than 40 ms. *)
Theorem waitForDialog_exhausts
  (host : Host) (dialogConfig : DialogConfig) (w : World) :
  let maxRetries := waitForDialogMaxRetries dialogConfig in
  let delayMs := waitForDialogDelayTime dialogConfig in
  (1 <= maxRetries)%nat ->
  ready (document w) = false ->
  (forall e w', ready (host e w') = false) ->
  exists r w' tr,
    DialogManager.waitForDialog host dialogConfig w = (r, w')
    /\ r = DialogManager.notReady maxRetries delayMs
    /\ success r = false
    /\ trace w' = trace w ++ tr
    /\ attempts tr = seq 1 maxRetries
    /\ length (attempts tr) = maxRetries
    /\ clicks tr = []
    /\ (slept tr <= N.of_nat maxRetries * delayMs)%N
    /\ clock w' = (clock w + N.of_nat maxRetries * delayMs)%N
    /\ (maxRetries = 5%nat -> delayMs = 10%N ->
        attempts tr = [1; 2; 3; 4; 5]%nat /\ (40 <= clock w' - clock w)%N).
Proof.
  intros maxRetries delayMs _ Hw Hhost.
  destruct (waitLoop_never_ready host Hhost maxRetries delayMs maxRetries 1 w Hw)
    as (w' & tr & Hrun & Htr & Hatt & Hcl & Hsl & Hclk).
  exists (DialogManager.notReady maxRetries delayMs), w', tr.
  repeat split; try assumption.
  - rewrite Hatt. apply length_seq.
  - lia.
  - rewrite Hatt, H. reflexivity.
  - rewrite Hclk, H, H0. lia.
Qed.

Lemma waitForDialog_exhausts_witness :
  exists r w' tr,
    DialogManager.waitForDialog (frozen (mkDoc true None))
      (mkDialogConfig 5 10) (start (mkDoc true None)) = (r, w')
    /\ r = DialogManager.notReady 5 10
    /\ success r = false
    /\ trace w' = [] ++ tr
    /\ attempts tr = seq 1 5
    /\ length (attempts tr) = 5%nat
    /\ clicks tr = []
    /\ (slept tr <= 5 * 10)%N
    /\ clock w' = (0 + 5 * 10)%N
    /\ (5%nat = 5%nat -> 10%N = 10%N ->
        attempts tr = [1; 2; 3; 4; 5]%nat /\ (40 <= clock w' - 0)%N).
Proof.
  apply (waitForDialog_exhausts (frozen (mkDoc true None))
           (mkDialogConfig 5 10) (start (mkDoc true None))).
  - simpl. lia.
  - reflexivity.
  - intros e w'. reflexivity.
Defined.

(** ** dialogManager.js and content.js: opening the dialog *)

(** C8, as the claim has it, fails: with the dialog container absent
    and the trigger link present, [openDialog] clicks the link and
    reports success. *)
Lemma openDialog_clicks_without_dialog :
  dialog pageBeforeOpening = None
  /\ success (fst (DialogManager.openDialog idle (start pageBeforeOpening)))
     = true
  /\ clicks (trace (snd (DialogManager.openDialog idle
                           (start pageBeforeOpening))))
     = [TriggerLink].
Proof. repeat split. Qed.

(** C8, amended.  When the trigger link is absent, [openDialog] returns
    its not-found failure and leaves the world as it was: nothing is
    clicked and no time passes; [fillWorkingHours] hands that failure on
    with the world still untouched, so no polling attempt is made. *)
Theorem openDialog_without_trigger
  (host : Host) (config : Config) (timeData : MeckanoFormFiller.Request)
  (random : Random.source) (w : World) :
  trigger (document w) = false ->
  let notFound :=
    failed (lit "Dialog trigger element not found. Make sure you're on the correct page.") in
  success notFound = false
  /\ DialogManager.openDialog host w = (notFound, w)
  /\ MeckanoFormFiller.fillWorkingHours host config timeData random w
     = (notFound, w).
Proof.
  intros Ht notFound. destruct w as [doc clk tr]. simpl in Ht.
  assert (E : DialogManager.openDialog host (mkWorld doc clk tr)
              = (notFound, mkWorld doc clk tr)).
  { unfold DialogManager.openDialog, bind, getDocument. simpl. rewrite Ht.
    reflexivity. }
  repeat split; try exact E.
  unfold MeckanoFormFiller.fillWorkingHours, bind at 1. rewrite E. reflexivity.
Qed.

Lemma openDialog_without_trigger_witness :
  MeckanoFormFiller.fillWorkingHours idle
    (mkConfig ∅ 15 1000 (mkDialogConfig 10 250))
    (MeckanoFormFiller.mkRequest (lit "09:00") (lit "18:00") false)
    (fun _ => 20) (start (mkDoc false None))
  = (failed (lit "Dialog trigger element not found. Make sure you're on the correct page."),
     start (mkDoc false None)).
Proof.
  apply (openDialog_without_trigger idle
           (mkConfig ∅ 15 1000 (mkDialogConfig 10 250))
           (MeckanoFormFiller.mkRequest (lit "09:00") (lit "18:00") false)
           (fun _ => 20) (start (mkDoc false None))).
  reflexivity.
Defined.

(** ** formManager.js: submission *)

Section Closing.

Variable host : Host.
Hypothesis stays_open : forall e w, stillOpen (host e w) = true.

Lemma closeAttempt_still_open (attempt maxRetries : nat) (delayMs : N)
  (w : World) :
  stillOpen (document w) = true ->
  exists w' tr,
    FormManager.closeAttempt host attempt maxRetries delayMs w = (Continue, w')
    /\ trace w' = trace w ++ tr
    /\ attempts tr = [] /\ clicks tr = []
    /\ stillOpen (document w') = true.
Proof.
  intros Hw. unfold stillOpen in Hw.
  unfold FormManager.closeAttempt, bind, getDocument.
  destruct (dialog (document w)) as [d|] eqn:Ed; [|discriminate].
  rewrite Hw. cbn [negb].
  destruct (attempt <? maxRetries)%nat.
  - exists (snd (sleep host delayMs w)), [Slept delayMs].
    repeat split. apply stays_open.
  - exists w, []. rewrite app_nil_r. repeat split.
    unfold stillOpen. now rewrite Ed.
Qed.

Lemma closeLoop_still_open (maxRetries : nat) (delayMs : N) :
  forall (remaining attempt : nat) (w : World),
    stillOpen (document w) = true ->
    exists r w' tr,
      FormManager.closeLoop host remaining attempt maxRetries delayMs w
      = (r, w')
      /\ success r = false
      /\ trace w' = trace w ++ tr
      /\ attempts tr = seq attempt remaining
      /\ clicks tr = [].
Proof.
  induction remaining as [|remaining IH]; intros attempt w Hw.
  - eexists _, w, []. rewrite app_nil_r. repeat split.
  - set (w1 := snd (emit (Attempt attempt) w)).
    assert (Hw1 : stillOpen (document w1) = true) by exact Hw.
    destruct (closeAttempt_still_open attempt maxRetries delayMs w1 Hw1)
      as (w2 & tr1 & Hstep & Htr1 & Hatt1 & Hcl1 & Hw2).
    destruct (IH (S attempt) w2 Hw2) as (r & w' & tr & Hrun & Hr & Htr & Hatt & Hcl).
    exists r, w', (Attempt attempt :: tr1 ++ tr).
    repeat split.
    + cbn [FormManager.closeLoop]. unfold bind at 1.
      change (emit (Attempt attempt) w) with (tt, w1).
      unfold bind at 1. rewrite Hstep. exact Hrun.
    + exact Hr.
    + rewrite Htr, Htr1. destruct w as [doc clk tr0]. simpl.
      rewrite <- !app_assoc. reflexivity.
    + change (attempts (Attempt attempt :: tr1 ++ tr))
        with (attempt :: attempts (tr1 ++ tr)).
      rewrite attempts_app, Hatt1, Hatt. reflexivity.
    + change (clicks (Attempt attempt :: tr1 ++ tr)) with (clicks (tr1 ++ tr)).
      rewrite clicks_app, Hcl1, Hcl. reflexivity.
Qed.

End Closing.

(** C7.  With the dialog and its submit button in the document:
    a disabled button makes [submitForm] fail with 'Submit button is
    disabled' and leaves the world untouched (no click); an enabled
    button is clicked once, and if the dialog then stays in the document
    and on display at every look of the [DEFAULT_RETRY_COUNT] close
    checks, [submitForm] returns success with the warning that the dialog
    did not close. *)
Theorem submitForm_contract
  (host : Host) (config : Config) (w : World) (d : Dialog) (b : Button) :
  dialog (document w) = Some d ->
  submitButton d = Some b ->
  (disabled b = true ->
   FormManager.submitForm host config w
   = (failed (lit "Submit button is disabled"), w))
  /\ (disabled b = false ->
      (forall e w', stillOpen (host e w') = true) ->
      exists r w' tr,
        FormManager.submitForm host config w = (r, w')
        /\ success r = true
        /\ error r = None
        /\ warning r = Some (lit "Dialog did not close automatically")
        /\ trace w' = trace w ++ Clicked SubmitButton :: Slept 500 :: tr
        /\ clicks tr = []
        /\ attempts tr = seq 1 (DEFAULT_RETRY_COUNT config)).
Proof.
  intros Hd Hb. split; intros Hdis.
  - unfold FormManager.submitForm, bind, getDocument.
    rewrite Hd, Hb, Hdis. reflexivity.
  - intros Hhost.
    assert (Hw1 : stillOpen (document
                     (snd (sleep host 500 (snd (click host SubmitButton w)))))
                  = true) by apply Hhost.
    destruct (closeLoop_still_open host Hhost (DEFAULT_RETRY_COUNT config)
                (DEFAULT_DELAY_MS config) (DEFAULT_RETRY_COUNT config) 1 _ Hw1)
      as (r & w' & tr & Hrun & Hr & Htr & Hatt & Hcl).
    eexists _, w', tr.
    split; [|split; [|split; [|split; [|split; [|split]]]]].
    + unfold FormManager.submitForm. rewrite bind_run.
      cbn [getDocument fst snd]. rewrite Hd, Hb, Hdis. rewrite !bind_run.
      unfold FormManager.waitForDialogClose. rewrite Hrun.
      cbn [fst snd]. rewrite Hr.
      reflexivity.
    + reflexivity.
    + reflexivity.
    + reflexivity.
    + rewrite Htr. destruct w as [doc clk tr0]. simpl.
      rewrite <- !app_assoc. reflexivity.
    + exact Hcl.
    + exact Hatt.
Qed.

Lemma submitForm_contract_witness :
  FormManager.submitForm idle (mkConfig ∅ 15 1000 (mkDialogConfig 10 250))
    (start (mkDoc true (Some (dialogWithButton (mkButton true)))))
  = (failed (lit "Submit button is disabled"),
     start (mkDoc true (Some (dialogWithButton (mkButton true)))))
  /\ exists r w' tr,
       FormManager.submitForm
         (frozen (mkDoc true (Some (dialogWithButton (mkButton false)))))
         (mkConfig ∅ 15 1000 (mkDialogConfig 10 250))
         (start (mkDoc true (Some (dialogWithButton (mkButton false)))))
       = (r, w')
       /\ success r = true
       /\ error r = None
       /\ warning r = Some (lit "Dialog did not close automatically")
       /\ trace w' = [] ++ Clicked SubmitButton :: Slept 500 :: tr
       /\ clicks tr = []
       /\ attempts tr = seq 1 15.
Proof.
  split.
  - apply (submitForm_contract idle
             (mkConfig ∅ 15 1000 (mkDialogConfig 10 250))
             (start (mkDoc true (Some (dialogWithButton (mkButton true)))))
             (dialogWithButton (mkButton true)) (mkButton true));
      reflexivity.
  - apply (submitForm_contract
             (frozen (mkDoc true (Some (dialogWithButton (mkButton false)))))
             (mkConfig ∅ 15 1000 (mkDialogConfig 10 250))
             (start (mkDoc true (Some (dialogWithButton (mkButton false)))))
             (dialogWithButton (mkButton false)) (mkButton false));
      [reflexivity | reflexivity | reflexivity | intros e w'; reflexivity].
Defined.

(** ** formManager.js: classification of a date *)

Lemma eve_phrase (text : str) :
  includes text EREV_HAG = true ->
  includes text EREV = true /\ includes text HAG = true.
Proof.
  intros He. split.
  - apply (includes_part _ [] EREV ([32%N] ++ HAG)). exact He.
  - apply (includes_part _ (EREV ++ [32%N]) HAG []).
    unfold EREV_HAG in He. now rewrite app_nil_r, <- app_assoc.
Qed.

Section Classification.

Variable config : Config.

(** The classification of the specification is a function: the rule
    that decides is the first one that applies, and the only one. *)
Lemma decides_firstMatch (dateInfo : DateInfo) :
  Spec.firstMatch config dateInfo (Spec.decides config dateInfo).
Proof.
  unfold Spec.decides, Spec.firstMatch.
  destruct (Spec.applies config dateInfo Spec.WeekendRule) eqn:E1.
  { split; [exact E1|]. intros [] Hr; cbn [Spec.rank] in Hr; lia. }
  destruct (Spec.applies config dateInfo Spec.HolidayRule) eqn:E2.
  { split; [exact E2|]. intros [] Hr; cbn [Spec.rank] in Hr; try lia;
      assumption. }
  destruct (Spec.applies config dateInfo Spec.HolidayEveRule) eqn:E3.
  { split; [exact E3|]. intros [] Hr; cbn [Spec.rank] in Hr; try lia;
      assumption. }
  destruct (Spec.applies config dateInfo Spec.AbsenceRule) eqn:E4.
  { split; [exact E4|]. intros [] Hr; cbn [Spec.rank] in Hr; try lia;
      assumption. }
  split; [reflexivity|].
  intros [] Hr; cbn [Spec.rank] in Hr; try lia; assumption.
Qed.

Lemma firstMatch_unique (dateInfo : DateInfo) (r1 r2 : Spec.Rule) :
  Spec.firstMatch config dateInfo r1 -> Spec.firstMatch config dateInfo r2 ->
  r1 = r2.
Proof.
  intros [H1 L1] [H2 L2].
  destruct (Nat.lt_total (Spec.rank r1) (Spec.rank r2)) as [Hlt | [Heq | Hgt]].
  - rewrite (L2 r1 Hlt) in H1. discriminate.
  - destruct r1, r2; simpl in Heq; try discriminate; reflexivity.
  - rewrite (L1 r2 Hgt) in H2. discriminate.
Qed.

(** What the code answers once the weekend, holiday and holiday-eve
    tests have failed. *)
Lemma shouldSkipDate_absence (dateInfo : DateInfo) :
  isWeekend dateInfo = false ->
  includes (specialText dateInfo) HAG
  && negb (includes (specialText dateInfo) EREV) = false ->
  includes (specialText dateInfo) EREV_HAG = false ->
  FormManager.shouldSkipDate config dateInfo
  = match MISSING_EVENT_SKIP_RULES config !! missingEventValue dateInfo with
    | Some [] => (false, dateInfo)
    | Some reason => (true, withSkipReason dateInfo reason)
    | None =>
        if isInherited (missingEventValue dateInfo)
        then (true, withSkipValue dateInfo
                      (Inherited (missingEventValue dateInfo)))
        else (false, dateInfo)
    end.
Proof.
  intros Hw Hh He. unfold isWeekend in Hw.
  unfold FormManager.shouldSkipDate, getProperty. rewrite Hw, Hh, He.
  cbv zeta.
  destruct (MISSING_EVENT_SKIP_RULES config !! missingEventValue dateInfo)
    as [[|c reason]|]; try reflexivity.
  destruct (isInherited (missingEventValue dateInfo)); reflexivity.
Qed.

Lemma shouldSkipDate_weekend (dateInfo : DateInfo) :
  isWeekend dateInfo = true ->
  FormManager.shouldSkipDate config dateInfo
  = Spec.verdict config dateInfo Spec.WeekendRule.
Proof.
  intros Hw. unfold isWeekend in Hw.
  unfold FormManager.shouldSkipDate. rewrite Hw. cbn [Spec.verdict].
  destruct (str_eqb (hebrewDay dateInfo) [VAV]); reflexivity.
Qed.

Lemma shouldSkipDate_eve (dateInfo : DateInfo) :
  isWeekend dateInfo = false ->
  includes (specialText dateInfo) EREV_HAG = true ->
  FormManager.shouldSkipDate config dateInfo
  = (true, withSkipReason dateInfo (lit "Holiday Eve")).
Proof.
  intros Hw He. unfold isWeekend in Hw.
  destruct (eve_phrase _ He) as [Hev _].
  unfold FormManager.shouldSkipDate. rewrite Hw, Hev, He.
  now rewrite andb_false_r.
Qed.

Lemma shouldSkipDate_holiday (dateInfo : DateInfo) :
  isWeekend dateInfo = false ->
  includes (specialText dateInfo) HAG = true ->
  includes (specialText dateInfo) EREV = false ->
  FormManager.shouldSkipDate config dateInfo
  = (true, withSkipReason dateInfo (lit "Holiday")).
Proof.
  intros Hw Hh He. unfold isWeekend in Hw.
  unfold FormManager.shouldSkipDate. now rewrite Hw, Hh, He.
Qed.

Lemma withSkipValue_inj (dateInfo : DateInfo) (v1 v2 : Value) (b1 b2 : bool) :
  (b1, withSkipValue dateInfo v1) = (b2, withSkipValue dateInfo v2) -> v1 = v2.
Proof. unfold withSkipValue. intros H. now injection H. Qed.

(** Outside the departures the code answers as the specification. *)
Lemma shouldSkipDate_agrees (dateInfo : DateInfo) :
  departs config dateInfo = false ->
  FormManager.shouldSkipDate config dateInfo = Spec.classify config dateInfo.
Proof.
  unfold departs, Spec.classify, Spec.decides.
  cbn [Spec.applies]. unfold Spec.holidayToken, Spec.holidayEveToken.
  destruct (isWeekend dateInfo) eqn:Hw.
  { intros _. now apply shouldSkipDate_weekend. }
  destruct (includes (specialText dateInfo) EREV_HAG) eqn:He.
  { intros _. destruct (eve_phrase _ He) as [_ Hh]. rewrite Hh.
    cbn [negb andb Spec.verdict]. now apply shouldSkipDate_eve. }
  cbn [negb andb]. rewrite andb_true_r.
  unfold strayEve. rewrite He. cbn [negb]. rewrite andb_true_r.
  destruct (includes (specialText dateInfo) HAG) eqn:Hh; cbn [negb andb orb].
  - destruct (includes (specialText dateInfo) EREV) eqn:Hv; cbn [negb andb orb].
    + rewrite orb_false_r. intros Hd. apply negb_false_iff in Hd.
      unfold holidayByAbsence in Hd.
      rewrite shouldSkipDate_absence;
        [|exact Hw | rewrite Hh, Hv; reflexivity | exact He].
      destruct (MISSING_EVENT_SKIP_RULES config !! missingEventValue dateInfo)
        as [reason|]; [|discriminate].
      apply str_eqb_eq in Hd. subst reason. reflexivity.
    + intros _. cbn [Spec.verdict]. now apply shouldSkipDate_holiday.
  - intros Hd. apply orb_false_iff in Hd. destruct Hd as [Hempty Hinh].
    unfold emptyReason in Hempty. unfold inheritedReason in Hinh.
    rewrite shouldSkipDate_absence;
      [|exact Hw | rewrite Hh; reflexivity | exact He].
    destruct (MISSING_EVENT_SKIP_RULES config !! missingEventValue dateInfo)
      as [[|c reason]|] eqn:Ea; cbn [Spec.verdict]; rewrite ?Ea;
      try discriminate.
    + reflexivity.
    + rewrite Hinh. reflexivity.
Qed.

(** At a departure the two answers differ. *)
Lemma shouldSkipDate_departs (dateInfo : DateInfo) :
  departs config dateInfo = true ->
  FormManager.shouldSkipDate config dateInfo <> Spec.classify config dateInfo.
Proof.
  unfold departs, Spec.classify, Spec.decides.
  cbn [Spec.applies]. unfold Spec.holidayToken, Spec.holidayEveToken.
  destruct (isWeekend dateInfo) eqn:Hw; [discriminate|].
  destruct (includes (specialText dateInfo) EREV_HAG) eqn:He; [discriminate|].
  cbn [negb andb]. unfold strayEve. rewrite He. cbn [negb].
  rewrite andb_true_r.
  destruct (includes (specialText dateInfo) HAG) eqn:Hh; cbn [negb andb orb].
  - destruct (includes (specialText dateInfo) EREV) eqn:Hv;
      cbn [negb andb orb]; [|discriminate].
    rewrite orb_false_r. intros Hd. apply negb_true_iff in Hd.
    unfold holidayByAbsence in Hd. cbn [Spec.verdict].
    rewrite shouldSkipDate_absence;
      [|exact Hw | rewrite Hh, Hv; reflexivity | exact He].
    destruct (MISSING_EVENT_SKIP_RULES config !! missingEventValue dateInfo)
      as [[|c reason]|].
    + discriminate.
    + intros H. apply withSkipValue_inj in H.
      apply str_eqb_neq in Hd. apply Hd.
      exact (f_equal (fun v => match v with
                               | Text t => t
                               | Inherited t => t
                               end) H).
    + destruct (isInherited (missingEventValue dateInfo)); [|discriminate].
      intros H. apply withSkipValue_inj in H. discriminate.
  - intros Hd. unfold emptyReason, inheritedReason in Hd.
    rewrite shouldSkipDate_absence;
      [|exact Hw | rewrite Hh; reflexivity | exact He].
    destruct (MISSING_EVENT_SKIP_RULES config !! missingEventValue dateInfo)
      as [[|c reason]|] eqn:Ea; cbn [Spec.verdict orb] in *; rewrite ?Ea;
      try discriminate.
    rewrite Hd. discriminate.
Qed.

End Classification.

Lemma legacy_shouldSkipDate (dateInfo : Legacy.DateInfo) :
  let old := Legacy.shouldSkipDate dateInfo in
  let new := FormManager.shouldSkipDate noRules (ofLegacy dateInfo) in
  fst old = fst new
  /\ option_map Text (Legacy.skipReason (snd old)) = skipReason (snd new).
Proof.
  unfold Legacy.shouldSkipDate, FormManager.shouldSkipDate.
  cbn [ofLegacy hebrewDay specialText missingEventValue].
  destruct (str_eqb (Legacy.hebrewDay dateInfo) [VAV]
            || str_eqb (Legacy.hebrewDay dateInfo) [SHIN]); [now split|].
  destruct (includes (Legacy.specialText dateInfo) HAG
            && negb (includes (Legacy.specialText dateInfo) EREV)); [now split|].
  destruct (includes (Legacy.specialText dateInfo) EREV_HAG); [now split|].
  replace (getProperty (MISSING_EVENT_SKIP_RULES noRules) (lit "0"))
    with (@None Value) by (vm_compute; reflexivity).
  now split.
Qed.

(** C3, as the claim has it, fails: the special text of this Friday holds
    the holiday words and the holiday-eve words, and the date is
    classified as a weekend day, not as a holiday eve. *)
Lemma fridayEve_is_weekend :
  includes (specialText fridayEve) HAG = true
  /\ includes (specialText fridayEve) EREV_HAG = true
  /\ FormManager.shouldSkipDate noRules fridayEve
     = (true, withSkipReason fridayEve (lit "Weekend (Friday)"))
  /\ lit "Weekend (Friday)" <> lit "Holiday Eve".
Proof. repeat split. discriminate. Qed.

(** C3, amended.  The classification of the specification (weekend;
    holiday token without the holiday-eve token; holiday-eve token;
    configured absence code; work; the first rule that applies decides)
    is total and single-valued, and [shouldSkipDate] gives its answer
    exactly when the date is no departure.  The code departs from it in
    three situations, all on days that are no weekend days and no
    holiday eves: a special text with the holiday token and the word
    for "eve" apart from it is no holiday for the code, which answers
    as for the date without special text; an absence code configured
    with an empty reason is a working day; an absence code that is not
    configured but names a property every object inherits is skipped,
    with that inherited value as the reason.  So the answer is always
    the verdict of one of the five rules or a skip for an inherited
    value.  The older script gives the answer of the newer one without
    absence.  A date whose special text holds the holiday token and the
    holiday-eve token is never answered "Holiday": it is a weekend day
    if its weekday is Friday or Saturday, and "Holiday Eve" otherwise. *)
Theorem shouldSkipDate_first_match (config : Config) (dateInfo : DateInfo) :
  let answer := FormManager.shouldSkipDate config dateInfo in
  (Spec.firstMatch config dateInfo (Spec.decides config dateInfo)
   /\ forall rule, Spec.firstMatch config dateInfo rule ->
                   rule = Spec.decides config dateInfo)
  /\ (answer = Spec.classify config dateInfo
      <-> departs config dateInfo = false)
  /\ ((exists rule, answer = Spec.verdict config dateInfo rule)
      \/ answer = (true, withSkipValue dateInfo
                            (Inherited (missingEventValue dateInfo))))
  /\ (isWeekend dateInfo = false -> strayEve dateInfo = true ->
      Spec.classify config dateInfo
      = (true, withSkipReason dateInfo (lit "Holiday"))
      /\ fst answer
         = fst (FormManager.shouldSkipDate config
                  (withoutSpecialText dateInfo))
      /\ skipReason (snd answer)
         = skipReason (snd (FormManager.shouldSkipDate config
                              (withoutSpecialText dateInfo))))
  /\ (isWeekend dateInfo = false ->
      includes (specialText dateInfo) HAG = false ->
      emptyReason config dateInfo = true ->
      answer = (false, dateInfo)
      /\ Spec.classify config dateInfo = (true, withSkipReason dateInfo []))
  /\ (isWeekend dateInfo = false ->
      includes (specialText dateInfo) HAG = false ->
      inheritedReason config dateInfo = true ->
      answer = (true, withSkipValue dateInfo
                        (Inherited (missingEventValue dateInfo)))
      /\ Spec.classify config dateInfo = (false, dateInfo))
  /\ (forall old : Legacy.DateInfo,
        fst (Legacy.shouldSkipDate old)
        = fst (FormManager.shouldSkipDate noRules (ofLegacy old))
        /\ option_map Text (Legacy.skipReason (snd (Legacy.shouldSkipDate old)))
           = skipReason (snd (FormManager.shouldSkipDate noRules
                                (ofLegacy old))))
  /\ (includes (specialText dateInfo) HAG = true ->
      includes (specialText dateInfo) EREV_HAG = true ->
      ~ Spec.firstMatch config dateInfo Spec.HolidayRule
      /\ answer <> (true, withSkipReason dateInfo (lit "Holiday"))
      /\ (isWeekend dateInfo = true ->
          answer = Spec.verdict config dateInfo Spec.WeekendRule)
      /\ (isWeekend dateInfo = false ->
          answer = (true, withSkipReason dateInfo (lit "Holiday Eve")))).
Proof.
  intros answer. subst answer.
  assert (Hcases :
            (exists rule, FormManager.shouldSkipDate config dateInfo
                          = Spec.verdict config dateInfo rule)
            \/ FormManager.shouldSkipDate config dateInfo
               = (true, withSkipValue dateInfo
                          (Inherited (missingEventValue dateInfo)))).
  { destruct (isWeekend dateInfo) eqn:Hw.
    { left. exists Spec.WeekendRule. now apply shouldSkipDate_weekend. }
    destruct (includes (specialText dateInfo) EREV_HAG) eqn:He.
    { left. exists Spec.HolidayEveRule. now apply shouldSkipDate_eve. }
    destruct (includes (specialText dateInfo) HAG
              && negb (includes (specialText dateInfo) EREV)) eqn:Hh.
    { left. exists Spec.HolidayRule. apply andb_true_iff in Hh.
      destruct Hh as [Hh Hv]. apply negb_true_iff in Hv.
      now apply shouldSkipDate_holiday. }
    rewrite (shouldSkipDate_absence config dateInfo Hw Hh He).
    destruct (MISSING_EVENT_SKIP_RULES config !! missingEventValue dateInfo)
      as [[|c reason]|] eqn:Ea.
    - left. now exists Spec.WorkDefault.
    - left. exists Spec.AbsenceRule. cbn [Spec.verdict]. now rewrite Ea.
    - destruct (isInherited (missingEventValue dateInfo));
        [now right | left; now exists Spec.WorkDefault]. }
  split; [|split; [|split; [|split; [|split; [|split; [|split]]]]]].
  - split; [apply decides_firstMatch|].
    intros rule H.
    exact (firstMatch_unique config dateInfo _ _ H
             (decides_firstMatch config dateInfo)).
  - split.
    + intros Heq. destruct (departs config dateInfo) eqn:Hd; [|reflexivity].
      exfalso. exact (shouldSkipDate_departs config dateInfo Hd Heq).
    + apply shouldSkipDate_agrees.
  - exact Hcases.
  - intros Hw Hs. unfold strayEve in Hs.
    apply andb_true_iff in Hs. destruct Hs as [Hs He].
    apply andb_true_iff in Hs. destruct Hs as [Hh Hv].
    apply negb_true_iff in He.
    split.
    { unfold Spec.classify, Spec.decides. cbn [Spec.applies].
      unfold Spec.holidayToken, Spec.holidayEveToken. now rewrite Hw, Hh, He. }
    rewrite (shouldSkipDate_absence config dateInfo Hw);
      [|rewrite Hh, Hv; reflexivity | exact He].
    rewrite (shouldSkipDate_absence config (withoutSpecialText dateInfo));
      [|exact Hw | reflexivity | reflexivity].
    cbn [withoutSpecialText missingEventValue].
    destruct (MISSING_EVENT_SKIP_RULES config !! missingEventValue dateInfo)
      as [[|c reason]|]; [now split | now split |].
    destruct (isInherited (missingEventValue dateInfo)); now split.
  - intros Hw Hh Hempty. unfold emptyReason in Hempty.
    rewrite (shouldSkipDate_absence config dateInfo Hw);
      [|rewrite Hh; reflexivity |].
    2:{ destruct (includes (specialText dateInfo) EREV_HAG) eqn:He;
          [|reflexivity].
        destruct (eve_phrase _ He) as [_ Hh']. congruence. }
    unfold Spec.classify, Spec.decides. cbn [Spec.applies].
    unfold Spec.holidayToken, Spec.holidayEveToken. rewrite Hw, Hh.
    cbn [andb].
    assert (He : includes (specialText dateInfo) EREV_HAG = false).
    { destruct (includes (specialText dateInfo) EREV_HAG) eqn:He;
        [|reflexivity].
      destruct (eve_phrase _ He) as [_ Hh']. congruence. }
    rewrite He.
    destruct (MISSING_EVENT_SKIP_RULES config !! missingEventValue dateInfo)
      as [[|c reason]|] eqn:Ea; try discriminate.
    cbn [Spec.verdict]. rewrite Ea. now split.
  - intros Hw Hh Hinh. unfold inheritedReason in Hinh.
    assert (He : includes (specialText dateInfo) EREV_HAG = false).
    { destruct (includes (specialText dateInfo) EREV_HAG) eqn:He;
        [|reflexivity].
      destruct (eve_phrase _ He) as [_ Hh']. congruence. }
    rewrite (shouldSkipDate_absence config dateInfo Hw);
      [|rewrite Hh; reflexivity | exact He].
    unfold Spec.classify, Spec.decides. cbn [Spec.applies].
    unfold Spec.holidayToken, Spec.holidayEveToken. rewrite Hw, Hh, He.
    cbn [andb].
    destruct (MISSING_EVENT_SKIP_RULES config !! missingEventValue dateInfo)
      as [reason|] eqn:Ea; [discriminate|].
    rewrite Hinh. now split.
  - intros old. apply legacy_shouldSkipDate.
  - intros Hh He.
    destruct (eve_phrase _ He) as [Hv _].
    split; [|split; [|split]].
    + intros [Hyes _]. cbn [Spec.applies] in Hyes.
      unfold Spec.holidayEveToken in Hyes. rewrite He in Hyes.
      now rewrite andb_false_r in Hyes.
    + destruct (isWeekend dateInfo) eqn:Hw.
      * rewrite (shouldSkipDate_weekend config dateInfo Hw).
        cbn [Spec.verdict]. intros H. apply withSkipValue_inj in H.
        destruct (str_eqb (hebrewDay dateInfo) [VAV]); discriminate.
      * rewrite (shouldSkipDate_eve config dateInfo Hw He).
        intros H. apply withSkipValue_inj in H. discriminate.
    + intros Hw. now apply shouldSkipDate_weekend.
    + intros Hw. now apply shouldSkipDate_eve.
Qed.

Lemma shouldSkipDate_first_match_witness :
  FormManager.shouldSkipDate noRules mondayEve
  = (true, withSkipReason mondayEve (lit "Holiday Eve"))
  /\ FormManager.shouldSkipDate noRules proverbDay
     = (false, proverbDay)
  /\ Spec.classify noRules proverbDay
     = (true, withSkipReason proverbDay (lit "Holiday"))
  /\ FormManager.shouldSkipDate noRules constructorDay
     = (true, withSkipValue constructorDay (Inherited (lit "constructor")))
  /\ Spec.classify noRules constructorDay = (false, constructorDay).
Proof.
  destruct (shouldSkipDate_first_match noRules mondayEve)
    as (_ & _ & _ & _ & _ & _ & _ & H).
  destruct (H eq_refl eq_refl) as (_ & _ & _ & H').
  split; [exact (H' eq_refl)|].
  destruct (shouldSkipDate_first_match noRules proverbDay)
    as (_ & _ & _ & Hstray & _).
  destruct (Hstray eq_refl eq_refl) as (Hspec & _).
  split; [reflexivity|]. split; [exact Hspec|].
  destruct (shouldSkipDate_first_match noRules constructorDay)
    as (_ & _ & _ & _ & _ & Hinh & _).
  exact (Hinh eq_refl eq_refl eq_refl).
Defined.

(** ** formManager.js: filling one row *)

Lemma fillRowInputs_frame (row : Row) (timeData : TimeData) (date : str)
  (w : World) :
  exists res row' w' tr,
    FormManager.fillRowInputs row timeData date w = ((res, row'), w')
    /\ document w' = document w
    /\ trace w' = trace w ++ tr
    /\ dateCell row' = dateCell row
    /\ missingSelect row' = missingSelect row
    /\ (forall f,
          FormManager.isInputFilled (inputOf f row) = true
          \/ inputOf f row = None ->
          inputOf f row' = inputOf f row)
    /\ (forall f v, In (Assigned f v) tr ->
          v = valueOf f timeData
          /\ exists old, inputOf f row = Some old /\ trim old = [])
    /\ (success res = true ->
        forall f,
          FormManager.isInputFilled (inputOf f row) = false ->
          inputOf f row' = Some (valueOf f timeData)
          /\ In (Assigned f (valueOf f timeData)) tr)
    /\ (success res = false <-> checkIn row = None \/ checkOut row = None)
    /\ (success res = false -> row' = row /\ w' = w /\ tr = []).
Proof.
  destruct w as [doc clk tr0], row as [dc ms [ci|] [co|]];
    unfold FormManager.fillRowInputs; cbn [checkIn checkOut];
    try (exists (failed (lit "Missing time inputs for date " ++ date));
         eexists _, _, []; rewrite app_nil_r;
         repeat split; cbn -[lit];
         try (intros; (contradiction || discriminate)); auto; fail).
  cbv beta iota zeta delta [FormManager.isInputFilled bind ret emit pause tick
                            negb document clock trace withCheckIn withCheckOut
                            checkIn checkOut dateCell missingSelect].
  destruct (str_eqb (trim ci) []) eqn:Ei;
    destruct (str_eqb (trim co) []) eqn:Eo;
    cbv beta iota;
    do 4 eexists;
    (split; [reflexivity|]);
    (split; [reflexivity|]);
    (split; [cbn [trace]; rewrite <- ?app_assoc;
             first [reflexivity | symmetry; apply app_nil_r]|]);
    (split; [reflexivity|]); (split; [reflexivity|]);
    (split; [intros [] [H|H]; cbn in *;
             rewrite ?Ei, ?Eo in H; congruence|]);
    (split; [intros f v Hin; cbn in Hin;
             repeat (destruct Hin as [Hin|Hin];
                     [first [discriminate Hin
                            | inversion Hin; subst; cbn; split;
                              [reflexivity
                              | eexists; split;
                                [reflexivity | apply str_eqb_eq; assumption]]]
                     |]); contradiction|]);
    (split; [intros _ [] H; cbn in *;
             rewrite ?Ei, ?Eo in H; try congruence;
             (split; [reflexivity | auto 10])|]);
    (split; [split; [discriminate | intros [H|H]; discriminate]
            | discriminate]).
Qed.

(** C2, as the claim has it, fails: a check-in field that holds one
    space holds a value that is not the empty string, and the fill writes
    over it. *)
Lemma fillRowInputs_overwrites_blank :
  checkIn (workingDay (Some (lit " ")) (Some (lit "17:30"))) = Some (lit " ")
  /\ lit " " <> []
  /\ checkIn (snd (fst (FormManager.fillRowInputs
                          (workingDay (Some (lit " ")) (Some (lit "17:30")))
                          (mkTimeData (lit "09:00") (lit "18:00"))
                          (lit "26/08/2025")
                          (start (pageWithRows
                                    [workingDay (Some (lit " "))
                                                (Some (lit "17:30"))])))))
     = Some (lit "09:00")
  /\ lit "09:00" <> lit " ".
Proof. repeat split; discriminate. Qed.

(** C2, amended.  An input whose value is not empty after trimming white
    space holds the same value after [fillRowInputs], whatever the time
    data; and every assignment the call makes goes to an input whose
    trimmed value was the empty string, which receives the time of its
    own kind. *)
Theorem fillRowInputs_keeps_filled
  (row : Row) (timeData : TimeData) (date : str) (w : World)
  (f : Field) (v : str) :
  inputOf f row = Some v ->
  trim v <> [] ->
  exists res row' w' tr,
    FormManager.fillRowInputs row timeData date w = ((res, row'), w')
    /\ inputOf f row' = Some v
    /\ trace w' = trace w ++ tr
    /\ forall f' v', In (Assigned f' v') tr ->
         v' = valueOf f' timeData
         /\ exists old, inputOf f' row = Some old /\ trim old = [].
Proof.
  intros Hv Hfilled.
  destruct (fillRowInputs_frame row timeData date w)
    as (res & row' & w' & tr & Hrun & _ & Htr & _ & _ & Hkeep & Hnew & _ & _ & _).
  exists res, row', w', tr. repeat split; try assumption.
  - rewrite <- Hv. apply Hkeep. left. rewrite Hv. simpl.
    apply negb_true_iff. now apply str_eqb_neq.
  - now apply (Hnew f' v').
  - now apply (Hnew f' v').
Qed.

Lemma fillRowInputs_keeps_filled_witness :
  exists res row' w' tr,
    FormManager.fillRowInputs
      (workingDay (Some (lit "08:45")) (Some []))
      (mkTimeData (lit "09:00") (lit "18:00")) (lit "26/08/2025")
      (start (pageWithRows [workingDay (Some (lit "08:45")) (Some [])]))
    = ((res, row'), w')
    /\ inputOf CheckIn row' = Some (lit "08:45")
    /\ trace w' = [] ++ tr
    /\ forall f' v', In (Assigned f' v') tr ->
         v' = valueOf f' (mkTimeData (lit "09:00") (lit "18:00"))
         /\ exists old,
              inputOf f' (workingDay (Some (lit "08:45")) (Some []))
              = Some old /\ trim old = [].
Proof.
  apply (fillRowInputs_keeps_filled
           (workingDay (Some (lit "08:45")) (Some []))
           (mkTimeData (lit "09:00") (lit "18:00")) (lit "26/08/2025")
           (start (pageWithRows [workingDay (Some (lit "08:45")) (Some [])]))
           CheckIn (lit "08:45")).
  - reflexivity.
  - vm_compute. discriminate.
Defined.

(** ** formManager.js: the fill pass *)

Section FillPass.

Variable config : Config.
Context {P : Type} {provider : DataProvider P}.

(** The loop body in closed form. *)
Lemma fillRow_eq (row : Row) (c : Counts) (p : P) (w : World) :
  FormManager.fillRow config row c p w =
  if asksData config row then
    match FormManager.parseDateRow row with
    | Some dateInfo =>
        let dateInfo' := snd (FormManager.shouldSkipDate config dateInfo) in
        let answer := getTimeData p (date dateInfo') in
        match fst answer with
        | Returned (Some timeData) =>
            let r := FormManager.fillRowInputs row timeData (date dateInfo') w in
            ((snd (fst r),
              if success (fst (fst r)) then filledUp c else errorUp c,
              snd answer),
             snd (pause 100 (snd r)))
        | _ => ((row, errorUp c, snd answer), w)
        end
    | None => ((row, skippedUp c, p), w)
    end
  else ((row, skippedUp c, p), w).
Proof.
  unfold FormManager.fillRow, asksData.
  destruct (FormManager.parseDateRow row) as [dateInfo|]; [|reflexivity].
  destruct (FormManager.shouldSkipDate config dateInfo) as [skip dateInfo'].
  cbn [fst snd]. destruct skip; [reflexivity|].
  destruct (FormManager.isRowComplete row); [reflexivity|].
  cbn [negb andb].
  destruct (getTimeData p (date dateInfo')) as [[|[timeData|]] p'];
    cbn [fst snd]; try reflexivity.
  rewrite bind_run.
  destruct (FormManager.fillRowInputs row timeData (date dateInfo') w)
    as [[res row'] w1].
  cbn [fst snd]. rewrite bind_run. reflexivity.
Qed.

(** A row that does not ask for data is counted as skipped and left
    alone; nothing else happens. *)
Lemma fillRow_skipped (row : Row) (c : Counts) (p : P) (w : World) :
  asksData config row = false ->
  FormManager.fillRow config row c p w = ((row, skippedUp c, p), w).
Proof. intros H. rewrite fillRow_eq, H. reflexivity. Qed.

Lemma isRowComplete_filled (row : Row) :
  FormManager.isRowComplete row = true ->
  asksData config row = false.
Proof.
  intros H. unfold asksData.
  destruct (FormManager.parseDateRow row); [|reflexivity].
  rewrite H. apply andb_false_r.
Qed.

Lemma assignments_app (a b : list Event) :
  assignments (a ++ b) = assignments a ++ assignments b.
Proof. apply omap_app. Qed.

Lemma assignments_nil (tr : list Event) :
  (forall f v, ~ In (Assigned f v) tr) -> assignments tr = [].
Proof.
  induction tr as [|e tr IH]; intros H; [reflexivity|].
  destruct e; simpl;
    try (apply IH; intros f' v' Hin; apply (H f' v'); now right).
  exfalso. apply (H f value). now left.
Qed.

(** What one turn of the loop does, whatever the row. *)
Lemma fillRow_step (row : Row) (c : Counts) (p : P) (w : World) :
  exists row' c' p' w' tr,
    FormManager.fillRow config row c p w = ((row', c', p'), w')
    /\ document w' = document w
    /\ trace w' = trace w ++ tr
    /\ (c' = filledUp c \/ c' = skippedUp c \/ c' = errorUp c)
    /\ dateCell row' = dateCell row
    /\ missingSelect row' = missingSelect row
    /\ (forall f,
          FormManager.isInputFilled (inputOf f row) = true
          \/ inputOf f row = None ->
          inputOf f row' = inputOf f row)
    /\ (forall f v, In (Assigned f v) tr ->
          exists old, inputOf f row = Some old /\ trim old = [])
    /\ (settled config row = true ->
        row' = row /\ filledCount c' = filledCount c /\ assignments tr = [])
    /\ (forall inv, answersFilled inv -> inv p ->
        settled config row' = true /\ inv p').
Proof.
  rewrite fillRow_eq.
  destruct (asksData config row) eqn:Eask.
  2:{ exists row, (skippedUp c), p, w, []. rewrite app_nil_r.
      unfold settled. rewrite Eask.
      repeat split; auto; intros; contradiction. }
  pose proof Eask as Eask'. unfold asksData in Eask'.
  destruct (FormManager.parseDateRow row) as [dateInfo|] eqn:Eparse;
    [|discriminate].
  apply andb_true_iff in Eask'. destruct Eask' as [Eskip Ecomplete].
  apply negb_true_iff in Ecomplete.
  cbv zeta.
  set (dateInfo' := snd (FormManager.shouldSkipDate config dateInfo)).
  destruct (getTimeData p (date dateInfo')) as [reply p'] eqn:Eanswer.
  cbn [fst snd].
  assert (Hlacks : settled config row = true \/ lacksInput row = false).
  { unfold settled. rewrite Eask. destruct (lacksInput row); auto. }
  assert (Hsame : forall reply' : Reply,
            (forall timeData, reply' <> Returned (Some timeData)) ->
            exists row' c' p'0 w' tr,
              ((row, errorUp c, p'), w) = ((row', c', p'0), w')
              /\ document w' = document w
              /\ trace w' = trace w ++ tr
              /\ (c' = filledUp c \/ c' = skippedUp c \/ c' = errorUp c)
              /\ dateCell row' = dateCell row
              /\ missingSelect row' = missingSelect row
              /\ (forall f,
                    FormManager.isInputFilled (inputOf f row) = true
                    \/ inputOf f row = None ->
                    inputOf f row' = inputOf f row)
              /\ (forall f v, In (Assigned f v) tr ->
                    exists old, inputOf f row = Some old /\ trim old = [])
              /\ (settled config row = true ->
                  row' = row /\ filledCount c' = filledCount c
                  /\ assignments tr = [])
              /\ (forall inv, answersFilled inv -> inv p -> reply = reply' ->
                  settled config row' = true /\ inv p'0)).
  { intros reply' Hnot. exists row, (errorUp c), p', w, [].
    rewrite app_nil_r.
    split; [reflexivity|]. split; [reflexivity|]. split; [reflexivity|].
    split; [auto|]. split; [reflexivity|]. split; [reflexivity|].
    split; [auto|]. split; [intros f v []|]. split; [auto|].
    intros inv Hgood Hp Hreply.
    destruct (Hgood p (date dateInfo') Hp) as (td & p'' & Hans & _).
    rewrite Eanswer in Hans. injection Hans as Hans _.
    exfalso. apply (Hnot td). congruence. }
  destruct reply as [thrown|[timeData|]].
  - destruct (Hsame (Threw thrown) ltac:(discriminate))
      as (row' & c' & p'0 & w' & tr & H & H1 & H2 & H3 & H4 & H5 & H6 & H7 & H8 & H9).
    exists row', c', p'0, w', tr.
    split; [exact H|]. split; [exact H1|]. split; [exact H2|].
    split; [exact H3|]. split; [exact H4|]. split; [exact H5|].
    split; [exact H6|]. split; [exact H7|]. split; [exact H8|].
    intros inv Hgood Hp. now apply (H9 inv).
  - destruct (fillRowInputs_frame row timeData (date dateInfo') w)
      as (res & row' & w1 & tr & Hrun & Hdoc & Htr & Hdc & Hms & Hkeep & Hnew
          & Hfill & Hfail & Hnone).
    rewrite Hrun. cbn [fst snd].
    exists row', (if success res then filledUp c else errorUp c), p',
      (snd (pause 100 w1)), (tr ++ [Slept 100]).
    split; [reflexivity|].
    split; [exact Hdoc|].
    split; [cbn [pause bind emit tick snd trace]; rewrite Htr;
            now rewrite app_assoc|].
    split; [destruct (success res); auto|].
    split; [exact Hdc|]. split; [exact Hms|]. split; [exact Hkeep|].
    split.
    { intros f v Hin. apply in_app_or in Hin. destruct Hin as [Hin|Hin].
      - now apply (Hnew f v).
      - destruct Hin as [Hin|[]]. discriminate. }
    split.
    { intros Hset. unfold settled in Hset. rewrite Eask in Hset.
      cbn [negb orb] in Hset.
      assert (Hres : success res = false).
      { apply Hfail. unfold lacksInput in Hset.
        destruct (checkIn row), (checkOut row); auto; discriminate. }
      destruct (Hnone Hres) as (Hrow & _ & Hnil).
      rewrite Hres, Hnil. repeat split; auto. }
    { intros inv Hgood Hp.
      destruct (Hgood p (date dateInfo') Hp)
        as (td & p'' & Hans & Hin & Hout & Hp'').
      rewrite Eanswer in Hans. injection Hans as Htd Hpp. subst td p''.
      split; [|exact Hp''].
      unfold settled.
      destruct (lacksInput row') eqn:El; [apply orb_true_r|].
      assert (Hl : lacksInput row = false).
      { unfold lacksInput in *.
        pose proof (Hkeep CheckIn) as Hi. pose proof (Hkeep CheckOut) as Ho.
        cbn in Hi, Ho.
        destruct (checkIn row), (checkOut row); auto.
        - rewrite Ho in El by auto. destruct (checkIn row'); discriminate.
        - rewrite Hi in El by auto. discriminate.
        - rewrite Hi in El by auto. discriminate. }
      assert (Hok : success res = true).
      { destruct (success res) eqn:Es; [reflexivity|].
        exfalso. destruct Hfail as [Hfail _].
        specialize (Hfail eq_refl). unfold lacksInput in Hl.
        destruct (checkIn row), (checkOut row); destruct Hfail; discriminate. }
      assert (Hcomplete : FormManager.isRowComplete row' = true).
      { pose proof (Hkeep CheckIn) as Hi. pose proof (Hkeep CheckOut) as Ho.
        pose proof (Hfill Hok CheckIn) as Fi.
        pose proof (Hfill Hok CheckOut) as Fo.
        cbn [inputOf valueOf] in Hi, Ho, Fi, Fo.
        unfold FormManager.isRowComplete. apply andb_true_iff. split.
        - destruct (FormManager.isInputFilled (checkIn row)) eqn:Ef.
          + rewrite Hi by (left; reflexivity). exact Ef.
          + destruct (Fi eq_refl) as [Hv _]. rewrite Hv. exact Hin.
        - destruct (FormManager.isInputFilled (checkOut row)) eqn:Ef.
          + rewrite Ho by (left; reflexivity). exact Ef.
          + destruct (Fo eq_refl) as [Hv _]. rewrite Hv. exact Hout. }
      rewrite (isRowComplete_filled row' Hcomplete). reflexivity. }
  - destruct (Hsame (Returned None) ltac:(discriminate))
      as (row' & c' & p'0 & w' & tr & H & H1 & H2 & H3 & H4 & H5 & H6 & H7 & H8 & H9).
    exists row', c', p'0, w', tr.
    split; [exact H|]. split; [exact H1|]. split; [exact H2|].
    split; [exact H3|]. split; [exact H4|]. split; [exact H5|].
    split; [exact H6|]. split; [exact H7|]. split; [exact H8|].
    intros inv Hgood Hp. now apply (H9 inv).
Qed.

End FillPass.

Section FillLoop.

Variable config : Config.
Context {P : Type} {provider : DataProvider P}.

Lemma shouldSkipDate_date (dateInfo : DateInfo) :
  date (snd (FormManager.shouldSkipDate config dateInfo)) = date dateInfo.
Proof.
  unfold FormManager.shouldSkipDate.
  repeat match goal with
         | |- context [if ?b then _ else _] => destruct b
         | |- context [match ?o with Some _ => _ | None => _ end] => destruct o
         | |- context [match ?l with [] => _ | _ :: _ => _ end] => destruct l
         end; reflexivity.
Qed.

(** Each turn of the loop adds one to exactly one counter. *)
Lemma fillRow_counts (row : Row) (c : Counts) (p : P) (w : World) :
  let c' := snd (fst (fst (FormManager.fillRow config row c p w))) in
  (c' = filledUp c \/ c' = skippedUp c \/ c' = errorUp c)
  /\ total c' = S (total c).
Proof.
  destruct (fillRow_step config row c p w)
    as (row' & c' & p' & w' & tr & Hrun & _ & _ & Hc & _).
  rewrite Hrun. cbn [fst snd]. split; [exact Hc|].
  destruct c as [f s e].
  destruct Hc as [-> | [-> | ->]]; unfold total; cbn; lia.
Qed.

(** The loop goes through a list of rows part after part: what happened
    in the first part, failures included, only sets the state in which
    the second part starts. *)
Lemma fillRows_app (rows1 rows2 : list Row) (c : Counts) (p : P) (w : World) :
  FormManager.fillRows config (rows1 ++ rows2) c p w =
  let '((rows1', c1, p1), w1) := FormManager.fillRows config rows1 c p w in
  let '((rows2', c2, p2), w2) := FormManager.fillRows config rows2 c1 p1 w1 in
  ((rows1' ++ rows2', c2, p2), w2).
Proof.
  revert c p w. induction rows1 as [|row rows1 IH]; intros c p w.
  - cbn [app FormManager.fillRows]. unfold ret.
    destruct (FormManager.fillRows config rows2 c p w) as [[[? ?] ?] ?].
    reflexivity.
  - cbn [app FormManager.fillRows]. rewrite !bind_run.
    destruct (FormManager.fillRow config row c p w) as [[[row' c'] p'] w'].
    cbn [fst snd]. rewrite !bind_run. rewrite IH.
    destruct (FormManager.fillRows config rows1 c' p' w')
      as [[[rows1' c1] p1] w1].
    unfold ret. cbn [fst snd].
    destruct (FormManager.fillRows config rows2 c1 p1 w1)
      as [[[rows2' c2] p2] w2].
    reflexivity.
Qed.

Lemma fillRows_step (rows : list Row) :
  forall (c : Counts) (p : P) (w : World),
  exists rows' c' p' w' tr,
    FormManager.fillRows config rows c p w = ((rows', c', p'), w')
    /\ document w' = document w
    /\ trace w' = trace w ++ tr
    /\ length rows' = length rows
    /\ total c' = (total c + length rows)%nat
    /\ Forall2 keeps rows rows'
    /\ (forall f v, In (Assigned f v) tr ->
          exists row old, In row rows /\ inputOf f row = Some old
                          /\ trim old = [])
    /\ (Forall (fun row => settled config row = true) rows ->
        rows' = rows /\ filledCount c' = filledCount c
        /\ assignments tr = [])
    /\ (forall inv, answersFilled inv -> inv p ->
        Forall (fun row => settled config row = true) rows' /\ inv p').
Proof.
  induction rows as [|row rows IH]; intros c p w.
  - exists [], c, p, w, []. rewrite app_nil_r. cbn.
    repeat split; auto; try lia; try (intros f v []).
  - destruct (fillRow_step config row c p w)
      as (row' & c1 & p1 & w1 & tr1 & Hrun1 & Hdoc1 & Htr1 & Hc1 & Hdc & Hms
          & Hkeep & Hnew1 & Hset1 & Hgood1).
    destruct (IH c1 p1 w1)
      as (rows' & c2 & p2 & w2 & tr2 & Hrun2 & Hdoc2 & Htr2 & Hlen & Htot
          & Hkeeps & Hnew2 & Hset2 & Hgood2).
    exists (row' :: rows'), c2, p2, w2, (tr1 ++ tr2).
    split.
    { cbn [FormManager.fillRows]. rewrite bind_run, Hrun1. cbn [fst snd].
      rewrite bind_run, Hrun2. reflexivity. }
    split; [congruence|].
    split; [rewrite Htr2, Htr1; now rewrite app_assoc|].
    split; [cbn; congruence|].
    split.
    { rewrite Htot. cbn [length].
      pose proof (fillRow_counts row c p w) as [_ Hone].
      rewrite Hrun1 in Hone. cbn in Hone. lia. }
    split; [constructor; [repeat split; assumption | exact Hkeeps]|].
    split.
    { intros f v Hin. apply in_app_or in Hin. destruct Hin as [Hin|Hin].
      - destruct (Hnew1 f v Hin) as (old & Hold & Hblank).
        exists row, old. repeat split; auto. now left.
      - destruct (Hnew2 f v Hin) as (r & old & Hr & Hold & Hblank).
        exists r, old. repeat split; auto. now right. }
    split.
    { intros Hall. inversion Hall as [|? ? Hrow Hrest]; subst.
      destruct (Hset1 Hrow) as (-> & Hf1 & Ha1).
      destruct (Hset2 Hrest) as (-> & Hf2 & Ha2).
      repeat split; [congruence|].
      rewrite assignments_app, Ha1, Ha2. reflexivity. }
    { intros inv Hgood Hp.
      destruct (Hgood1 inv Hgood Hp) as [Hs1 Hp1].
      destruct (Hgood2 inv Hgood Hp1) as [Hs2 Hp2].
      split; [constructor; assumption | exact Hp2]. }
Qed.

End FillLoop.

Section FillTimeInputs.

Variable config : Config.
Context {P : Type} {provider : DataProvider P}.

Lemma fillTimeInputs_run (p : P) (w : World) (d : Dialog) (t : Table) :
  dialog (document w) = Some d ->
  hoursReport d = Some t ->
  exists rows' c p' w' tr,
    FormManager.fillRows config (dateRows t)
      {| filledCount := 0; skippedCount := 0; errorCount := 0 |} p w
    = ((rows', c, p'), w')
    /\ FormManager.fillTimeInputs config p w
       = (({| success := true;
              message := Some (lit "Successfully filled "
                               ++ ofNat (filledCount c)
                               ++ lit " working days");
              error := None; warning := None;
              details := Some (FillDetails (filledCount c) (skippedCount c)
                                           (errorCount c)) |}, p'),
          {| document := setRows (document w) rows';
             clock := clock w'; trace := trace w' |})
    /\ trace w' = trace w ++ tr
    /\ total c = length (dateRows t)
    /\ Forall2 keeps (dateRows t) rows'
    /\ (Forall (fun row => settled config row = true) (dateRows t) ->
        rows' = dateRows t /\ filledCount c = 0%nat /\ assignments tr = [])
    /\ (forall inv, answersFilled inv -> inv p ->
        Forall (fun row => settled config row = true) rows' /\ inv p').
Proof.
  intros Hd Ht.
  destruct (fillRows_step config (dateRows t)
              {| filledCount := 0; skippedCount := 0; errorCount := 0 |} p w)
    as (rows' & c & p' & w' & tr & Hrun & Hdoc & Htr & _ & Htot & Hkeeps & _
        & Hset & Hgood).
  exists rows', c, p', w', tr. repeat split; try assumption.
  - unfold FormManager.fillTimeInputs. rewrite bind_run.
    cbn [getDocument fst snd]. rewrite Hd, Ht. rewrite bind_run, Hrun.
    cbn [fst snd]. rewrite bind_run. cbn [storeRows fst snd ret].
    now rewrite Hdoc.
  - apply Hset. assumption.
  - apply Hset. assumption.
  - apply Hset. assumption.
  - now apply (Hgood inv).
  - now apply (Hgood inv).
Qed.

Lemma fillTimeInputs_success (p : P) (w : World) :
  success (fst (fst (FormManager.fillTimeInputs config p w))) = false
  <-> dialog (document w) = None
      \/ exists d, dialog (document w) = Some d /\ hoursReport d = None.
Proof.
  destruct (dialog (document w)) as [d|] eqn:Hd.
  - destruct (hoursReport d) as [t|] eqn:Ht.
    + destruct (fillTimeInputs_run p w d t Hd Ht)
        as (rows' & c & p' & w' & tr & _ & Hrun & _).
      rewrite Hrun. cbn. split; [discriminate|].
      intros [H | (d' & H & H')]; [discriminate|].
      injection H as <-. congruence.
    + unfold FormManager.fillTimeInputs. rewrite bind_run.
      cbn [getDocument fst snd]. rewrite Hd, Ht. cbn. split; [|reflexivity].
      intros _. right. now exists d.
  - unfold FormManager.fillTimeInputs. rewrite bind_run.
    cbn [getDocument fst snd]. rewrite Hd. cbn. split; auto.
Qed.

End FillTimeInputs.



(** C4.  [fillTimeInputs] returns [success = false] exactly when the
    dialog or the hours-report table is missing.  With both in place it
    returns [success = true] whatever the rows do, and what it reports
    and leaves on the page is what the loop over all the data rows has
    reached: the loop takes the rows one by one, each turn being
    [fillRow] from the state the turn before has left, whatever that
    turn counted, so no row is left out after a failure; the counters
    add up to the number of data rows.  A row that does not parse is
    counted as skipped; a row for which the provider throws or has no
    data, or whose inputs are missing, is counted as an error. *)
Theorem fillTimeInputs_absorbs_row_failures
  (config : Config) (P : Type) (provider : DataProvider P)
  (p : P) (w : World) :
  let r := fst (fst (FormManager.fillTimeInputs config p w)) in
  (success r = false
   <-> dialog (document w) = None
       \/ exists d, dialog (document w) = Some d /\ hoursReport d = None)
  /\ (forall d t,
        dialog (document w) = Some d -> hoursReport d = Some t ->
        success r = true
        /\ exists filled skipped errors,
             details r = Some (FillDetails filled skipped errors)
             /\ (filled + skipped + errors)%nat = length (dateRows t))
  /\ (forall d t,
        dialog (document w) = Some d -> hoursReport d = Some t ->
        let '((rows', c, p'), w') :=
          FormManager.fillRows config (dateRows t)
            {| filledCount := 0; skippedCount := 0; errorCount := 0 |} p w in
        FormManager.fillTimeInputs config p w
        = (({| success := true;
               message := Some (lit "Successfully filled "
                                ++ ofNat (filledCount c)
                                ++ lit " working days");
               error := None; warning := None;
               details := Some (FillDetails (filledCount c) (skippedCount c)
                                            (errorCount c)) |}, p'),
           {| document := setRows (document w) rows';
              clock := clock w'; trace := trace w' |}))
  /\ (forall c p0 w0,
        FormManager.fillRows config [] c p0 w0 = (([], c, p0), w0))
  /\ (forall row rest c p0 w0,
        FormManager.fillRows config (row :: rest) c p0 w0 =
        let '((row', c1, p1), w1) := FormManager.fillRow config row c p0 w0 in
        let '((rest', c2, p2), w2) :=
          FormManager.fillRows config rest c1 p1 w1 in
        ((row' :: rest', c2, p2), w2))
  /\ (forall rows1 rows2 c p0 w0,
        FormManager.fillRows config (rows1 ++ rows2) c p0 w0 =
        let '((rows1', c1, p1), w1) :=
          FormManager.fillRows config rows1 c p0 w0 in
        let '((rows2', c2, p2), w2) :=
          FormManager.fillRows config rows2 c1 p1 w1 in
        ((rows1' ++ rows2', c2, p2), w2))
  /\ (forall row c p0 w0,
        FormManager.parseDateRow row = None ->
        FormManager.fillRow config row c p0 w0 = ((row, skippedUp c, p0), w0))
  /\ (forall row c p0 w0 dateInfo,
        asksData config row = true ->
        FormManager.parseDateRow row = Some dateInfo ->
        let answer := getTimeData p0 (date dateInfo) in
        match fst answer with
        | Returned (Some timeData) =>
            lacksInput row = true ->
            FormManager.fillRow config row c p0 w0
            = ((row, errorUp c, snd answer), snd (pause 100 w0))
        | _ =>
            FormManager.fillRow config row c p0 w0
            = ((row, errorUp c, snd answer), w0)
        end).
Proof.
  intros r.
  split; [|split; [|split; [|split; [|split; [|split; [|split]]]]]].
  - apply fillTimeInputs_success.
  - intros d t Hd Ht.
    destruct (fillTimeInputs_run config p w d t Hd Ht)
      as (rows' & c & p' & w' & tr & _ & Hrun & _ & Htot & _).
    subst r. rewrite Hrun. cbn [fst snd success details].
    split; [reflexivity|].
    exists (filledCount c), (skippedCount c), (errorCount c).
    split; [reflexivity | exact Htot].
  - intros d t Hd Ht.
    destruct (fillTimeInputs_run config p w d t Hd Ht)
      as (rows' & c & p' & w' & tr & Hrows & Hrun & _).
    rewrite Hrows. exact Hrun.
  - intros c p0 w0. reflexivity.
  - intros row rest c p0 w0. cbn [FormManager.fillRows]. rewrite bind_run.
    destruct (FormManager.fillRow config row c p0 w0) as [[[row' c1] p1] w1].
    cbn [fst snd]. rewrite bind_run.
    destruct (FormManager.fillRows config rest c1 p1 w1)
      as [[[rest' c2] p2] w2].
    reflexivity.
  - intros. apply fillRows_app.
  - intros row c p0 w0 Hparse. apply fillRow_skipped.
    unfold asksData. now rewrite Hparse.
  - intros row c p0 w0 dateInfo Hask Hparse answer.
    rewrite fillRow_eq, Hask, Hparse. cbv zeta.
    rewrite shouldSkipDate_date. fold answer.
    destruct (fst answer) as [thrown|[timeData|]]; try reflexivity.
    intros Hlacks. unfold lacksInput in Hlacks.
    unfold FormManager.fillRowInputs.
    destruct (checkIn row), (checkOut row); try discriminate; reflexivity.
Qed.

Lemma fillTimeInputs_absorbs_row_failures_witness :
  let rows := [workingDay None (Some []);
               workingDay (Some []) (Some []);
               workingDay (Some []) (Some (lit "17:30"))] in
  let run := FormManager.fillTimeInputs noRules nineToSix
               (start (pageWithRows rows)) in
  success (fst (fst run)) = true
  /\ details (fst (fst run)) = Some (FillDetails 2 0 1)
  /\ match dialog (document (snd run)) with
     | Some d => hoursReport d
     | None => None
     end
     = Some [headerRow;
             workingDay None (Some []);
             workingDay (Some (lit "09:00")) (Some (lit "18:00"));
             workingDay (Some (lit "09:00")) (Some (lit "17:30"))].
Proof.
  intros rows run.
  destruct (fillTimeInputs_absorbs_row_failures noRules _ _ nineToSix
              (start (pageWithRows rows)))
    as (_ & H & _).
  destruct (H _ _ eq_refl eq_refl) as (Hok & _).
  split; [exact Hok|].
  split; vm_compute; reflexivity.
Defined.

(** ** The second run of a fill pass *)

Lemma filled_timeOfMinutes (t : Z) :
  0 <= t < 1440 ->
  FormManager.isInputFilled (Some (timeOfMinutes t)) = true.
Proof.
  intros Ht.
  apply (upto_forallb
           (fun t => FormManager.isInputFilled (Some (timeOfMinutes t))) 0 1440).
  - vm_compute. reflexivity.
  - lia.
Qed.

Lemma hhmm_timeOfMinutes (h m : Z) :
  0 <= m <= 59 -> hhmm h m = timeOfMinutes (h * 60 + m).
Proof.
  intros Hm. unfold timeOfMinutes.
  replace ((h * 60 + m) / 60) with h
    by (apply (Z.div_unique (h * 60 + m) 60 h m); lia).
  replace ((h * 60 + m) mod 60) with m
    by (apply (Z.mod_unique (h * 60 + m) 60 h m); lia).
  reflexivity.
Qed.

(** A constant provider set to two times of day answers every call with
    filled times, humanized or not. *)
Lemma constant_answersFilled : answersFilled timesOfDay.
Proof.
  intros [p g] date (h1 & m1 & h2 & m2 & Hh1 & Hm1 & Hh2 & Hm2 & Hin & Hout).
  cbn [fst] in Hin, Hout.
  unfold getTimeData, constant_getTimeData, ConstantDataProvider.getTimeData.
  cbn [fst snd].
  destruct (ConstantDataProvider.humanize p); cbn [negb Random.next].
  - eexists _, _. split; [reflexivity|]. cbn [checkin checkout].
    rewrite Hin, Hout, !addRandomVariation_clamped by assumption.
    repeat split; try (apply filled_timeOfMinutes; unfold clamp; lia).
    exists h1, m1, h2, m2. repeat split; try apply Hh1; try apply Hm1;
      try apply Hh2; try apply Hm2; assumption.
  - eexists _, _. split; [reflexivity|]. cbn [checkin checkout].
    rewrite Hin, Hout, (hhmm_timeOfMinutes h1 m1), (hhmm_timeOfMinutes h2 m2)
      by assumption.
    repeat split; try (apply filled_timeOfMinutes; lia).
    exists h1, m1, h2, m2. cbn [fst].
    rewrite Hin, Hout.
    repeat split; try apply Hh1; try apply Hm1; try apply Hh2; try apply Hm2.
Qed.

Lemma dateRows_setRows (doc : Doc) (d : Dialog) (t : Table) (rows : list Row) :
  dialog doc = Some d ->
  hoursReport d = Some t ->
  length rows = length (dateRows t) ->
  exists d',
    dialog (setRows doc rows) = Some d'
    /\ hoursReport d' = Some (take 1 t ++ rows)
    /\ dateRows (take 1 t ++ rows) = rows
    /\ setRows (setRows doc rows) rows = setRows doc rows.
Proof.
  intros Hd Ht Hlen. unfold setRows. rewrite Hd, Ht.
  cbn [dialog hoursReport trigger styleDisplay computedDisplay
       attendanceView submitButton].
  eexists. split; [reflexivity|]. cbn [hoursReport].
  split; [reflexivity|].
  destruct t as [|h t].
  - destruct rows; [split; reflexivity | discriminate].
  - split; reflexivity.
Qed.

(** X20.  The fill pass of formManager.js run twice in a row, with a provider
    that answers filled times: the second run fills no row, assigns no
    input and leaves the document as the first run left it; and a row
    whose two inputs are filled is always counted as skipped and not
    touched. *)
Theorem fillTimeInputs_second_run
  (config : Config) (P : Type) (provider : DataProvider P)
  (inv : P -> Prop) (p : P) (w : World) (d : Dialog) (t : Table) :
  answersFilled inv ->
  inv p ->
  dialog (document w) = Some d ->
  hoursReport d = Some t ->
  (forall row c p0 w0,
      FormManager.isRowComplete row = true ->
      FormManager.fillRow config row c p0 w0 = ((row, skippedUp c, p0), w0))
  /\ exists r1 p1 w1 r2 p2 w2 tr skipped errors,
       FormManager.fillTimeInputs config p w = ((r1, p1), w1)
       /\ FormManager.fillTimeInputs config p1 w1 = ((r2, p2), w2)
       /\ details r2 = Some (FillDetails 0 skipped errors)
       /\ document w2 = document w1
       /\ trace w2 = trace w1 ++ tr
       /\ assignments tr = [].
Proof.
  intros Hgood Hp Hd Ht. split.
  { intros row c p0 w0 Hc. apply fillRow_skipped.
    now apply isRowComplete_filled. }
  destruct (fillTimeInputs_run config p w d t Hd Ht)
    as (rows1 & c1 & p1 & w1 & tr1 & _ & Hrun1 & _ & _ & Hkeeps & _ & Hall).
  destruct (Hall inv Hgood Hp) as [Hsettled Hp1].
  assert (Hlen : length rows1 = length (dateRows t)).
  { symmetry. exact (Forall2_length _ _ _ Hkeeps). }
  destruct (dateRows_setRows (document w) d t rows1 Hd Ht Hlen)
    as (d' & Hd' & Ht' & Hrows & Hsame).
  set (w1' := {| document := setRows (document w) rows1;
                 clock := clock w1; trace := trace w1 |}).
  destruct (fillTimeInputs_run config p1 w1' d' (take 1 t ++ rows1) Hd' Ht')
    as (rows2 & c2 & p2 & w2 & tr2 & _ & Hrun2 & Htr2 & _ & _ & Hset & _).
  rewrite Hrows in Hset. destruct (Hset Hsettled) as (Hrows2 & Hzero & Hnone).
  eexists _, p1, w1', _, p2, _, tr2, (skippedCount c2), (errorCount c2).
  split; [exact Hrun1|]. split; [exact Hrun2|].
  split; [cbn [details]; now rewrite Hzero|].
  split; [subst w1'; cbn [document]; now rewrite Hrows2, Hsame|].
  split; [exact Htr2 | exact Hnone].
Qed.

Lemma fillTimeInputs_second_run_witness :
  exists r1 p1 w1 r2 p2 w2 tr skipped errors,
    FormManager.fillTimeInputs noRules nineToSix
      (start (pageWithRows [workingDay (Some []) (Some [])]))
    = ((r1, p1), w1)
    /\ FormManager.fillTimeInputs noRules p1 w1 = ((r2, p2), w2)
    /\ details r2 = Some (FillDetails 0 skipped errors)
    /\ document w2 = document w1
    /\ trace w2 = trace w1 ++ tr
    /\ assignments tr = [].
Proof.
  eapply (fillTimeInputs_second_run noRules _ _ timesOfDay nineToSix
            (start (pageWithRows [workingDay (Some []) (Some [])]))).
  - exact constant_answersFilled.
  - exists 9, 0, 18, 0. repeat split; lia.
  - reflexivity.
  - reflexivity.
Defined.

(** ** The older script: rows that are already complete *)

Lemma legacy_fillRow_complete
  {P : Type} {provider : DataProvider P}
  (row : Row) (c : Counts) (p : P) (w : World) (dateInfo : Legacy.DateInfo) :
  Legacy.parseDateRow row = Some dateInfo ->
  fst (Legacy.shouldSkipDate dateInfo) = false ->
  FormManager.isRowComplete row = true ->
  Legacy.fillRow row c p w = ((row, errorUp c, p, None), w).
Proof.
  intros Hparse Hskip Hc. unfold Legacy.fillRow. rewrite Hparse.
  destruct (Legacy.shouldSkipDate dateInfo) as [skip dateInfo'].
  cbn in Hskip. subst skip. now rewrite Hc.
Qed.

(** C1 in the older script.  A working day with both times filled in is
    counted as an error, not as skipped: a first run that fills one empty
    row reports one filled row, and the second run over the same rows
    reports one error and nothing skipped, where formManager.js reports
    one skipped row and no error. *)
Theorem legacy_second_run_counts_error :
  let page := pageWithRows [workingDay (Some []) (Some [])] in
  let first := Legacy.fillTimeInputs nineToSix (start page) in
  let second := Legacy.fillTimeInputs (snd (fst first)) (snd first) in
  let first' := FormManager.fillTimeInputs noRules nineToSix (start page) in
  let second' :=
    FormManager.fillTimeInputs noRules (snd (fst first')) (snd first') in
  details (fst (fst first)) = Some (FillDetails 1 0 0)
  /\ document (snd first)
     = pageWithRows [workingDay (Some (lit "09:00")) (Some (lit "18:00"))]
  /\ details (fst (fst second)) = Some (FillDetails 0 0 1)
  /\ details (fst (fst second')) = Some (FillDetails 0 1 0).
Proof. vm_compute. repeat split. Qed.

(* ===================================================================== *)
(** * Further properties of the code *)
(* ===================================================================== *)

(** ** White space and filled inputs *)

Lemma trimStart_split (s : str) :
  exists ws, s = ws ++ trimStart s /\ forallb isWhiteSpace ws = true.
Proof.
  induction s as [|c s (ws & Hs & Hws)]; simpl.
  - now exists [].
  - destruct (isWhiteSpace c) eqn:Ec.
    + exists (c :: ws). simpl. rewrite Ec, Hws. split; [now f_equal|reflexivity].
    + now exists [].
Qed.

Lemma trimStart_head (s : str) (c : N) (rest : str) :
  trimStart s = c :: rest -> isWhiteSpace c = false.
Proof.
  induction s as [|a s IH]; simpl; [discriminate|].
  destruct (isWhiteSpace a) eqn:Ea; [exact IH|].
  intros H. injection H as <- _. exact Ea.
Qed.

Lemma trimStart_keeps (s : str) (c : N) :
  isWhiteSpace c = false -> In c s -> In c (trimStart s).
Proof.
  intros Hc. induction s as [|a s IH]; simpl; [auto|].
  destruct (isWhiteSpace a) eqn:Ea.
  - intros [-> | H]; [congruence | auto].
  - auto.
Qed.

Lemma trimStart_sub (s : str) (c : N) : In c (trimStart s) -> In c s.
Proof.
  induction s as [|a s IH]; simpl; [auto|].
  destruct (isWhiteSpace a); simpl; auto.
Qed.

(** [trim] keeps every character that is not white space and adds none. *)
Lemma trim_keeps (s : str) (c : N) :
  isWhiteSpace c = false -> (In c (trim s) <-> In c s).
Proof.
  intros Hc. unfold trim, trimEnd. rewrite <- in_rev. split.
  - intros H. apply trimStart_sub in H. rewrite <- in_rev in H.
    now apply trimStart_sub.
  - intros H. apply trimStart_keeps; [exact Hc|].
    rewrite <- in_rev. now apply trimStart_keeps.
Qed.

Lemma trim_head (s : str) (c : N) (rest : str) :
  trim s = c :: rest -> isWhiteSpace c = false.
Proof.
  unfold trim, trimEnd. intros H.
  destruct (trimStart s) as [|a t] eqn:Et; [discriminate|].
  assert (In c (a :: t)).
  { apply in_rev. eapply trimStart_sub. apply in_rev. rewrite H. now left. }
  destruct (trimStart_split s) as (ws & Hs & Hws).
  pose proof (trimStart_head s a t Et) as Ha.
  (* the first character of a trimmed text is the first one that is not
     white space *)
  assert (Hrev : rev (trimStart (rev (a :: t))) = c :: rest) by exact H.
  assert (Hlast : exists pre, rev (a :: t) = pre ++ [a]).
  { exists (rev t). reflexivity. }
  destruct Hlast as (pre & Hpre). rewrite Hpre in Hrev.
  assert (Hts : forall pre, exists pre', trimStart (pre ++ [a]) = pre' ++ [a]).
  { clear -Ha. induction pre as [|b pre IH]; simpl.
    - rewrite Ha. now exists [].
    - destruct (isWhiteSpace b); [exact IH | now exists (b :: pre)]. }
  destruct (Hts pre) as (pre' & Hpre'). rewrite Hpre' in Hrev.
  rewrite rev_app_distr in Hrev. simpl in Hrev. injection Hrev as <- _.
  exact Ha.
Qed.

(** X1.  An input counts as filled exactly when it exists and its value
    holds a character that is not white space: an absent input and a
    value of blanks, tabs or line breaks only are both "not filled". *)
Theorem isInputFilled_iff (input : option str) :
  FormManager.isInputFilled input = true
  <-> exists value c, input = Some value /\ In c value
                      /\ isWhiteSpace c = false.
Proof.
  destruct input as [value|]; simpl.
  - rewrite negb_true_iff, str_eqb_neq. split.
    + intros Hne. destruct (trim value) as [|c rest] eqn:Et; [contradiction|].
      exists value, c. repeat split.
      * apply (trim_keeps value c (trim_head value c rest Et)).
        rewrite Et. now left.
      * exact (trim_head value c rest Et).
    + intros (v & c & Hv & Hin & Hc) Hnil. injection Hv as <-.
      apply (trim_keeps value c Hc) in Hin. rewrite Hnil in Hin. contradiction.
  - split; [discriminate | intros (v & c & H & _); discriminate].
Qed.

(** ** Times of day: validation and parsing *)

Lemma timeToMinutes_hhmm (h m : Z) :
  0 <= h <= 23 -> 0 <= m <= 59 ->
  Popup.timeToMinutes (hhmm h m) = Int (h * 60 + m).
Proof.
  intros Hh Hm. unfold Popup.timeToMinutes.
  rewrite (parse_hhmm h m Hh Hm). reflexivity.
Qed.

Lemma timeToMinutes_timeOfMinutes (t : Z) :
  0 <= t <= 1439 -> Popup.timeToMinutes (timeOfMinutes t) = Int t.
Proof.
  intros Ht. unfold timeOfMinutes.
  pose proof (Z.mod_pos_bound t 60 ltac:(lia)).
  pose proof (Z.div_mod t 60 ltac:(lia)).
  rewrite timeToMinutes_hhmm; [f_equal; lia | | lia].
  split; [apply Z.div_pos; lia | ].
  assert (t / 60 < 24) by (apply Z.div_lt_upper_bound; lia). lia.
Qed.

Lemma valid_timeOfMinutes (t : Z) :
  0 <= t <= 1439 -> Utils.isValidTimeFormat (timeOfMinutes t) = true.
Proof.
  intros Ht.
  apply (upto_forallb (fun t => Utils.isValidTimeFormat (timeOfMinutes t))
                      0 1440).
  - vm_compute. reflexivity.
  - lia.
Qed.

Lemma digit_of_char (c : N) :
  isDigit c = true ->
  exists x, 0 <= x <= 9 /\ c = digit x /\ x = Z.of_N c - 48.
Proof.
  unfold isDigit. rewrite andb_true_iff, !N.leb_le. intros [H1 H2].
  exists (Z.of_N c - 48). repeat split; try lia.
  unfold digit. replace (48 + (Z.of_N c - 48)) with (Z.of_N c) by lia.
  now rewrite N2Z.id.
Qed.

(** The text H:MM of an hour below ten written with one digit. *)
Lemma parse_short (h m : Z) :
  0 <= h <= 9 -> 0 <= m <= 59 ->
  Popup.timeToMinutes (tail (hhmm h m)) = Int (h * 60 + m).
Proof.
  intros Hh Hm.
  assert (H : forall h, 0 <= h < 0 + Z.of_nat 10 ->
            forallb (fun m => bool_decide
                       (Popup.timeToMinutes (tail (hhmm h m))
                        = Int (h * 60 + m)))
                    (upto 0 60) = true).
  { apply (upto_forallb
             (fun h => forallb (fun m => bool_decide
                          (Popup.timeToMinutes (tail (hhmm h m))
                           = Int (h * 60 + m))) (upto 0 60))).
    vm_compute. reflexivity. }
  specialize (H h ltac:(lia)).
  pose proof (upto_forallb _ 0 60 H m ltac:(lia)) as Hm'.
  cbv beta in Hm'. now apply bool_decide_eq_true in Hm'.
Qed.

Lemma isValidTimeFormat_parts (timeString : str) :
  Utils.isValidTimeFormat timeString = true ->
  exists h m,
    0 <= h <= 23 /\ 0 <= m <= 59
    /\ (timeString = hhmm h m \/ (h <= 9 /\ timeString = tail (hhmm h m)))
    /\ Popup.timeToMinutes timeString = Int (h * 60 + m).
Proof.
  assert (Hchar : forall c : N, (48 <= c)%N ->
            c = digit (Z.of_N c - 48)).
  { intros c Hc. unfold digit.
    replace (48 + (Z.of_N c - 48)) with (Z.of_N c) by lia.
    now rewrite N2Z.id. }
  assert (Htwo : forall c1 c2 : N,
            (48 <= c1 <= 57)%N -> (48 <= c2 <= 57)%N ->
            let n := 10 * (Z.of_N c1 - 48) + (Z.of_N c2 - 48) in
            c1 = digit (n / 10) /\ c2 = digit (n mod 10)).
  { intros c1 c2 H1 H2 n. subst n.
    replace ((10 * (Z.of_N c1 - 48) + (Z.of_N c2 - 48)) / 10)
      with (Z.of_N c1 - 48)
      by (apply (Z.div_unique _ 10 _ (Z.of_N c2 - 48)); lia).
    replace ((10 * (Z.of_N c1 - 48) + (Z.of_N c2 - 48)) mod 10)
      with (Z.of_N c2 - 48)
      by (apply (Z.mod_unique _ 10 (Z.of_N c1 - 48) (Z.of_N c2 - 48)); lia).
    split; apply Hchar; lia. }
  destruct timeString as [|a [|b [|c [|d [|e [|f rest]]]]]]; try discriminate;
    intros H; unfold Utils.isValidTimeFormat, isDigit in H;
    repeat match type of H with
           | _ && _ = true =>
               let H' := fresh "H" in
               apply andb_true_iff in H; destruct H as [H H']; revert H'
           end;
    revert H; intros;
    repeat match goal with
           | H : _ && _ = true |- _ => apply andb_true_iff in H; destruct H
           | H : (_ <=? _)%N = true |- _ => apply N.leb_le in H
           | H : (_ =? _)%N = true |- _ => apply N.eqb_eq in H
           end.
  - (* H:MM *)
    subst b.
    destruct (Htwo c d ltac:(lia) ltac:(lia)) as [Ec Ed].
    exists (Z.of_N a - 48), (10 * (Z.of_N c - 48) + (Z.of_N d - 48)).
    assert (E : [a; COLON; c; d]
                = tail (hhmm (Z.of_N a - 48)
                             (10 * (Z.of_N c - 48) + (Z.of_N d - 48)))).
    { unfold hhmm. cbn [tail]. rewrite <- Ec, <- Ed.
      rewrite Z.mod_small by lia. now rewrite <- Hchar by lia. }
    rewrite E.
    split; [lia|]. split; [lia|]. split; [right; split; [lia|reflexivity]|].
    apply parse_short; lia.
  - (* HH:MM *)
    subst c.
    destruct (Htwo d e ltac:(lia) ltac:(lia)) as [Ed Ee].
    assert (Hab : (48 <= a <= 50)%N /\ (48 <= b <= 57)%N
                  /\ (a = 50%N -> (b <= 51)%N)).
    { match goal with
      | H : _ || _ = true |- _ =>
          apply orb_true_iff in H; destruct H as [H|H];
          apply andb_true_iff in H; destruct H as [Hx Hy]
      end.
      - apply orb_true_iff in Hx. rewrite !N.eqb_eq in Hx.
        apply andb_true_iff in Hy. rewrite !N.leb_le in Hy.
        destruct Hx; subst a; repeat split; try lia; discriminate.
      - apply N.eqb_eq in Hx. apply andb_true_iff in Hy.
        rewrite !N.leb_le in Hy. subst a. repeat split; lia. }
    destruct Hab as (Ha & Hb & Hab).
    destruct (Htwo a b ltac:(lia) ltac:(lia)) as [Ea Eb].
    exists (10 * (Z.of_N a - 48) + (Z.of_N b - 48)),
           (10 * (Z.of_N d - 48) + (Z.of_N e - 48)).
    assert (E : [a; b; COLON; d; e]
                = hhmm (10 * (Z.of_N a - 48) + (Z.of_N b - 48))
                       (10 * (Z.of_N d - 48) + (Z.of_N e - 48))).
    { unfold hhmm. now rewrite <- Ea, <- Eb, <- Ed, <- Ee. }
    rewrite E.
    assert (Hh : 0 <= 10 * (Z.of_N a - 48) + (Z.of_N b - 48) <= 23).
    { destruct (N.eq_dec a 50%N) as [E50|N50]; [specialize (Hab E50)|]; lia. }
    split; [exact Hh|]. split; [lia|]. split; [now left|].
    apply timeToMinutes_hhmm; lia.
Qed.


(** X2.  A text accepted by [isValidTimeFormat] is the HH:MM text of an
    hour from 0 to 23 and a minute from 0 to 59, the hour below ten
    possibly written with one digit; [timeToMinutes] reads it as
    [60 * hour + minute].  Every HH:MM text in that range is accepted. *)
Theorem isValidTimeFormat_sound (timeString : str) :
  Utils.isValidTimeFormat timeString = true ->
  exists h m,
    0 <= h <= 23 /\ 0 <= m <= 59
    /\ (timeString = hhmm h m \/ (h <= 9 /\ timeString = tail (hhmm h m)))
    /\ Popup.timeToMinutes timeString = Int (h * 60 + m)
    /\ Utils.isValidTimeFormat (hhmm h m) = true.
Proof.
  intros H.
  destruct (isValidTimeFormat_parts timeString H)
    as (h & m & Hh & Hm & Hshape & Hmin).
  exists h, m. repeat (split; [assumption|]).
  rewrite (hhmm_timeOfMinutes h m Hm). apply valid_timeOfMinutes. lia.
Qed.

Lemma isValidTimeFormat_sound_witness :
  exists h m,
    0 <= h <= 23 /\ 0 <= m <= 59
    /\ (lit "9:05" = hhmm h m \/ (h <= 9 /\ lit "9:05" = tail (hhmm h m)))
    /\ Popup.timeToMinutes (lit "9:05") = Int (h * 60 + m)
    /\ Utils.isValidTimeFormat (hhmm h m) = true.
Proof.
  apply (isValidTimeFormat_sound (lit "9:05")). reflexivity.
Defined.

Lemma hhmm_not_empty (h m : Z) : str_eqb (hhmm h m) [] = false.
Proof. apply str_eqb_neq. discriminate. Qed.

Lemma validateTimeInput_minutes (s e : str) (a b : Z) :
  s <> [] -> e <> [] ->
  Popup.timeToMinutes s = Int a -> Popup.timeToMinutes e = Int b ->
  Popup.validateTimeInput s e = (a <? b).
Proof.
  intros Hs He Ha Hb. unfold Popup.validateTimeInput.
  apply str_eqb_neq in Hs. apply str_eqb_neq in He.
  rewrite Hs, He, Ha, Hb. cbn [orb Popup.le].
  destruct (Z.leb_spec b a), (Z.ltb_spec a b); try reflexivity; lia.
Qed.

(** X3.  [validateTimeInput] refuses a request with an empty start or end
    time; for two times that [isValidTimeFormat] accepts it answers true
    exactly when the end lies strictly after the start, counted in
    minutes, so an empty or inverted working window never leaves the
    popup. *)
Theorem validateTimeInput_iff (startTime endTime : str) :
  Popup.validateTimeInput [] endTime = false
  /\ Popup.validateTimeInput startTime [] = false
  /\ (Utils.isValidTimeFormat startTime = true ->
      Utils.isValidTimeFormat endTime = true ->
      exists a b,
        Popup.timeToMinutes startTime = Int a
        /\ Popup.timeToMinutes endTime = Int b
        /\ 0 <= a <= 1439 /\ 0 <= b <= 1439
        /\ (Popup.validateTimeInput startTime endTime = true <-> a < b)).
Proof.
  split; [reflexivity|]. split.
  { unfold Popup.validateTimeInput.
    replace (str_eqb [] []) with true by reflexivity.
    now rewrite orb_true_r. }
  intros Hs He.
  destruct (isValidTimeFormat_parts startTime Hs)
    as (h1 & m1 & Hh1 & Hm1 & _ & Ha).
  destruct (isValidTimeFormat_parts endTime He)
    as (h2 & m2 & Hh2 & Hm2 & _ & Hb).
  exists (h1 * 60 + m1), (h2 * 60 + m2).
  split; [exact Ha|]. split; [exact Hb|]. split; [lia|]. split; [lia|].
  rewrite (validateTimeInput_minutes startTime endTime
             (h1 * 60 + m1) (h2 * 60 + m2)); try assumption.
  - apply Z.ltb_lt.
  - intros ->. discriminate.
  - intros ->. discriminate.
Qed.

Lemma validateTimeInput_iff_witness :
  exists a b,
    Popup.timeToMinutes (lit "09:00") = Int a
    /\ Popup.timeToMinutes (lit "18:00") = Int b
    /\ 0 <= a <= 1439 /\ 0 <= b <= 1439
    /\ (Popup.validateTimeInput (lit "09:00") (lit "18:00") = true <-> a < b).
Proof.
  destruct (validateTimeInput_iff (lit "09:00") (lit "18:00")) as (_ & _ & H).
  exact (H eq_refl eq_refl).
Defined.

(** ** constantDataProvider.js: what the humanized times look like *)

(** X4.  Whatever number the random draw yields, [addRandomVariation] of
    a time of day is again a time of day: a text that
    [isValidTimeFormat] accepts and that [timeToMinutes] reads as the
    clamped sum, between 0 and 1439 minutes. *)
Theorem addRandomVariation_valid (h m rnd : Z) :
  0 <= h <= 23 -> 0 <= m <= 59 ->
  let out := ConstantDataProvider.addRandomVariation (hhmm h m) rnd in
  Utils.isValidTimeFormat out = true
  /\ Popup.timeToMinutes out = Int (clamp (h * 60 + m + (rnd - 20)))
  /\ 0 <= clamp (h * 60 + m + (rnd - 20)) <= 1439.
Proof.
  intros Hh Hm out. subst out.
  rewrite (addRandomVariation_clamped h m rnd Hh Hm).
  assert (Hc : 0 <= clamp (h * 60 + m + (rnd - 20)) <= 1439)
    by (unfold clamp; lia).
  split; [now apply valid_timeOfMinutes|].
  split; [now apply timeToMinutes_timeOfMinutes | exact Hc].
Qed.

Lemma addRandomVariation_valid_witness :
  Utils.isValidTimeFormat
    (ConstantDataProvider.addRandomVariation (hhmm 23 50) 1000) = true
  /\ Popup.timeToMinutes
       (ConstantDataProvider.addRandomVariation (hhmm 23 50) 1000)
     = Int (clamp (23 * 60 + 50 + (1000 - 20)))
  /\ 0 <= clamp (23 * 60 + 50 + (1000 - 20)) <= 1439.
Proof.
  apply (addRandomVariation_valid 23 50 1000); lia.
Defined.

(** X5.  Humanizing keeps a window in order only if it is long enough.
    When the configured end lies more than 40 minutes after the start,
    every humanized pair passes [validateTimeInput]: its check-in is
    strictly before its check-out.  When the end lies after the start by
    40 minutes or less, there are draws within range for which the
    humanized pair fails it. *)
Theorem humanized_window_order
  (p : ConstantDataProvider.t) (h1 m1 h2 m2 : Z) (date : str) :
  ConstantDataProvider.humanize p = true ->
  ConstantDataProvider.checkinTime p = hhmm h1 m1 ->
  ConstantDataProvider.checkoutTime p = hhmm h2 m2 ->
  0 <= h1 <= 23 -> 0 <= m1 <= 59 -> 0 <= h2 <= 23 -> 0 <= m2 <= 59 ->
  let width := (h2 * 60 + m2) - (h1 * 60 + m1) in
  (40 < width ->
   forall g, Random.in_range g ->
     let td := fst (ConstantDataProvider.getTimeData p date g) in
     Popup.validateTimeInput (checkin td) (checkout td) = true)
  /\ (width <= 40 ->
      exists g, Random.in_range g
        /\ let td := fst (ConstantDataProvider.getTimeData p date g) in
           Popup.validateTimeInput (checkin td) (checkout td) = false).
Proof.
  intros Hp Hin Hout Hh1 Hm1 Hh2 Hm2 width.
  assert (Hrun : forall g,
            let td := fst (ConstantDataProvider.getTimeData p date g) in
            Popup.validateTimeInput (checkin td) (checkout td)
            = (clamp (h1 * 60 + m1 + (g 0%nat - 20))
               <? clamp (h2 * 60 + m2 + (g 1%nat - 20)))).
  { intros g. unfold ConstantDataProvider.getTimeData. rewrite Hp.
    cbn [negb Random.next fst checkin checkout]. rewrite Hin, Hout.
    rewrite !addRandomVariation_clamped by assumption.
    apply validateTimeInput_minutes;
      try (unfold timeOfMinutes; apply str_eqb_neq, hhmm_not_empty);
      apply timeToMinutes_timeOfMinutes; unfold clamp; lia. }
  split.
  - intros Hw g Hg. cbv zeta. rewrite (Hrun g). apply Z.ltb_lt.
    pose proof (Hg 0%nat). pose proof (Hg 1%nat).
    subst width. unfold clamp. lia.
  - intros Hw.
    exists (fun k => match k with O => 40 | _ => 0 end). split.
    + intros [|k]; lia.
    + cbv zeta. rewrite Hrun. apply Z.ltb_ge.
      subst width. unfold clamp. lia.
Qed.

Lemma humanized_window_order_witness :
  (forall g, Random.in_range g ->
     Popup.validateTimeInput
       (checkin (fst (ConstantDataProvider.getTimeData
                        (ConstantDataProvider.new (lit "09:00") (lit "18:00") true)
                        (lit "26/08/2025") g)))
       (checkout (fst (ConstantDataProvider.getTimeData
                         (ConstantDataProvider.new (lit "09:00") (lit "18:00") true)
                         (lit "26/08/2025") g))) = true)
  /\ exists g, Random.in_range g
       /\ Popup.validateTimeInput
            (checkin (fst (ConstantDataProvider.getTimeData
                             (ConstantDataProvider.new (lit "09:00") (lit "09:30") true)
                             (lit "26/08/2025") g)))
            (checkout (fst (ConstantDataProvider.getTimeData
                              (ConstantDataProvider.new (lit "09:00") (lit "09:30") true)
                              (lit "26/08/2025") g))) = false.
Proof.
  split.
  - apply (humanized_window_order
             (ConstantDataProvider.new (lit "09:00") (lit "18:00") true)
             9 0 18 0 (lit "26/08/2025")); try reflexivity; lia.
  - apply (humanized_window_order
             (ConstantDataProvider.new (lit "09:00") (lit "09:30") true)
             9 0 9 30 (lit "26/08/2025")); try reflexivity; lia.
Defined.

(** ** dialogManager.js: every run of the readiness polling *)

Section PollingInGeneral.

Variable host : Host.

(** What a successful attempt returns. *)
Lemma waitAttempt_ready_result (attempt : nat) (delayMs : N) (w : World) :
  ready (document w) = true ->
  exists n,
    (1 <= n)%nat
    /\ DialogManager.waitAttempt host attempt delayMs w
       = (Return {| success := true;
                    message := Some (lit "Dialog ready after "
                                     ++ ofNat attempt ++ lit " attempts");
                    error := None; warning := None;
                    details := Some (WaitDetails n true) |}, w).
Proof.
  destruct w as [[trg [[sd cd [[vsd vcd vh]|] [t|] [b|]]|]] clk tr];
    repeat (crunch;
            match goal with
            | |- context [str_eqb ?a ?b] => destruct (str_eqb a b)
            | |- context [(timeInputsCount ?t =? 0)%nat] =>
                destruct (timeInputsCount t =? 0)%nat eqn:?
            | |- context [if ?b then _ else _] => is_var b; destruct b
            end);
    crunch; intros; try discriminate;
    exists (timeInputsCount t); (split; [|reflexivity]);
    match goal with
    | H : (timeInputsCount t =? 0)%nat = false |- _ =>
        apply Nat.eqb_neq in H; lia
    end.
Qed.

Lemma waitLoop_general (maxRetries : nat) (delayMs : N) :
  forall (remaining attempt : nat) (w : World),
  exists r w' tr k,
    DialogManager.waitLoop host remaining attempt maxRetries delayMs w
    = (r, w')
    /\ trace w' = trace w ++ tr
    /\ clicks tr = []
    /\ attempts tr = seq attempt k
    /\ (k <= remaining)%nat
    /\ clock w' = (clock w + slept tr)%N
    /\ ((r = DialogManager.notReady maxRetries delayMs
         /\ k = remaining
         /\ slept tr = (N.of_nat remaining * delayMs)%N)
        \/ (success r = true
            /\ (1 <= k)%nat
            /\ ready (document w') = true
            /\ slept tr = (N.of_nat (k - 1) * delayMs)%N
            /\ message r = Some (lit "Dialog ready after "
                                 ++ ofNat (attempt + k - 1)
                                 ++ lit " attempts")
            /\ exists n, (1 <= n)%nat
                         /\ details r = Some (WaitDetails n true))).
Proof.
  induction remaining as [|remaining IH]; intros attempt w.
  - exists (DialogManager.notReady maxRetries delayMs), w, [], 0%nat.
    rewrite app_nil_r. cbn.
    repeat split; try lia. left. repeat split; try lia.
  - set (w1 := snd (emit (Attempt attempt) w)).
    destruct (ready (document w1)) eqn:Hready.
    + destruct (waitAttempt_ready_result attempt delayMs w1 Hready)
        as (n & Hn & Hstep).
      eexists _, w1, [Attempt attempt], 1%nat.
      split.
      { cbn [DialogManager.waitLoop]. rewrite bind_run.
        change (snd (emit (Attempt attempt) w)) with w1.
        rewrite bind_run, Hstep. reflexivity. }
      split; [reflexivity|]. split; [reflexivity|]. split; [reflexivity|].
      split; [lia|]. split; [cbn; lia|].
      right. split; [reflexivity|]. split; [lia|]. split; [exact Hready|].
      split; [cbn; lia|].
      split; [cbn [message]; now replace (attempt + 1 - 1)%nat with attempt by lia|].
      exists n. split; [exact Hn | reflexivity].
    + set (w2 := snd (sleep host delayMs w1)).
      destruct (IH (S attempt) w2)
        as (r & w' & tr & k & Hrun & Htr & Hcl & Hatt & Hk & Hclk & Hcase).
      exists r, w', (Attempt attempt :: Slept delayMs :: tr), (S k).
      split.
      { cbn [DialogManager.waitLoop]. rewrite bind_run.
        change (snd (emit (Attempt attempt) w)) with w1.
        rewrite bind_run, (waitAttempt_not_ready host attempt delayMs w1 Hready).
        exact Hrun. }
      split.
      { rewrite Htr. destruct w as [doc clk tr0]. simpl.
        rewrite <- !app_assoc. reflexivity. }
      split; [exact Hcl|].
      split; [simpl; now rewrite Hatt|].
      split; [lia|].
      assert (Hs : slept (Attempt attempt :: Slept delayMs :: tr)
                   = (delayMs + slept tr)%N) by reflexivity.
      split.
      { rewrite Hclk, Hs. destruct w as [doc clk tr0]. simpl. lia. }
      destruct Hcase as [(Hr & Hk' & Hsl) | (Hr & Hk' & Hrd & Hsl & Hmsg & Hdet)].
      * left. repeat split; try assumption; try lia;
          try (rewrite Hs, Hsl; lia).
      * right. split; [exact Hr|]. split; [lia|]. split; [exact Hrd|].
        split.
        { rewrite Hs, Hsl. replace (S k - 1)%nat with (S (k - 1)) by lia. lia. }
        split; [|exact Hdet].
        rewrite Hmsg. now replace (S attempt + k - 1)%nat
                        with (attempt + S k - 1)%nat by lia.
Qed.

End PollingInGeneral.

(** X6.  Whatever the page does, [waitForDialog] ends after at most
    [maxRetries] attempts, numbered from 1 without a gap, clicks nothing
    and sleeps no longer than [maxRetries * delayMs].  It either returns
    the not-ready failure after all [maxRetries] attempts, or returns
    success at an attempt [k] on a page that is ready at that moment,
    after [k - 1] sleeps, naming [k] in its message and reporting at
    least one time input and the submit button. *)
Theorem waitForDialog_bounded
  (host : Host) (dialogConfig : DialogConfig) (w : World) :
  let maxRetries := waitForDialogMaxRetries dialogConfig in
  let delayMs := waitForDialogDelayTime dialogConfig in
  exists r w' tr k,
    DialogManager.waitForDialog host dialogConfig w = (r, w')
    /\ trace w' = trace w ++ tr
    /\ clicks tr = []
    /\ attempts tr = seq 1 k
    /\ (k <= maxRetries)%nat
    /\ clock w' = (clock w + slept tr)%N
    /\ (slept tr <= N.of_nat maxRetries * delayMs)%N
    /\ ((success r = false
         /\ r = DialogManager.notReady maxRetries delayMs
         /\ k = maxRetries)
        \/ (success r = true
            /\ (1 <= k)%nat
            /\ ready (document w') = true
            /\ slept tr = (N.of_nat (k - 1) * delayMs)%N
            /\ message r = Some (lit "Dialog ready after " ++ ofNat k
                                 ++ lit " attempts")
            /\ exists n, (1 <= n)%nat
                         /\ details r = Some (WaitDetails n true))).
Proof.
  intros maxRetries delayMs.
  destruct (waitLoop_general host maxRetries delayMs maxRetries 1 w)
    as (r & w' & tr & k & Hrun & Htr & Hcl & Hatt & Hk & Hclk & Hcase).
  exists r, w', tr, k.
  split; [exact Hrun|]. split; [exact Htr|]. split; [exact Hcl|].
  split; [exact Hatt|]. split; [exact Hk|]. split; [exact Hclk|].
  destruct Hcase as [(Hr & Hk' & Hsl) | (Hr & Hk' & Hrd & Hsl & Hmsg & Hdet)].
  - split; [rewrite Hsl; lia|]. left. subst r. now repeat split.
  - split; [rewrite Hsl; nia|]. right.
    replace (1 + k - 1)%nat with k in Hmsg by lia.
    now repeat split.
Qed.

(** X7.  On a page that is ready at the first look, [waitForDialog] with
    at least one retry returns success at attempt 1 without sleeping:
    the world is as before but for the mark of that attempt. *)
Theorem waitForDialog_ready_at_once
  (host : Host) (dialogConfig : DialogConfig) (w : World) :
  (1 <= waitForDialogMaxRetries dialogConfig)%nat ->
  ready (document w) = true ->
  exists r n,
    DialogManager.waitForDialog host dialogConfig w
    = (r, {| document := document w; clock := clock w;
             trace := trace w ++ [Attempt 1] |})
    /\ success r = true
    /\ message r = Some (lit "Dialog ready after 1 attempts")
    /\ (1 <= n)%nat
    /\ details r = Some (WaitDetails n true).
Proof.
  intros Hmax Hready. unfold DialogManager.waitForDialog.
  destruct (waitForDialogMaxRetries dialogConfig) as [|m] eqn:Em; [lia|].
  set (w1 := {| document := document w; clock := clock w;
                trace := trace w ++ [Attempt 1] |}).
  destruct (waitAttempt_ready_result host 1 (waitForDialogDelayTime dialogConfig)
              w1 Hready) as (n & Hn & Hstep).
  eexists _, n. split.
  { cbn [DialogManager.waitLoop]. rewrite bind_run.
    change (snd (emit (Attempt 1) w)) with w1.
    rewrite bind_run, Hstep. reflexivity. }
  repeat split; assumption.
Qed.

Lemma waitForDialog_ready_at_once_witness :
  exists r n,
    DialogManager.waitForDialog idle (mkDialogConfig 10 250)
      (start (pageWithRows [workingDay (Some []) (Some [])]))
    = (r, {| document := pageWithRows [workingDay (Some []) (Some [])];
             clock := 0; trace := [] ++ [Attempt 1] |})
    /\ success r = true
    /\ message r = Some (lit "Dialog ready after 1 attempts")
    /\ (1 <= n)%nat
    /\ details r = Some (WaitDetails n true).
Proof.
  apply (waitForDialog_ready_at_once idle (mkDialogConfig 10 250)
           (start (pageWithRows [workingDay (Some []) (Some [])]))).
  - simpl. lia.
  - reflexivity.
Defined.

(** ** formManager.js: every run of the close confirmation and of the
    submission *)

Section ClosingInGeneral.

Variable host : Host.

Lemma closeAttempt_closed (attempt maxRetries : nat) (delayMs : N) (w : World) :
  stillOpen (document w) = false ->
  exists r, FormManager.closeAttempt host attempt maxRetries delayMs w
            = (Return r, w)
            /\ success r = true.
Proof.
  unfold stillOpen, FormManager.closeAttempt. rewrite bind_run.
  cbn [getDocument fst snd]. intros H.
  destruct (dialog (document w)) as [d|].
  - rewrite H. cbn [negb]. eexists. split; reflexivity.
  - eexists. split; reflexivity.
Qed.

Lemma closeAttempt_open (attempt maxRetries : nat) (delayMs : N) (w : World) :
  stillOpen (document w) = true ->
  FormManager.closeAttempt host attempt maxRetries delayMs w
  = (Continue,
     if (attempt <? maxRetries)%nat then snd (sleep host delayMs w) else w).
Proof.
  unfold stillOpen, FormManager.closeAttempt. rewrite bind_run.
  cbn [getDocument fst snd]. intros H.
  destruct (dialog (document w)) as [d|]; [|discriminate].
  rewrite H. cbn [negb]. rewrite bind_run.
  destruct (attempt <? maxRetries)%nat; reflexivity.
Qed.

Lemma closeLoop_general (maxRetries : nat) (delayMs : N) :
  forall (remaining attempt : nat) (w : World),
  (attempt + remaining = maxRetries + 1)%nat ->
  exists r w' tr k,
    FormManager.closeLoop host remaining attempt maxRetries delayMs w
    = (r, w')
    /\ trace w' = trace w ++ tr
    /\ clicks tr = []
    /\ attempts tr = seq attempt k
    /\ (k <= remaining)%nat
    /\ clock w' = (clock w + slept tr)%N
    /\ ((success r = true
         /\ (1 <= k)%nat
         /\ stillOpen (document w') = false
         /\ slept tr = (N.of_nat (k - 1) * delayMs)%N)
        \/ (success r = false
            /\ k = remaining
            /\ slept tr = (N.of_nat (remaining - 1) * delayMs)%N
            /\ ((1 <= remaining)%nat -> stillOpen (document w') = true))).
Proof.
  induction remaining as [|remaining IH]; intros attempt w Hinv.
  - eexists _, w, [], 0%nat. rewrite app_nil_r. cbn.
    repeat split; try lia. right. repeat split; try lia.
  - set (w1 := snd (emit (Attempt attempt) w)).
    destruct (stillOpen (document w1)) eqn:Hopen.
    + pose proof (closeAttempt_open attempt maxRetries delayMs w1 Hopen) as Hstep.
      set (w2 := if (attempt <? maxRetries)%nat
                 then snd (sleep host delayMs w1) else w1) in *.
      destruct (IH (S attempt) w2 ltac:(lia))
        as (r & w' & tr & k & Hrun & Htr & Hcl & Hatt & Hk & Hclk & Hcase).
      destruct (attempt <? maxRetries)%nat eqn:Hlt.
      * apply Nat.ltb_lt in Hlt.
        exists r, w', (Attempt attempt :: Slept delayMs :: tr), (S k).
        assert (Hs : slept (Attempt attempt :: Slept delayMs :: tr)
                     = (delayMs + slept tr)%N) by reflexivity.
        split.
        { cbn [FormManager.closeLoop]. rewrite bind_run.
          change (snd (emit (Attempt attempt) w)) with w1.
          rewrite bind_run, Hstep. exact Hrun. }
        split.
        { rewrite Htr. destruct w as [doc clk tr0]. simpl.
          rewrite <- !app_assoc. reflexivity. }
        split; [exact Hcl|].
        split; [simpl; now rewrite Hatt|].
        split; [lia|].
        split.
        { rewrite Hclk, Hs. destruct w as [doc clk tr0]. simpl. lia. }
        destruct Hcase as [(Hr & Hk' & Hst & Hsl) | (Hr & Hk' & Hsl & Hst)].
        -- left. split; [exact Hr|]. split; [lia|]. split; [exact Hst|].
           rewrite Hs, Hsl. replace (S k - 1)%nat with (S (k - 1)) by lia. lia.
        -- right. split; [exact Hr|]. split; [lia|]. split.
           ++ rewrite Hs, Hsl.
              replace (S remaining - 1)%nat with (S (remaining - 1)) by lia. lia.
           ++ intros _. apply Hst. lia.
      * apply Nat.ltb_ge in Hlt.
        assert (Hrem : remaining = 0%nat) by lia. subst remaining.
        clear Hrun Htr Hcl Hatt Hk Hclk Hcase.
        eexists _, w1, [Attempt attempt], 1%nat.
        split.
        { cbn [FormManager.closeLoop]. rewrite bind_run.
          change (snd (emit (Attempt attempt) w)) with w1.
          rewrite bind_run, Hstep. reflexivity. }
        split; [reflexivity|]. split; [reflexivity|]. split; [reflexivity|].
        split; [lia|]. split; [cbn; lia|].
        right. split; [reflexivity|]. split; [reflexivity|].
        split; [reflexivity|]. intros _. exact Hopen.
    + destruct (closeAttempt_closed attempt maxRetries delayMs w1 Hopen)
        as (r & Hstep & Hr).
      exists r, w1, [Attempt attempt], 1%nat.
      split.
      { cbn [FormManager.closeLoop]. rewrite bind_run.
        change (snd (emit (Attempt attempt) w)) with w1.
        rewrite bind_run, Hstep. reflexivity. }
      split; [reflexivity|]. split; [reflexivity|]. split; [reflexivity|].
      split; [lia|]. split; [cbn; lia|].
      left. repeat split; try assumption; try lia.
Qed.

End ClosingInGeneral.

(** X8.  Whatever the page does, [waitForDialogClose] ends after at most
    [maxRetries] looks, clicks nothing, and sleeps only between looks:
    [k - 1] delays when it succeeds at look [k], [maxRetries - 1] delays
    when it gives up.  It reports success only if at its last look the
    dialog was gone or hidden, and failure only if the dialog was still
    on display then (or no look was allowed at all). *)
Theorem waitForDialogClose_bounded
  (host : Host) (maxRetries : nat) (delayMs : N) (w : World) :
  exists r w' tr k,
    FormManager.waitForDialogClose host maxRetries delayMs w = (r, w')
    /\ trace w' = trace w ++ tr
    /\ clicks tr = []
    /\ attempts tr = seq 1 k
    /\ (k <= maxRetries)%nat
    /\ clock w' = (clock w + slept tr)%N
    /\ (slept tr <= N.of_nat (maxRetries - 1) * delayMs)%N
    /\ ((success r = true
         /\ (1 <= k)%nat
         /\ stillOpen (document w') = false
         /\ slept tr = (N.of_nat (k - 1) * delayMs)%N)
        \/ (success r = false
            /\ k = maxRetries
            /\ slept tr = (N.of_nat (maxRetries - 1) * delayMs)%N
            /\ ((1 <= maxRetries)%nat -> stillOpen (document w') = true))).
Proof.
  destruct (closeLoop_general host maxRetries delayMs maxRetries 1 w ltac:(lia))
    as (r & w' & tr & k & Hrun & Htr & Hcl & Hatt & Hk & Hclk & Hcase).
  exists r, w', tr, k.
  split; [exact Hrun|]. split; [exact Htr|]. split; [exact Hcl|].
  split; [exact Hatt|]. split; [exact Hk|]. split; [exact Hclk|].
  split; [|exact Hcase].
  destruct Hcase as [(_ & Hk' & _ & Hsl) | (_ & _ & Hsl & _)]; rewrite Hsl.
  - apply N.mul_le_mono_r. lia.
  - lia.
Qed.


(** X9.  [submitForm] either fails and leaves the world untouched
    (nothing clicked, no time spent), which happens exactly when the
    dialog is missing, the submit button is missing or the button is
    disabled; or it succeeds after clicking the submit button once and
    nothing else, having slept at most 500 ms plus
    [DEFAULT_RETRY_COUNT - 1] delays.  A success without warning means
    that the dialog was gone or hidden at the last look; a success with
    a warning, that it was still on display. *)
Theorem submitForm_outcomes (host : Host) (config : Config) (w : World) :
  exists r w' tr,
    FormManager.submitForm host config w = (r, w')
    /\ trace w' = trace w ++ tr
    /\ clock w' = (clock w + slept tr)%N
    /\ (success r = false <->
        dialog (document w) = None
        \/ exists d, dialog (document w) = Some d
             /\ (submitButton d = None
                 \/ exists b, submitButton d = Some b /\ disabled b = true))
    /\ (success r = false -> w' = w /\ tr = [])
    /\ (success r = true ->
        clicks tr = [SubmitButton]
        /\ (slept tr <= 500 + N.of_nat (DEFAULT_RETRY_COUNT config - 1)
                              * DEFAULT_DELAY_MS config)%N
        /\ (warning r = None -> stillOpen (document w') = false)
        /\ (warning r <> None -> (1 <= DEFAULT_RETRY_COUNT config)%nat ->
            stillOpen (document w') = true)).
Proof.
  unfold FormManager.submitForm. rewrite bind_run. cbn [getDocument fst snd].
  destruct (dialog (document w)) as [d|] eqn:Hd.
  2:{ eexists _, w, []. rewrite app_nil_r. cbn.
      repeat split; auto; try discriminate; lia. }
  destruct (submitButton d) as [b|] eqn:Hb.
  2:{ eexists _, w, []. rewrite app_nil_r. cbn.
      repeat split; auto; try discriminate; try lia.
      intros _. right. exists d. auto. }
  destruct (disabled b) eqn:Hdis.
  { eexists _, w, []. rewrite app_nil_r. cbn.
    repeat split; auto; try discriminate; try lia.
    intros _. right. exists d. split; [reflexivity|]. right. now exists b. }
  rewrite !bind_run.
  set (w1 := snd (sleep host 500 (snd (click host SubmitButton w)))).
  destruct (closeLoop_general host (DEFAULT_RETRY_COUNT config)
              (DEFAULT_DELAY_MS config) (DEFAULT_RETRY_COUNT config) 1 w1
              ltac:(lia))
    as (r & w' & tr & k & Hrun & Htr & Hcl & _ & Hk & Hclk & Hcase).
  unfold FormManager.waitForDialogClose. rewrite Hrun. cbn [fst snd].
  assert (Hsl : (slept tr <= N.of_nat (DEFAULT_RETRY_COUNT config - 1)
                             * DEFAULT_DELAY_MS config)%N).
  { destruct Hcase as [(_ & Hk' & _ & Hsl) | (_ & _ & Hsl & _)]; rewrite Hsl.
    - apply N.mul_le_mono_r. lia.
    - lia. }
  assert (Htrace : trace w' = trace w ++ Clicked SubmitButton :: Slept 500 :: tr).
  { rewrite Htr. destruct w as [doc clk tr0]. simpl.
    rewrite <- !app_assoc. reflexivity. }
  assert (Hclock : clock w'
                   = (clock w + slept (Clicked SubmitButton :: Slept 500 :: tr))%N).
  { rewrite Hclk. change (slept (Clicked SubmitButton :: Slept 500 :: tr))
      with (500 + slept tr)%N. destruct w as [doc clk tr0]. simpl. lia. }
  assert (Hno : ~ (Some d = None
                   \/ exists d0, Some d = Some d0
                        /\ (submitButton d0 = None
                            \/ exists b0, submitButton d0 = Some b0
                                 /\ disabled b0 = true))).
  { intros [H | (d0 & H & [H' | (b0 & H' & H'')])];
      try discriminate; injection H as <-; congruence. }
  destruct Hcase as [(Hr & _ & Hst & _) | (Hr & _ & _ & Hst)]; rewrite Hr;
    eexists _, w', (Clicked SubmitButton :: Slept 500 :: tr);
    (split; [reflexivity|]); (split; [exact Htrace|]);
    (split; [exact Hclock|]);
    (split; [cbn; split; [discriminate | intros H; now destruct (Hno H)]|]);
    (split; [cbn; discriminate|]); intros _;
    (split; [change (clicks (Clicked SubmitButton :: Slept 500 :: tr))
               with (SubmitButton :: clicks tr); now rewrite Hcl|]);
    (split; [change (slept (Clicked SubmitButton :: Slept 500 :: tr))
               with (500 + slept tr)%N; lia|]).
  - split; [intros _; exact Hst | intros H; now destruct H].
  - split; [cbn; discriminate | intros _ Hmax; now apply Hst].
Qed.

(** ** formManager.js: what a fill pass does to the page and the clock *)

Lemma notified_app (a b : list Event) :
  notified a = true -> notified b = true -> notified (a ++ b) = true.
Proof.
  remember (length a) as n eqn:Hn. revert a Hn.
  induction n as [n IH] using lt_wf_ind. intros a Hn Ha Hb.
  destruct a as [|e a]; [exact Hb|].
  destruct e as [c|ms|k|f v|f e].
  - cbn in *. apply (IH (length a)); subst; cbn; auto.
  - cbn in *. apply (IH (length a)); subst; cbn; auto.
  - cbn in *. apply (IH (length a)); subst; cbn; auto.
  - destruct a as [|[c1|ms1|k1|f1 v1|f1 [|]] [|[c2|ms2|k2|f2 v2|f2 [|]] rest]];
      try discriminate.
    cbn in Ha |- *. apply andb_true_iff in Ha. destruct Ha as [Hf Hrest].
    rewrite Hf. cbn. apply (IH (length rest)); subst; cbn; auto.
  - discriminate.
Qed.

Lemma fillRowInputs_events (row : Row) (timeData : TimeData) (date : str)
  (w : World) :
  exists tr,
    trace (snd (FormManager.fillRowInputs row timeData date w)) = trace w ++ tr
    /\ notified tr = true
    /\ clicks tr = []
    /\ attempts tr = []
    /\ (slept tr <= 50)%N
    /\ clock (snd (FormManager.fillRowInputs row timeData date w))
       = (clock w + slept tr)%N.
Proof.
  destruct w as [doc clk tr0], row as [dc ms [ci|] [co|]];
    unfold FormManager.fillRowInputs; cbn [checkIn checkOut];
    try (exists []; rewrite app_nil_r; cbn; repeat split; lia).
  cbv beta iota zeta delta [FormManager.isInputFilled bind ret emit pause tick
                            negb document clock trace withCheckIn withCheckOut
                            checkIn checkOut dateCell missingSelect snd].
  destruct (str_eqb (trim ci) []); destruct (str_eqb (trim co) []);
    cbv beta iota; eexists;
    (split; [rewrite <- ?app_assoc;
             first [reflexivity | symmetry; apply app_nil_r]|]);
    cbn; repeat split; lia.
Qed.

Section FillEvents.

Variable config : Config.
Context {P : Type} {provider : DataProvider P}.

Lemma fillRow_events (row : Row) (c : Counts) (p : P) (w : World) :
  exists tr,
    trace (snd (FormManager.fillRow config row c p w)) = trace w ++ tr
    /\ notified tr = true
    /\ clicks tr = []
    /\ attempts tr = []
    /\ (slept tr <= 150)%N
    /\ clock (snd (FormManager.fillRow config row c p w))
       = (clock w + slept tr)%N.
Proof.
  rewrite fillRow_eq.
  assert (Hnone : exists tr,
            trace w = trace w ++ tr /\ notified tr = true /\ clicks tr = []
            /\ attempts tr = [] /\ (slept tr <= 150)%N
            /\ clock w = (clock w + slept tr)%N).
  { exists []. rewrite app_nil_r. cbn. repeat split; lia. }
  destruct (asksData config row); [|exact Hnone].
  destruct (FormManager.parseDateRow row) as [dateInfo|]; [|exact Hnone].
  cbv zeta.
  destruct (fst (getTimeData p
                   (date (snd (FormManager.shouldSkipDate config dateInfo)))))
    as [|[timeData|]]; try exact Hnone.
  cbn [snd].
  destruct (fillRowInputs_events row timeData
              (date (snd (FormManager.shouldSkipDate config dateInfo))) w)
    as (tr & Htr & Hn & Hcl & Hat & Hsl & Hclk).
  exists (tr ++ [Slept 100]).
  cbn [pause bind emit tick snd trace clock].
  rewrite Htr, Hclk, slept_app, clicks_app, attempts_app, Hcl, Hat.
  split; [now rewrite app_assoc|].
  split; [apply notified_app; [exact Hn | reflexivity]|].
  cbn. repeat split; lia.
Qed.

Lemma fillRows_events (rows : list Row) :
  forall (c : Counts) (p : P) (w : World),
  exists tr,
    trace (snd (FormManager.fillRows config rows c p w)) = trace w ++ tr
    /\ notified tr = true
    /\ clicks tr = []
    /\ attempts tr = []
    /\ (slept tr <= 150 * N.of_nat (length rows))%N
    /\ clock (snd (FormManager.fillRows config rows c p w))
       = (clock w + slept tr)%N.
Proof.
  induction rows as [|row rows IH]; intros c p w.
  - exists []. rewrite app_nil_r. cbn. repeat split; lia.
  - cbn [FormManager.fillRows]. rewrite bind_run.
    destruct (fillRow_events row c p w)
      as (tr1 & Htr1 & Hn1 & Hcl1 & Hat1 & Hsl1 & Hclk1).
    destruct (FormManager.fillRow config row c p w) as [[[row' c'] p'] w1].
    cbn [fst snd] in *. rewrite bind_run.
    destruct (IH c' p' w1) as (tr2 & Htr2 & Hn2 & Hcl2 & Hat2 & Hsl2 & Hclk2).
    destruct (FormManager.fillRows config rows c' p' w1)
      as [[[rows' c''] p''] w2].
    cbn [fst snd ret length] in *.
    exists (tr1 ++ tr2).
    rewrite Htr2, Htr1, Hclk2, Hclk1, slept_app, clicks_app, attempts_app,
      Hcl1, Hcl2, Hat1, Hat2.
    split; [now rewrite app_assoc|].
    split; [now apply notified_app|].
    repeat split; lia.
Qed.

Lemma fillTimeInputs_events (p : P) (w : World) :
  exists tr,
    trace (snd (FormManager.fillTimeInputs config p w)) = trace w ++ tr
    /\ notified tr = true
    /\ clicks tr = []
    /\ attempts tr = []
    /\ clock (snd (FormManager.fillTimeInputs config p w))
       = (clock w + slept tr)%N
    /\ (slept tr <= 150 * N.of_nat
                            (match dialog (document w) with
                             | Some d =>
                                 match hoursReport d with
                                 | Some t => length (dateRows t)
                                 | None => 0
                                 end
                             | None => 0
                             end))%N.
Proof.
  unfold FormManager.fillTimeInputs. rewrite bind_run.
  cbn [getDocument fst snd].
  assert (Hnone : exists tr,
            trace w = trace w ++ tr /\ notified tr = true /\ clicks tr = []
            /\ attempts tr = [] /\ clock w = (clock w + slept tr)%N
            /\ (slept tr <= 150 * N.of_nat 0)%N).
  { exists []. rewrite app_nil_r. cbn. repeat split; lia. }
  destruct (dialog (document w)) as [d|]; [|exact Hnone].
  destruct (hoursReport d) as [t|]; [|exact Hnone].
  rewrite bind_run.
  destruct (fillRows_events (dateRows t)
              {| filledCount := 0; skippedCount := 0; errorCount := 0 |} p w)
    as (tr & Htr & Hn & Hcl & Hat & Hsl & Hclk).
  destruct (FormManager.fillRows config (dateRows t) _ p w)
    as [[[rows' c] p'] w1].
  cbn [fst snd] in *. rewrite bind_run. cbn [storeRows fst snd ret trace clock].
  exists tr. repeat split; assumption.
Qed.

End FillEvents.

(** X10.  Whatever the rows and the provider, a run of [fillTimeInputs]
    clicks nothing and starts no polling attempt; every value it assigns
    to an input is followed at once by the [input] event and then the
    [change] event of that same input, and no event is dispatched
    otherwise. *)
Theorem fillTimeInputs_notifies
  (config : Config) (P : Type) (provider : DataProvider P)
  (p : P) (w : World) :
  exists tr,
    trace (snd (FormManager.fillTimeInputs config p w)) = trace w ++ tr
    /\ notified tr = true
    /\ clicks tr = []
    /\ attempts tr = [].
Proof.
  destruct (fillTimeInputs_events config p w)
    as (tr & Htr & Hn & Hcl & Hat & _).
  exists tr. repeat split; assumption.
Qed.

(** X11.  The delays of a fill pass are bounded by the table: the pass
    sleeps at most 150 ms for each data row (50 ms after a check-in
    write, 100 ms after a row it wrote to), the clock advances by exactly
    what it slept, and a call that finds no dialog or no table sleeps
    not at all. *)
Theorem fillTimeInputs_time_bound
  (config : Config) (P : Type) (provider : DataProvider P)
  (p : P) (w : World) :
  let w' := snd (FormManager.fillTimeInputs config p w) in
  let rows := match dialog (document w) with
              | Some d => match hoursReport d with
                          | Some t => length (dateRows t)
                          | None => 0%nat
                          end
              | None => 0%nat
              end in
  exists tr,
    trace w' = trace w ++ tr
    /\ clock w' = (clock w + slept tr)%N
    /\ (slept tr <= 150 * N.of_nat rows)%N.
Proof.
  intros w' rows.
  destruct (fillTimeInputs_events config p w)
    as (tr & Htr & _ & _ & _ & Hclk & Hsl).
  exists tr. repeat split; assumption.
Qed.

(** X12.  A working day that is not complete, has both inputs and gets
    time data is counted as filled, and only its blank inputs are
    written: each blank input receives the provider's time of its kind,
    each filled input keeps its value, and the row costs 100 ms plus
    50 ms if the check-in was written. *)
Theorem fillRow_fills_blanks
  (config : Config) (P : Type) (provider : DataProvider P)
  (row : Row) (c : Counts) (p p' : P) (w : World)
  (dateInfo : DateInfo) (timeData : TimeData) (ci co : str) :
  FormManager.parseDateRow row = Some dateInfo ->
  asksData config row = true ->
  checkIn row = Some ci ->
  checkOut row = Some co ->
  getTimeData p (date dateInfo) = (Returned (Some timeData), p') ->
  let blankIn := negb (FormManager.isInputFilled (Some ci)) in
  let blankOut := negb (FormManager.isInputFilled (Some co)) in
  exists w' tr,
    FormManager.fillRow config row c p w
    = (({| dateCell := dateCell row; missingSelect := missingSelect row;
           checkIn := Some (if blankIn then checkin timeData else ci);
           checkOut := Some (if blankOut then checkout timeData else co) |},
        filledUp c, p'), w')
    /\ trace w' = trace w ++ tr
    /\ assignments tr
       = (if blankIn then [(CheckIn, checkin timeData)] else [])
         ++ (if blankOut then [(CheckOut, checkout timeData)] else [])
    /\ clock w' = (clock w + 100 + (if blankIn then 50 else 0))%N
    /\ (blankIn || blankOut = true).
Proof.
  intros Hparse Hask Hci Hco Hdata blankIn blankOut.
  rewrite fillRow_eq, Hask, Hparse. cbv zeta.
  rewrite shouldSkipDate_date, Hdata. cbn [fst snd].
  assert (Hblank : blankIn || blankOut = true).
  { unfold asksData in Hask. rewrite Hparse in Hask.
    apply andb_true_iff in Hask. destruct Hask as [_ Hc].
    unfold FormManager.isRowComplete in Hc. rewrite Hci, Hco in Hc.
    subst blankIn blankOut.
    destruct (FormManager.isInputFilled (Some ci)),
             (FormManager.isInputFilled (Some co)); auto. }
  destruct w as [doc clk tr0], row as [dc ms ci' co'].
  cbn [checkIn checkOut] in Hci, Hco. subst ci' co'.
  subst blankIn blankOut.
  unfold FormManager.fillRowInputs. cbn [checkIn checkOut].
  cbv beta iota zeta delta [FormManager.isInputFilled bind ret emit pause tick
                            negb document clock trace withCheckIn withCheckOut
                            checkIn checkOut dateCell missingSelect fst snd
                            success] in Hblank |- *.
  destruct (str_eqb (trim ci) []); destruct (str_eqb (trim co) []);
    cbv beta iota in Hblank |- *; eexists _, _;
    (split; [reflexivity|]);
    (split; [rewrite <- ?app_assoc; reflexivity|]);
    (split; [reflexivity|]); (split; [lia | exact Hblank]).
Qed.

Lemma fillRow_fills_blanks_witness :
  exists w' tr,
    FormManager.fillRow noRules
      (workingDay (Some (lit "08:45")) (Some [])) (mkCounts 0 0 0) nineToSix
      (start (pageWithRows [workingDay (Some (lit "08:45")) (Some [])]))
    = (({| dateCell := dateCell (workingDay (Some (lit "08:45")) (Some []));
           missingSelect := Some (lit "0");
           checkIn := Some (lit "08:45");
           checkOut := Some (lit "18:00") |},
        filledUp (mkCounts 0 0 0), nineToSix), w')
    /\ trace w' = [] ++ tr
    /\ assignments tr = [] ++ [(CheckOut, lit "18:00")]
    /\ clock w' = (0 + 100 + 0)%N
    /\ (false || true = true).
Proof.
  apply (fillRow_fills_blanks noRules _ _
           (workingDay (Some (lit "08:45")) (Some [])) (mkCounts 0 0 0)
           nineToSix nineToSix
           (start (pageWithRows [workingDay (Some (lit "08:45")) (Some [])]))
           {| date := lit "26/08/2025"; hebrewDay := [BET];
              specialText := []; missingEventValue := lit "0";
              fullText := lit "26/08/2025 " ++ [BET]; skipReason := None |}
           (mkTimeData (lit "09:00") (lit "18:00"))
           (lit "08:45") []); reflexivity.
Defined.

(** ** content.js: the whole request *)


(** ** The older script against formManager.js *)

Lemma legacy_parseDateRow (row : Row) :
  Legacy.parseDateRow row = option_map toLegacy (FormManager.parseDateRow row).
Proof.
  unfold Legacy.parseDateRow, FormManager.parseDateRow.
  destruct (dateCell row) as [cell|]; [|reflexivity].
  destruct (dateText cell) as [text|]; [|reflexivity].
  cbv zeta. destruct (matchDate (trim text)) as [[d h]|]; reflexivity.
Qed.

Lemma legacy_shouldSkipDate_absenceFree (config : Config) (dateInfo : DateInfo) :
  match getProperty (MISSING_EVENT_SKIP_RULES config)
                    (missingEventValue dateInfo) with
  | Some value => negb (truthy value)
  | None => true
  end = true ->
  Legacy.shouldSkipDate (toLegacy dateInfo)
  = (fst (FormManager.shouldSkipDate config dateInfo),
     toLegacy (snd (FormManager.shouldSkipDate config dateInfo))).
Proof.
  intros Hfree.
  unfold Legacy.shouldSkipDate, FormManager.shouldSkipDate.
  cbn [toLegacy Legacy.hebrewDay Legacy.specialText].
  destruct (str_eqb (hebrewDay dateInfo) [VAV]
            || str_eqb (hebrewDay dateInfo) [SHIN]); [reflexivity|].
  destruct (includes (specialText dateInfo) HAG
            && negb (includes (specialText dateInfo) EREV)); [reflexivity|].
  destruct (includes (specialText dateInfo) EREV_HAG); [reflexivity|].
  cbv zeta.
  destruct (getProperty (MISSING_EVENT_SKIP_RULES config)
                        (missingEventValue dateInfo)) as [value|];
    [|reflexivity].
  apply negb_true_iff in Hfree. now rewrite Hfree.
Qed.

Section LegacyAgainstModules.

Variable config : Config.
Context {P : Type} {provider : DataProvider P}.

(** Row by row, on a row whose absence code finds no reason, the two
    scripts do the same to the page, the clock and the provider.  They
    count alike but for a working day found complete, which the modules
    count as skipped and the older script as an error, and for a throw
    of null or undefined, which the modules count as an error and the
    older script does not handle. *)
Lemma legacy_fillRow (row : Row) (c cl : Counts) (p : P) (w : World) :
  absenceFree config row = true ->
  let n := if alreadyComplete config row then 1%nat else 0%nat in
  exists row' c' cl' p' w' escaped,
    FormManager.fillRow config row c p w = ((row', c', p'), w')
    /\ Legacy.fillRow row cl p w = ((row', cl', p', escaped), w')
    /\ (escaped = None ->
        exists df ds de,
          c' = {| filledCount := filledCount c + df;
                  skippedCount := skippedCount c + ds + n;
                  errorCount := errorCount c + de |}
          /\ cl' = {| filledCount := filledCount cl + df;
                      skippedCount := skippedCount cl + ds;
                      errorCount := errorCount cl + de + n |})
    /\ (forall message, escaped = Some message ->
        exists ofNull, message = cannotReadMessage ofNull).
Proof.
  intros Hfree.
  assert (Hcount : forall (up : Counts -> Counts) df ds de m,
            (forall c0, up c0 = {| filledCount := filledCount c0 + df;
                                   skippedCount := skippedCount c0 + ds;
                                   errorCount := errorCount c0 + de |}) ->
            m = 0%nat ->
            exists df' ds' de',
              up c = {| filledCount := filledCount c + df';
                        skippedCount := skippedCount c + ds' + m;
                        errorCount := errorCount c + de' |}
              /\ up cl = {| filledCount := filledCount cl + df';
                            skippedCount := skippedCount cl + ds';
                            errorCount := errorCount cl + de' + m |}).
  { intros up df ds de m Hup ->. exists df, ds, de. rewrite !Hup.
    split; f_equal; lia. }
  assert (Hf : forall c0, filledUp c0
               = {| filledCount := filledCount c0 + 1;
                    skippedCount := skippedCount c0 + 0;
                    errorCount := errorCount c0 + 0 |}).
  { intros [f s e]. unfold filledUp. cbn. f_equal; lia. }
  assert (Hs : forall c0, skippedUp c0
               = {| filledCount := filledCount c0 + 0;
                    skippedCount := skippedCount c0 + 1;
                    errorCount := errorCount c0 + 0 |}).
  { intros [f s e]. unfold skippedUp. cbn. f_equal; lia. }
  assert (He : forall c0, errorUp c0
               = {| filledCount := filledCount c0 + 0;
                    skippedCount := skippedCount c0 + 0;
                    errorCount := errorCount c0 + 1 |}).
  { intros [f s e]. unfold errorUp. cbn. f_equal; lia. }
  unfold absenceFree in Hfree.
  unfold Legacy.fillRow, FormManager.fillRow, alreadyComplete.
  rewrite legacy_parseDateRow.
  destruct (FormManager.parseDateRow row) as [dateInfo|]; cbn [option_map].
  2:{ exists row, (skippedUp c), (skippedUp cl), p, w, None. unfold ret.
      repeat split; try discriminate. intros _. now apply (Hcount skippedUp 0 1 0)%nat. }
  rewrite (legacy_shouldSkipDate_absenceFree config dateInfo Hfree).
  destruct (FormManager.shouldSkipDate config dateInfo) as [skip dateInfo'].
  cbn [fst snd]. destruct skip; cbn [negb andb].
  { exists row, (skippedUp c), (skippedUp cl), p, w, None. unfold ret.
    repeat split; try discriminate. intros _. now apply (Hcount skippedUp 0 1 0)%nat. }
  destruct (FormManager.isRowComplete row).
  { exists row, (skippedUp c), (errorUp cl), p, w, None. unfold ret.
    repeat split; try discriminate. intros _.
    exists 0%nat, 0%nat, 0%nat. rewrite Hs, He. split; f_equal; lia. }
  change (Legacy.date (toLegacy dateInfo')) with (date dateInfo').
  destruct (getTimeData p (date dateInfo')) as [[thrown|[timeData|]] p'].
  - destruct thrown; cbn [Legacy.catchRow]; unfold ret.
    + exists row, (errorUp c), cl, p', w, (Some (cannotReadMessage true)).
      repeat split; try discriminate.
      intros message H. injection H as <-. now exists true.
    + exists row, (errorUp c), cl, p', w, (Some (cannotReadMessage false)).
      repeat split; try discriminate.
      intros message H. injection H as <-. now exists false.
    + exists row, (errorUp c), (errorUp cl), p', w, None.
      repeat split; try discriminate. intros _.
      now apply (Hcount errorUp 0 0 1)%nat.
  - rewrite !bind_run.
    destruct (FormManager.fillRowInputs row timeData (date dateInfo') w)
      as [[res row'] w1].
    cbn [fst snd]. rewrite !bind_run. cbn [fst snd]. unfold ret.
    destruct (success res).
    + exists row', (filledUp c), (filledUp cl), p', (snd (pause 100 w1)), None.
      repeat split; try discriminate. intros _.
      now apply (Hcount filledUp 1 0 0)%nat.
    + exists row', (errorUp c), (errorUp cl), p', (snd (pause 100 w1)), None.
      repeat split; try discriminate. intros _.
      now apply (Hcount errorUp 0 0 1)%nat.
  - exists row, (errorUp c), (errorUp cl), p', w, None. unfold ret.
    repeat split; try discriminate. intros _.
    now apply (Hcount errorUp 0 0 1)%nat.
Qed.

Lemma legacy_fillRows (rows : list Row) :
  Forall (fun row => absenceFree config row = true) rows ->
  forall (c cl : Counts) (p : P) (w : World),
  let n := length (List.filter (alreadyComplete config) rows) in
  exists rows' cl' p' w' escaped,
    Legacy.fillRows rows cl p w = ((rows', cl', p', escaped), w')
    /\ (escaped = None ->
        exists df ds de,
          FormManager.fillRows config rows c p w
          = ((rows', {| filledCount := filledCount c + df;
                        skippedCount := skippedCount c + ds + n;
                        errorCount := errorCount c + de |}, p'), w')
          /\ cl' = {| filledCount := filledCount cl + df;
                      skippedCount := skippedCount cl + ds;
                      errorCount := errorCount cl + de + n |})
    /\ (forall message, escaped = Some message ->
        exists ofNull, message = cannotReadMessage ofNull).
Proof.
  induction rows as [|row rest IH]; intros Hfree c cl p w.
  - exists [], cl, p, w, None. cbn. unfold ret.
    split; [reflexivity|]. split; [|discriminate]. intros _.
    exists 0%nat, 0%nat, 0%nat.
    destruct c as [f s e], cl as [fl sl el]. cbn.
    split; repeat f_equal; lia.
  - inversion Hfree as [|? ? Hrow Hrest]; subst.
    cbn [FormManager.fillRows Legacy.fillRows List.filter].
    rewrite !bind_run.
    destruct (legacy_fillRow row c cl p w Hrow)
      as (row' & c1 & cl1 & p1 & w1 & esc1 & Hnew & Hold & Hnone & Hsome).
    rewrite Hnew, Hold. cbn [fst snd].
    destruct esc1 as [message|].
    + exists (row' :: rest), cl1, p1, w1, (Some message). unfold ret.
      split; [reflexivity|]. split; [discriminate|]. exact Hsome.
    + destruct (Hnone eq_refl) as (df & ds & de & -> & ->).
      rewrite !bind_run.
      match goal with
      | |- context [Legacy.fillRows rest ?cl1 p1 w1] =>
          match goal with
          | |- context [FormManager.fillRows config rest ?c1 p1 w1] =>
              destruct (IH Hrest c1 cl1 p1 w1)
                as (rest' & cl2 & p2 & w2 & esc2 & Hold2 & Hnone2 & Hsome2)
          end
      end.
      rewrite Hold2. cbn [fst snd]. unfold ret.
      exists (row' :: rest'), cl2, p2, w2, esc2.
      split; [reflexivity|]. split; [|exact Hsome2].
      intros Hesc. destruct (Hnone2 Hesc) as (df2 & ds2 & de2 & Hnew2 & ->).
      rewrite Hnew2. cbn [fst snd filledCount skippedCount errorCount].
      exists (df + df2)%nat, (ds + ds2)%nat, (de + de2)%nat.
      destruct (alreadyComplete config row); cbn [length];
        split;
        try match goal with
            | |- (_, ?c1, _, _) = (_, ?c2, _, _) =>
                replace c1 with c2; [reflexivity | f_equal; lia]
            end;
        f_equal; lia.
Qed.

End LegacyAgainstModules.

(** X14.  On a table none of whose rows has an absence code for which
    the rules object holds a reason, the fill pass of the older script,
    whenever it returns success, has left the same page, clock, trace
    and provider as that of formManager.js and gives the same message;
    the counters differ by the working days found complete, and by
    nothing else: the modules report them among the skipped rows, the
    older script among the errors.  The older script returns a failure
    on such a table only when the provider has thrown null or undefined,
    which its row handler cannot read; formManager.js returns success
    then too.  Without the dialog or the table both return the same
    failure. *)
Theorem legacy_fillTimeInputs_differs
  (config : Config) (P : Type) (provider : DataProvider P)
  (p : P) (w : World) :
  let new := FormManager.fillTimeInputs config p w in
  let old := Legacy.fillTimeInputs p w in
  ((dialog (document w) = None
    \/ exists d, dialog (document w) = Some d /\ hoursReport d = None) ->
   old = new /\ success (fst (fst old)) = false)
  /\ forall d t,
       dialog (document w) = Some d -> hoursReport d = Some t ->
       Forall (fun row => absenceFree config row = true) (dateRows t) ->
       let n := length (List.filter (alreadyComplete config) (dateRows t)) in
       success (fst (fst new)) = true
       /\ (success (fst (fst old)) = true ->
           snd old = snd new
           /\ snd (fst old) = snd (fst new)
           /\ message (fst (fst old)) = message (fst (fst new))
           /\ exists filled skipped errors,
                details (fst (fst new))
                = Some (FillDetails filled (skipped + n) errors)
                /\ details (fst (fst old))
                   = Some (FillDetails filled skipped (errors + n)))
       /\ (success (fst (fst old)) = false ->
           exists ofNull,
             error (fst (fst old))
             = Some (lit "Form filling failed: " ++ cannotReadMessage ofNull)).
Proof.
  intros new old. subst new old.
  unfold FormManager.fillTimeInputs, Legacy.fillTimeInputs.
  rewrite !bind_run. cbn [getDocument fst snd].
  destruct (dialog (document w)) as [d|] eqn:Hd.
  2:{ split; [intros _; now split|]. intros d t H. discriminate. }
  destruct (hoursReport d) as [t|] eqn:Ht.
  2:{ split; [intros _; now split|]. intros d' t H H'.
      injection H as <-. congruence. }
  split.
  { intros [H | (d' & H & H')]; [discriminate|].
    injection H as <-. congruence. }
  intros d' t' H H' Hfree. injection H as <-. rewrite Ht in H'.
  injection H' as <-.
  rewrite !bind_run.
  destruct (legacy_fillRows config (dateRows t) Hfree
              {| filledCount := 0; skippedCount := 0; errorCount := 0 |}
              {| filledCount := 0; skippedCount := 0; errorCount := 0 |} p w)
    as (rows' & cl' & p' & w' & escaped & Hold & Hnone & Hsome).
  rewrite Hold. cbn [fst snd].
  destruct (FormManager.fillRows config (dateRows t)
              {| filledCount := 0; skippedCount := 0; errorCount := 0 |} p w)
    as [[[rowsN cN] pN] wN] eqn:Hnew.
  cbn [fst snd]. rewrite !bind_run.
  cbn [fst snd ret storeRows success].
  split; [reflexivity|].
  destruct escaped as [message|].
  - cbn [fst snd ret success failed error]. split; [discriminate|].
    intros _. destruct (Hsome message eq_refl) as (ofNull & ->).
    now exists ofNull.
  - cbn [fst snd ret success message details]. split; [|discriminate].
    intros _. destruct (Hnone eq_refl) as (df & ds & de & Heq & ->).
    injection Heq as -> -> -> ->.
    cbn [filledCount skippedCount errorCount].
    repeat split. exists df, ds, de. cbn. split; reflexivity.
Qed.

Lemma legacy_fillTimeInputs_differs_witness :
  let rows := [workingDay (Some (lit "09:00")) (Some (lit "18:00"));
               workingDay (Some []) (Some [])] in
  let new := FormManager.fillTimeInputs noRules nineToSix
               (start (pageWithRows rows)) in
  let old := Legacy.fillTimeInputs nineToSix (start (pageWithRows rows)) in
  snd old = snd new
  /\ details (fst (fst new)) = Some (FillDetails 1 1 0)
  /\ details (fst (fst old)) = Some (FillDetails 1 0 1)
  /\ success (fst (fst (FormManager.fillTimeInputs noRules nullThrower
                           (start (pageWithRows rows))))) = true
  /\ exists ofNull,
       error (fst (fst (Legacy.fillTimeInputs nullThrower
                          (start (pageWithRows rows)))))
       = Some (lit "Form filling failed: " ++ cannotReadMessage ofNull).
Proof.
  intros rows new old.
  destruct (legacy_fillTimeInputs_differs noRules _ _ nineToSix
              (start (pageWithRows rows))) as (_ & H).
  destruct (H _ _ eq_refl eq_refl) as (_ & Hok & _).
  { repeat constructor. }
  destruct (Hok eq_refl) as (Hw & _).
  split; [exact Hw|]. split; [reflexivity|]. split; [reflexivity|].
  destruct (legacy_fillTimeInputs_differs noRules _ _ nullThrower
              (start (pageWithRows rows))) as (_ & H0).
  destruct (H0 _ _ eq_refl eq_refl) as (Hnew & _ & Hfail).
  { repeat constructor. }
  split; [exact Hnew|]. exact (Hfail eq_refl).
Defined.

(** ** formManager.js: reading the date of a row *)

Lemma hebrew_not_white (c : N) :
  DateUtils.isHebrewLetter c = true -> isWhiteSpace c = false.
Proof.
  unfold DateUtils.isHebrewLetter, isWhiteSpace, ALEF, TAV. intros H.
  apply andb_true_iff in H. destruct H as [H1 H2].
  apply N.leb_le in H1. apply N.leb_le in H2.
  repeat match goal with
         | |- _ || _ = false => apply orb_false_iff; split
         | |- _ && _ = false => apply andb_false_iff
         end;
    try (apply N.eqb_neq; lia).
  - right. apply N.leb_gt. lia.
  - left. apply N.leb_gt. lia.
Qed.

Lemma trimStart_white (ws rest : str) :
  forallb isWhiteSpace ws = true -> trimStart (ws ++ rest) = trimStart rest.
Proof.
  induction ws as [|a ws IH]; [reflexivity|]. cbn [forallb app trimStart].
  intros H. apply andb_true_iff in H. destruct H as [Ha Hws].
  rewrite Ha. now apply IH.
Qed.

Lemma matchDate_eq (s : str) :
  matchDate s = match matchDateAt s with
                | Some groups => Some groups
                | None => match s with
                          | [] => None
                          | _ :: s' => matchDate s'
                          end
                end.
Proof. destruct s; reflexivity. Qed.

Lemma matchDateAt_sound (s d h : str) :
  matchDateAt s = Some (d, h) ->
  exists ws c post,
    s = d ++ ws ++ c :: post
    /\ dateShaped d = true
    /\ forallb isWhiteSpace ws = true
    /\ DateUtils.isHebrewLetter c = true
    /\ h = [c].
Proof.
  destruct s as [|d1 [|d2 [|s1 [|m1 [|m2 [|s2 [|y1 [|y2 [|y3 [|y4 rest]]]]]]]]]];
    try discriminate.
  unfold matchDateAt.
  destruct (isDigit d1 && isDigit d2 && (s1 =? SLASH)%N
            && isDigit m1 && isDigit m2 && (s2 =? SLASH)%N
            && isDigit y1 && isDigit y2 && isDigit y3 && isDigit y4) eqn:Hshape;
    [|discriminate].
  destruct (trimStart_split rest) as (ws & Hrest & Hws).
  destruct (trimStart rest) as [|c post]; [discriminate|].
  destruct ((ALEF <=? c)%N && (c <=? TAV)%N) eqn:Hc; [|discriminate].
  intros H. injection H as <- <-.
  exists ws, c, post. rewrite Hrest at 1.
  repeat split; try assumption.
Qed.

Lemma matchDateAt_complete (d ws : str) (c : N) (post : str) :
  dateShaped d = true ->
  forallb isWhiteSpace ws = true ->
  DateUtils.isHebrewLetter c = true ->
  matchDateAt (d ++ ws ++ c :: post) = Some (d, [c]).
Proof.
  intros Hd Hws Hc.
  destruct d as [|d1 [|d2 [|s1 [|m1 [|m2 [|s2 [|y1 [|y2 [|y3 [|y4 [|x d]]]]]]]]]]];
    try discriminate.
  unfold dateShaped in Hd. cbn [app]. unfold matchDateAt. rewrite Hd.
  rewrite (trimStart_white ws (c :: post) Hws). cbn [trimStart].
  rewrite (hebrew_not_white c Hc).
  unfold DateUtils.isHebrewLetter in Hc. now rewrite Hc.
Qed.

Lemma matchDate_sound (s : str) :
  forall d h,
  matchDate s = Some (d, h) ->
  exists pre ws c post,
    s = pre ++ d ++ ws ++ c :: post
    /\ dateShaped d = true
    /\ forallb isWhiteSpace ws = true
    /\ DateUtils.isHebrewLetter c = true
    /\ h = [c]
    /\ forall k, (k < length pre)%nat -> matchDateAt (drop k s) = None.
Proof.
  induction s as [|a s IH]; intros d h; rewrite matchDate_eq.
  - discriminate.
  - destruct (matchDateAt (a :: s)) as [[d0 h0]|] eqn:Hat.
    + intros H. injection H as <- <-.
      destruct (matchDateAt_sound _ _ _ Hat) as (ws & c & post & Hs & Hrest).
      exists [], ws, c, post. cbn [app length].
      destruct Hrest as (H1 & H2 & H3 & H4).
      repeat split; try assumption. intros k Hk. lia.
    + intros H.
      destruct (IH d h H) as (pre & ws & c & post & Hs & H1 & H2 & H3 & H4 & H5).
      exists (a :: pre), ws, c, post. cbn [app length].
      split; [now rewrite Hs at 1|]. repeat split; try assumption.
      intros [|k] Hk; [exact Hat|]. cbn [drop]. apply H5. lia.
Qed.

(** X15.  A row that [parseDateRow] accepts has a date cell with a date
    text whose trimmed form holds, at the leftmost place where the
    pattern fits, a date of the shape DD/MM/YYYY, white space or nothing,
    and a Hebrew letter: these are the [date] and the one-letter
    [hebrewDay] of the result.  [fullText] is the trimmed text,
    [specialText] the trimmed description or the empty string,
    [missingEventValue] the value of the absence selector or "0", and no
    skip reason is set. *)
Theorem parseDateRow_sound (row : Row) (dateInfo : DateInfo) :
  FormManager.parseDateRow row = Some dateInfo ->
  exists cell text pre ws c post,
    dateCell row = Some cell
    /\ dateText cell = Some text
    /\ trim text = pre ++ date dateInfo ++ ws ++ c :: post
    /\ (forall k, (k < length pre)%nat ->
                  matchDateAt (drop k (trim text)) = None)
    /\ dateShaped (date dateInfo) = true
    /\ forallb isWhiteSpace ws = true
    /\ DateUtils.isHebrewLetter c = true
    /\ hebrewDay dateInfo = [c]
    /\ fullText dateInfo = trim text
    /\ specialText dateInfo
       = match specialDayDescription cell with
         | Some special => trim special
         | None => []
         end
    /\ missingEventValue dateInfo
       = match missingSelect row with
         | Some value => value
         | None => lit "0"
         end
    /\ skipReason dateInfo = None.
Proof.
  unfold FormManager.parseDateRow.
  destruct (dateCell row) as [cell|]; [|discriminate].
  destruct (dateText cell) as [text|] eqn:Htext; [|discriminate].
  cbv zeta. destruct (matchDate (trim text)) as [[d h]|] eqn:Hm; [|discriminate].
  intros H. injection H as <-. cbn [date hebrewDay fullText specialText
                                    missingEventValue skipReason].
  destruct (matchDate_sound _ _ _ Hm)
    as (pre & ws & c & post & Hs & H1 & H2 & H3 & H4 & H5).
  exists cell, text, pre, ws, c, post. repeat split; assumption.
Qed.

Lemma parseDateRow_sound_witness :
  exists cell text pre ws c post,
    dateCell (workingDay None None) = Some cell
    /\ dateText cell = Some text
    /\ trim text = pre ++ lit "26/08/2025" ++ ws ++ c :: post
    /\ (forall k, (k < length pre)%nat ->
                  matchDateAt (drop k (trim text)) = None)
    /\ dateShaped (lit "26/08/2025") = true
    /\ forallb isWhiteSpace ws = true
    /\ DateUtils.isHebrewLetter c = true
    /\ [BET] = [c]
    /\ lit "26/08/2025 " ++ [BET] = trim text
    /\ [] = match specialDayDescription cell with
            | Some special => trim special
            | None => []
            end
    /\ lit "0" = match missingSelect (workingDay None None) with
                 | Some value => value
                 | None => lit "0"
                 end
    /\ None = (None : option Value).
Proof.
  apply (parseDateRow_sound (workingDay None None)
           {| date := lit "26/08/2025"; hebrewDay := [BET];
              specialText := []; missingEventValue := lit "0";
              fullText := lit "26/08/2025 " ++ [BET]; skipReason := None |}).
  reflexivity.
Defined.

(** X16.  A row whose trimmed date text begins with a date of the shape
    DD/MM/YYYY, then white space or nothing, then a Hebrew letter, is
    accepted by [parseDateRow] with that date and that letter, whatever
    follows the letter. *)
Theorem parseDateRow_complete
  (row : Row) (cell : DateCell) (text d ws : str) (c : N) (post : str) :
  dateCell row = Some cell ->
  dateText cell = Some text ->
  trim text = d ++ ws ++ c :: post ->
  dateShaped d = true ->
  forallb isWhiteSpace ws = true ->
  DateUtils.isHebrewLetter c = true ->
  FormManager.parseDateRow row
  = Some {| date := d; hebrewDay := [c];
            specialText := match specialDayDescription cell with
                           | Some special => trim special
                           | None => []
                           end;
            missingEventValue := match missingSelect row with
                                 | Some value => value
                                 | None => lit "0"
                                 end;
            fullText := trim text; skipReason := None |}.
Proof.
  intros Hcell Htext Htrim Hd Hws Hc.
  unfold FormManager.parseDateRow. rewrite Hcell, Htext. cbv zeta.
  rewrite matchDate_eq, Htrim, (matchDateAt_complete d ws c post Hd Hws Hc).
  reflexivity.
Qed.

Lemma parseDateRow_complete_witness :
  FormManager.parseDateRow
    {| dateCell := Some {| dateText := Some (lit "  01/09/2025" ++ [HET]
                                             ++ lit " (x) ");
                           specialDayDescription := Some (lit " y ") |};
       missingSelect := None; checkIn := None; checkOut := None |}
  = Some {| date := lit "01/09/2025"; hebrewDay := [HET];
            specialText := lit "y"; missingEventValue := lit "0";
            fullText := lit "01/09/2025" ++ [HET] ++ lit " (x)";
            skipReason := None |}.
Proof.
  exact (parseDateRow_complete
           {| dateCell := Some {| dateText := Some (lit "  01/09/2025" ++ [HET]
                                                    ++ lit " (x) ");
                                  specialDayDescription := Some (lit " y ") |};
              missingSelect := None; checkIn := None; checkOut := None |}
           {| dateText := Some (lit "  01/09/2025" ++ [HET] ++ lit " (x) ");
              specialDayDescription := Some (lit " y ") |}
           (lit "  01/09/2025" ++ [HET] ++ lit " (x) ")
           (lit "01/09/2025") [] HET (lit " (x)")
           eq_refl eq_refl eq_refl eq_refl eq_refl eq_refl).
Defined.

(** ** utils.js: the date helpers *)

Lemma span_spec (class : N -> bool) (s : str) :
  s = fst (DateUtils.span class s) ++ snd (DateUtils.span class s)
  /\ forallb class (fst (DateUtils.span class s)) = true
  /\ match snd (DateUtils.span class s) with
     | c :: _ => class c = false
     | [] => True
     end.
Proof.
  induction s as [|c s (IH1 & IH2 & IH3)]; cbn [DateUtils.span].
  - now repeat split.
  - destruct (class c) eqn:Ec.
    + destruct (DateUtils.span class s) as [run rest]. cbn [fst snd] in *.
      split; [now rewrite IH1 at 1|]. split; [|exact IH3].
      cbn [forallb]. now rewrite Ec, IH2.
    + cbn [fst snd]. now repeat split.
Qed.

Lemma span_app (class : N -> bool) (run rest : str) :
  forallb class run = true ->
  match rest with c :: _ => class c = false | [] => True end ->
  DateUtils.span class (run ++ rest) = (run, rest).
Proof.
  intros Hrun Hrest. induction run as [|c run IH]; cbn [app].
  - destruct rest as [|c rest]; [reflexivity|].
    cbn [DateUtils.span]. now rewrite Hrest.
  - cbn [forallb] in Hrun. apply andb_true_iff in Hrun.
    destruct Hrun as [Hc Hrun]. cbn [DateUtils.span].
    now rewrite Hc, (IH Hrun).
Qed.

Lemma white_not_digit (c : N) : isWhiteSpace c = true -> isDigit c = false.
Proof.
  unfold isWhiteSpace, isDigit. intros H.
  destruct ((48 <=? c)%N && (c <=? 57)%N) eqn:E; [|reflexivity].
  apply andb_true_iff in E. destruct E as [E1 E2].
  apply N.leb_le in E1. apply N.leb_le in E2.
  repeat match type of H with
         | _ || _ = true => apply orb_true_iff in H; destruct H as [H|H]
         end;
    try (apply N.eqb_eq in H; lia);
    apply andb_true_iff in H; destruct H as [H H'];
    apply N.leb_le in H; apply N.leb_le in H'; lia.
Qed.

Lemma parseHebrewDate_parts (dateString : str) (result : DateUtils.HebrewDate) :
  DateUtils.parseHebrewDate dateString = Some result ->
  dateString <> []
  /\ exists day month year ws letters,
       trim dateString
       = day ++ [SLASH] ++ month ++ [SLASH] ++ year ++ ws ++ letters
       /\ forallb isDigit day = true
       /\ (1 <= length day <= 2)%nat
       /\ forallb isDigit month = true
       /\ (1 <= length month <= 2)%nat
       /\ forallb isDigit year = true
       /\ length year = 4%nat
       /\ forallb isWhiteSpace ws = true
       /\ (1 <= length ws)%nat
       /\ forallb DateUtils.isHebrewLetter letters = true
       /\ (1 <= length letters)%nat
       /\ result = {| DateUtils.fullString := dateString;
                      DateUtils.datePart :=
                        day ++ [SLASH] ++ month ++ [SLASH] ++ year;
                      DateUtils.hebrewDay := letters;
                      DateUtils.isValid := true |}.
Proof.
  destruct dateString as [|a s']; [discriminate|].
  remember (a :: s') as s eqn:Es. intros H. split; [subst s; discriminate|].
  assert (Hrun : match
                   (let (day, afterDay) := DateUtils.span isDigit (trim s) in
                    match afterDay with
                    | c1 :: afterSlash1 =>
                        let (month, afterMonth) :=
                          DateUtils.span isDigit afterSlash1 in
                        match afterMonth with
                        | c2 :: afterSlash2 =>
                            let (year, afterYear) :=
                              DateUtils.span isDigit afterSlash2 in
                            let (space, afterSpace) :=
                              DateUtils.span isWhiteSpace afterYear in
                            let (letters, rest) :=
                              DateUtils.span DateUtils.isHebrewLetter
                                afterSpace in
                            if ((1 <=? length day) && (length day <=? 2)
                                && (c1 =? SLASH)%N
                                && (1 <=? length month)
                                && (length month <=? 2)
                                && (c2 =? SLASH)%N
                                && (length year =? 4)
                                && (1 <=? length space)
                                && (1 <=? length letters)
                                && (length rest =? 0))%nat
                            then Some {| DateUtils.fullString := s;
                                         DateUtils.datePart :=
                                           day ++ [SLASH] ++ month
                                           ++ [SLASH] ++ year;
                                         DateUtils.hebrewDay := letters;
                                         DateUtils.isValid := true |}
                            else None
                        | [] => None
                        end
                    | [] => None
                    end)
                 with
                 | Some r => r = result
                 | None => False
                 end).
  { subst s. unfold DateUtils.parseHebrewDate in H. rewrite H. reflexivity. }
  clear H Es a s'.
  pose proof (span_spec isDigit (trim s)) as (S1 & D1 & _).
  destruct (DateUtils.span isDigit (trim s)) as [day afterDay].
  cbn [fst snd] in *.
  destruct afterDay as [|c1 afterSlash1]; [contradiction|].
  pose proof (span_spec isDigit afterSlash1) as (S2 & D2 & _).
  destruct (DateUtils.span isDigit afterSlash1) as [month afterMonth].
  cbn [fst snd] in *.
  destruct afterMonth as [|c2 afterSlash2]; [contradiction|].
  pose proof (span_spec isDigit afterSlash2) as (S3 & D3 & _).
  destruct (DateUtils.span isDigit afterSlash2) as [year afterYear].
  cbn [fst snd] in *.
  pose proof (span_spec isWhiteSpace afterYear) as (S4 & D4 & _).
  destruct (DateUtils.span isWhiteSpace afterYear) as [space afterSpace].
  cbn [fst snd] in *.
  pose proof (span_spec DateUtils.isHebrewLetter afterSpace) as (S5 & D5 & _).
  destruct (DateUtils.span DateUtils.isHebrewLetter afterSpace)
    as [letters rest].
  cbn [fst snd] in *.
  match type of Hrun with
  | match (if ?b then _ else _) with _ => _ end =>
      destruct b eqn:Hb; [|contradiction]
  end.
  repeat match type of Hb with
         | _ && _ = true =>
             let H' := fresh "Hb" in
             apply andb_true_iff in Hb; destruct Hb as [Hb H']
         end.
  repeat match goal with
         | H : (_ <=? _)%nat = true |- _ => apply Nat.leb_le in H
         | H : (_ =? _)%nat = true |- _ => apply Nat.eqb_eq in H
         | H : (_ =? _)%N = true |- _ => apply N.eqb_eq in H
         end.
  subst c1 c2.
  destruct rest as [|x rest]; [|discriminate].
  rewrite app_nil_r in S5. subst afterSpace afterYear afterSlash2 afterSlash1.
  exists day, month, year, space, letters.
  split; [exact S1|].
  repeat split; try assumption; try lia. now symmetry.
Qed.

(** X17.  [parseHebrewDate] accepts a text exactly when the text is not
    empty and, trimmed, is made of one or two digits, a slash, one or two
    digits, a slash, four digits, at least one white-space character and
    at least one Hebrew letter, with nothing after the letters.  The
    result keeps the text as given, the date up to the year, and all the
    letters. *)
Theorem parseHebrewDate_iff (dateString : str) (result : DateUtils.HebrewDate) :
  DateUtils.parseHebrewDate dateString = Some result <->
  dateString <> []
  /\ exists day month year ws letters,
       trim dateString
       = day ++ [SLASH] ++ month ++ [SLASH] ++ year ++ ws ++ letters
       /\ forallb isDigit day = true
       /\ (1 <= length day <= 2)%nat
       /\ forallb isDigit month = true
       /\ (1 <= length month <= 2)%nat
       /\ forallb isDigit year = true
       /\ length year = 4%nat
       /\ forallb isWhiteSpace ws = true
       /\ (1 <= length ws)%nat
       /\ forallb DateUtils.isHebrewLetter letters = true
       /\ (1 <= length letters)%nat
       /\ result = {| DateUtils.fullString := dateString;
                      DateUtils.datePart :=
                        day ++ [SLASH] ++ month ++ [SLASH] ++ year;
                      DateUtils.hebrewDay := letters;
                      DateUtils.isValid := true |}.
Proof.
  split.
  - apply parseHebrewDate_parts.
  - intros (Hne & day & month & year & ws & letters & Htrim & D1 & L1 & D2 & L2
            & D3 & L3 & D4 & L4 & D5 & L5 & ->).
    destruct dateString as [|a s']; [contradiction|].
    remember (a :: s') as s eqn:Es.
    assert (Hgoal : (let (day0, afterDay) := DateUtils.span isDigit (trim s) in
                     match afterDay with
                     | c1 :: afterSlash1 =>
                         let (month0, afterMonth) :=
                           DateUtils.span isDigit afterSlash1 in
                         match afterMonth with
                         | c2 :: afterSlash2 =>
                             let (year0, afterYear) :=
                               DateUtils.span isDigit afterSlash2 in
                             let (space, afterSpace) :=
                               DateUtils.span isWhiteSpace afterYear in
                             let (letters0, rest) :=
                               DateUtils.span DateUtils.isHebrewLetter
                                 afterSpace in
                             if ((1 <=? length day0) && (length day0 <=? 2)
                                 && (c1 =? SLASH)%N
                                 && (1 <=? length month0)
                                 && (length month0 <=? 2)
                                 && (c2 =? SLASH)%N
                                 && (length year0 =? 4)
                                 && (1 <=? length space)
                                 && (1 <=? length letters0)
                                 && (length rest =? 0))%nat
                             then Some {| DateUtils.fullString := s;
                                          DateUtils.datePart :=
                                            day0 ++ [SLASH] ++ month0
                                            ++ [SLASH] ++ year0;
                                          DateUtils.hebrewDay := letters0;
                                          DateUtils.isValid := true |}
                             else None
                         | [] => None
                         end
                     | [] => None
                     end)
                    = Some {| DateUtils.fullString := s;
                              DateUtils.datePart :=
                                day ++ [SLASH] ++ month ++ [SLASH] ++ year;
                              DateUtils.hebrewDay := letters;
                              DateUtils.isValid := true |}).
    2:{ subst s. exact Hgoal. }
    clear Es Hne a s'. rewrite Htrim.
    assert (Hw : match ws ++ letters with
                 | c :: _ => isDigit c = false
                 | [] => True
                 end).
    { destruct ws as [|c ws]; [cbn in L4; lia|]. cbn [app].
      cbn [forallb] in D4. apply andb_true_iff in D4.
      apply white_not_digit. apply D4. }
    assert (Hl : match letters with
                 | c :: _ => isWhiteSpace c = false
                 | [] => True
                 end).
    { destruct letters as [|c letters]; [exact I|].
      cbn [forallb] in D5. apply andb_true_iff in D5.
      apply hebrew_not_white. apply D5. }
    rewrite (span_app isDigit day
               ([SLASH] ++ month ++ [SLASH] ++ year ++ ws ++ letters) D1
               eq_refl).
    cbn [app].
    rewrite (span_app isDigit month (SLASH :: year ++ ws ++ letters) D2
               eq_refl).
    rewrite (span_app isDigit year (ws ++ letters) D3 Hw).
    rewrite (span_app isWhiteSpace ws letters D4 Hl).
    rewrite <- (app_nil_r letters) at 1.
    rewrite (span_app DateUtils.isHebrewLetter letters [] D5 I).
    replace ((1 <=? length day) && (length day <=? 2)
             && (SLASH =? SLASH)%N
             && (1 <=? length month) && (length month <=? 2)
             && (SLASH =? SLASH)%N
             && (length year =? 4)
             && (1 <=? length ws)
             && (1 <=? length letters)
             && (length (@nil N) =? 0))%nat with true; [reflexivity|].
    symmetry.
    repeat (apply andb_true_iff; split);
      try (apply Nat.leb_le; lia); try (apply Nat.eqb_eq; cbn; lia);
      reflexivity.
Qed.

(** X18.  The two date readers agree on the usual text: what
    [parseHebrewDate] accepts with a ten-character date part,
    [parseDateRow] accepts as the date text of a row, with the same date
    and, as the day, the first of the letters. *)
Theorem parseDateRow_parseHebrewDate
  (row : Row) (cell : DateCell) (text : str) (result : DateUtils.HebrewDate) :
  dateCell row = Some cell ->
  dateText cell = Some text ->
  DateUtils.parseHebrewDate text = Some result ->
  length (DateUtils.datePart result) = 10%nat ->
  exists dateInfo,
    FormManager.parseDateRow row = Some dateInfo
    /\ date dateInfo = DateUtils.datePart result
    /\ hebrewDay dateInfo = take 1 (DateUtils.hebrewDay result)
    /\ fullText dateInfo = trim text.
Proof.
  intros Hcell Htext Hparse Hlen.
  destruct (parseHebrewDate_parts text result Hparse)
    as (_ & day & month & year & ws & letters & Htrim & D1 & L1 & D2 & L2
        & D3 & L3 & D4 & L4 & D5 & L5 & ->).
  cbn [DateUtils.datePart DateUtils.hebrewDay] in *.
  rewrite !length_app in Hlen. cbn [length] in Hlen.
  destruct day as [|d1 [|d2 [|x day]]]; cbn [length] in L1, Hlen; try lia.
  destruct month as [|m1 [|m2 [|x month]]]; cbn [length] in L2, Hlen; try lia.
  destruct year as [|y1 [|y2 [|y3 [|y4 [|x year]]]]]; try discriminate.
  destruct letters as [|c letters]; [cbn in L5; lia|].
  cbn [forallb] in D1, D2, D3, D5.
  repeat match goal with
         | H : _ && _ = true |- _ => apply andb_true_iff in H; destruct H
         end.
  assert (Hshape : dateShaped ([d1; d2] ++ [SLASH] ++ [m1; m2] ++ [SLASH]
                               ++ [y1; y2; y3; y4]) = true).
  { cbn [app dateShaped].
    repeat match goal with
           | H : isDigit _ = true |- _ => rewrite H; clear H
           end.
    reflexivity. }
  assert (Htrim' : trim text
                   = ([d1; d2] ++ [SLASH] ++ [m1; m2] ++ [SLASH]
                      ++ [y1; y2; y3; y4]) ++ ws ++ c :: letters)
    by exact Htrim.
  eexists. split.
  - unfold FormManager.parseDateRow. rewrite Hcell, Htext. cbv zeta.
    rewrite matchDate_eq, Htrim'.
    rewrite (matchDateAt_complete _ ws c letters Hshape D4);
      [reflexivity | assumption].
  - cbn [date hebrewDay fullText]. rewrite <- Htrim'. now repeat split.
Qed.

Lemma parseDateRow_parseHebrewDate_witness :
  exists dateInfo,
    FormManager.parseDateRow (workingDay None None) = Some dateInfo
    /\ date dateInfo = lit "26/08/2025"
    /\ hebrewDay dateInfo = take 1 [BET]
    /\ fullText dateInfo = trim (lit "26/08/2025 " ++ [BET]).
Proof.
  exact (parseDateRow_parseHebrewDate (workingDay None None)
           {| dateText := Some (lit "26/08/2025 " ++ [BET]);
              specialDayDescription := None |}
           (lit "26/08/2025 " ++ [BET])
           {| DateUtils.fullString := lit "26/08/2025 " ++ [BET];
              DateUtils.datePart := lit "26/08/2025";
              DateUtils.hebrewDay := [BET];
              DateUtils.isValid := true |}
           eq_refl eq_refl eq_refl eq_refl).
Defined.

(** X19.  [containsSkipPattern] answers true exactly when one of the
    patterns occurs in the text as a run of consecutive characters; an
    empty pattern occurs in every text, and no pattern at all gives
    false. *)
Theorem containsSkipPattern_iff (text : str) (skipPatterns : list str) :
  (DateUtils.containsSkipPattern text skipPatterns = true
   <-> exists pattern before after,
         In pattern skipPatterns /\ text = before ++ pattern ++ after)
  /\ DateUtils.containsSkipPattern text [] = false
  /\ DateUtils.containsSkipPattern text ([] :: skipPatterns) = true.
Proof.
  split; [|split].
  - unfold DateUtils.containsSkipPattern. rewrite existsb_exists. split.
    + intros (pattern & Hin & Hinc). apply includes_app in Hinc.
      destruct Hinc as (before & after & ->). now exists pattern, before, after.
    + intros (pattern & before & after & Hin & ->). exists pattern.
      split; [exact Hin|]. apply includes_app. now exists before, after.
  - reflexivity.
  - unfold DateUtils.containsSkipPattern. cbn [existsb].
    replace (includes text []) with true; [reflexivity|].
    symmetry. apply includes_app. now exists [], text.
Qed.
